(** * py_shop_api_task: the JWT token lifecycle of [users/views.py] and
      [users/authentication.py]

    A shallow embedding of the Django views that register users, log them
    in, refresh access tokens and log them out, together with the
    per-request authentication hook.  Python code that reads the wall
    clock, touches the database or raises is written in a small
    state-and-exception monad over a [World]. *)

From Stdlib Require Import ZArith Lia Ascii String.
From stdpp Require Import base option list gmap strings countable.

Local Open Scope Z_scope.
Local Open Scope string_scope.

(** ** Python's [datetime] and [timedelta]

    Both have microsecond resolution.  A [datetime] is the number of
    microseconds since the epoch, a [timedelta] a number of microseconds.
    Both types are bounded in Python, and arithmetic that leaves the range
    raises [OverflowError]. *)
Module datetime.

Definition us_per_second : Z := 1000000.
Definition us_per_day : Z := 86400 * us_per_second.

(** [timedelta.min] is -999999999 days, [timedelta.max] is one
    microsecond short of 1000000000 days. *)
Definition timedelta_min : Z := -999999999 * us_per_day.
Definition timedelta_max : Z := 1000000000 * us_per_day - 1.

Definition timedelta_ok (d : Z) : Prop :=
  timedelta_min <= d <= timedelta_max.

(** [datetime.min] is 0001-01-01T00:00:00, [datetime.max] is
    9999-12-31T23:59:59.999999 (UTC). *)
Definition datetime_min : Z := -62135596800 * us_per_second.
Definition datetime_max : Z := 253402300800 * us_per_second - 1.

Definition datetime_ok (t : Z) : Prop :=
  datetime_min <= t <= datetime_max.

(** [timedelta(seconds=n)], [timedelta(days=n)], [timedelta(minutes=n)]:
    [None] stands for [OverflowError]. *)
Definition timedelta_of_us (us : Z) : option Z :=
  if decide (timedelta_ok us) then Some us else None.
Definition timedelta_seconds (n : Z) : option Z :=
  timedelta_of_us (n * us_per_second).
Definition timedelta_minutes (n : Z) : option Z :=
  timedelta_of_us (n * 60 * us_per_second).
Definition timedelta_days (n : Z) : option Z :=
  timedelta_of_us (n * us_per_day).

(** [dt + delta]: [None] stands for [OverflowError]. *)
Definition add (t delta : Z) : option Z :=
  if decide (datetime_ok (t + delta)) then Some (t + delta) else None.

(** [calendar.timegm(dt.utctimetuple())]: whole seconds since the epoch,
    the microseconds dropped. *)
Definition timegm (t : Z) : Z := t / us_per_second.

End datetime.

(** ** JSON values and Python values in a token payload *)

(** The JSON values the claims of this service's tokens take:
    [create_token] is only ever given integers and strings (a user id and
    an e-mail), and adds two timestamps.  A payload that verifies could
    hold other JSON values (null, booleans, floats, arrays, objects);
    those are outside this model, so what is proved of a payload is proved
    for integer and string claims, and no statement below lists all the
    exceptions a payload can cause. *)
Inductive Json : Type :=
| JInt (n : Z)
| JStr (s : string).

(** What [create_token] puts in the payload dictionary before
    [jwt.encode] sees it: JSON values and [datetime] objects. *)
Inductive PyValue : Type :=
| PyJson (j : Json)
| PyDatetime (t : Z).

#[global] Instance Json_eq_dec : EqDecision Json.
Proof. solve_decision. Defined.

#[global] Instance Json_countable : Countable Json.
Proof.
  refine (inj_countable'
            (fun j => match j with JInt n => inl n | JStr s => inr s end)
            (fun x => match x with inl n => JInt n | inr s => JStr s end) _).
  intros []; reflexivity.
Defined.

(** ** Database rows *)

(** [users.models.CustomUser]: primary key, unique e-mail, password digest
    and optional username. *)
Record CustomUser : Type := mkUser {
  user_id : Z;
  user_email : string;
  user_password : string;
  user_username : option string
}.

(** [users.models.RefreshTokenModel]: primary key, foreign key to the user,
    unique token string, creation and expiry instants.  The foreign key is
    a plain [ForeignKey], so the schema allows several rows per user.  The
    [max_length=255] of [token] is a limit only some database backends
    enforce, and no length limit is modelled. *)
Record RefreshTokenModel : Type := mkRefreshToken {
  rt_id : Z;
  rt_user : Z;
  rt_token : string;
  rt_created_at : Z;
  rt_expires_at : Z
}.

#[global] Instance CustomUser_eq_dec : EqDecision CustomUser.
Proof. solve_decision. Defined.

#[global] Instance RefreshTokenModel_eq_dec : EqDecision RefreshTokenModel.
Proof. solve_decision. Defined.

(** The [constance] dynamic configuration read by the login view. *)
Record Config : Type := mkConfig {
  ACCESS_TOKEN_LIFETIME : Z;   (* seconds *)
  REFRESH_TOKEN_LIFETIME : Z   (* days *)
}.

(** ** The world a request runs in

    The two tables with their primary-key sequences, the dynamic
    configuration, and the wall clock.  [ticks] is the amount by which the
    clock will have moved at each of its next readings; once it is
    exhausted the clock stands still. *)
Record World : Type := mkWorld {
  users : list CustomUser;
  users_seq : Z;
  refresh_tokens : list RefreshTokenModel;
  refresh_tokens_seq : Z;
  config : Config;
  clock : Z;
  ticks : list Z
}.

Definition with_users (us : list CustomUser) (seq : Z) (w : World) : World :=
  mkWorld us seq (refresh_tokens w) (refresh_tokens_seq w)
          (config w) (clock w) (ticks w).

Definition with_refresh_tokens (rs : list RefreshTokenModel) (seq : Z)
    (w : World) : World :=
  mkWorld (users w) (users_seq w) rs seq (config w) (clock w) (ticks w).

Definition with_config (c : Config) (w : World) : World :=
  mkWorld (users w) (users_seq w) (refresh_tokens w) (refresh_tokens_seq w)
          c (clock w) (ticks w).

(** The world at the next reading of the clock. *)
Definition advance (w : World) : World :=
  match ticks w with
  | [] => w
  | d :: ds =>
      mkWorld (users w) (users_seq w) (refresh_tokens w)
              (refresh_tokens_seq w) (config w) (clock w + d) ds
  end.

(** ** Exceptions and the request monad *)

Inductive Exn : Type :=
| User_DoesNotExist
| RefreshTokenModel_DoesNotExist
| MultipleObjectsReturned
| IntegrityError
| KeyError (key : string)
| IndexError
| ValueError
| OverflowError
| TypeError
| ExpiredSignatureError
| InvalidTokenError
| AuthenticationFailed (detail : string)
| ValidationError.

#[global] Instance Exn_eq_dec : EqDecision Exn.
Proof. solve_decision. Defined.

Inductive Outcome (A : Type) : Type :=
| Returns (a : A) (w : World)
| Raises (e : Exn) (w : World).

Arguments Returns {A} a w.
Arguments Raises {A} e w.

Definition M (A : Type) : Type := World -> Outcome A.

Definition ret {A} (a : A) : M A := fun w => Returns a w.
Definition raise {A} (e : Exn) : M A := fun w => Raises e w.

Definition bind {A B} (c : M A) (k : A -> M B) : M B :=
  fun w =>
    match c w with
    | Returns a w' => k a w'
    | Raises e w' => Raises e w'
    end.

(** [try: c  except ...: h]: the handler picks the exceptions it catches. *)
Definition try_except {A} (c : M A) (h : Exn -> option (M A)) : M A :=
  fun w =>
    match c w with
    | Returns a w' => Returns a w'
    | Raises e w' =>
        match h e with
        | Some k => k w'
        | None => Raises e w'
        end
    end.

Notation "'let*' x ':=' c 'in' k" := (bind c (fun x => k))
  (at level 10, x name, c at level 100, k at level 200).

(** An [option] from the [datetime] module, [None] being [OverflowError]. *)
Definition or_overflow {A} (o : option A) : M A :=
  match o with
  | Some a => ret a
  | None => raise OverflowError
  end.

(** The world an outcome leaves behind, whether it returned or raised. *)
Definition world_of {A} (o : Outcome A) : World :=
  match o with
  | Returns _ w => w
  | Raises _ w => w
  end.

(** [django.utils.timezone.now()] (and [datetime.now(tz=utc)]). *)
Definition timezone_now : M Z :=
  fun w => Returns (clock (advance w)) (advance w).

(** ** The ORM's [objects.get] *)

Inductive GetResult (A : Type) : Type :=
| Found (a : A)
| DoesNotExist
| MultipleObjects.

Arguments Found {A} a.
Arguments DoesNotExist {A}.
Arguments MultipleObjects {A}.

Definition objects_get {A} (P : A -> Prop) `{!forall a, Decision (P a)}
    (rows : list A) : GetResult A :=
  match filter P rows with
  | [] => DoesNotExist
  | [a] => Found a
  | _ => MultipleObjects
  end.

(** [request.data] and [request.headers], and the [Response] a view
    returns. *)
Record Request : Type := mkRequest {
  headers : gmap string string;
  data : gmap string string
}.

Record Response : Type := mkResponse {
  body : gmap string Json;
  status : Z
}.

Definition HTTP_200_OK : Z := 200.
Definition HTTP_201_CREATED : Z := 201.
Definition HTTP_400_BAD_REQUEST : Z := 400.
Definition HTTP_401_UNAUTHORIZED : Z := 401.
Definition HTTP_404_NOT_FOUND : Z := 404.

(** Python's [not x] for an optional string: [None] and [""] are falsy. *)
Definition py_not (o : option string) : bool :=
  match o with
  | None => true
  | Some s => bool_decide (s = "")
  end.

(** [s.split(" ")]. *)
Fixpoint split_space (s : string) : list string :=
  match s with
  | EmptyString => [EmptyString]
  | String c rest =>
      if Ascii.eqb c " "%char then EmptyString :: split_space rest
      else match split_space rest with
           | [] => [String c EmptyString]
           | part :: parts => String c part :: parts
           end
  end.

(** [ACCESS_TOKEN_EXPIRATION = timedelta(minutes=15)] and
    [REFRESH_TOKEN_EXPIRATION = timedelta(days=7)] of [users/views.py]. *)
Definition ACCESS_TOKEN_EXPIRATION : Z := 15 * 60 * datetime.us_per_second.
Definition REFRESH_TOKEN_EXPIRATION : Z := 7 * datetime.us_per_day.

(** Python's truthiness test on an optional string: the string when it is
    present and not empty. *)
Definition truthy (o : option string) : option string :=
  if py_not o then None else o.

(** ** A concrete serialisation

    A token format on which the model can be run: the letter J followed by
    the binary digits of an encoding of the key and the payload.  It
    satisfies what the service assumes of the JWS serialisation, so those
    assumptions are consistent. *)
Module codec.

Fixpoint digits (p : positive) : string :=
  match p with
  | xH => EmptyString
  | xO q => String "0"%char (digits q)
  | xI q => String "1"%char (digits q)
  end.

Fixpoint undigits (s : string) : option positive :=
  match s with
  | EmptyString => Some xH
  | String c rest =>
      if Ascii.eqb c "0"%char then xO <$> undigits rest
      else if Ascii.eqb c "1"%char then xI <$> undigits rest
      else None
  end.

Definition sign (key : string) (payload : gmap string Json) : string :=
  String "J"%char (digits (encode (key, payload))).

Definition verify (key token : string) : option (gmap string Json) :=
  match token with
  | String c rest =>
      if Ascii.eqb c "J"%char then
        match undigits rest ≫= decode with
        | Some (k, payload) => if decide (k = key) then Some payload else None
        | None => None
        end
      else None
  | EmptyString => None
  end.

(** Stand-ins for the remaining collaborators: passwords are stored as
    they are, e-mails are kept as written, already registered e-mails are
    refused, and no string is read as a number. *)
Definition check_password (raw digest : string) : bool :=
  bool_decide (raw = digest).
Definition make_password (raw : option string) : string := default "!" raw.
Definition normalize_email (e : string) : string := e.
Definition serializer_is_valid (us : list CustomUser)
    (d : gmap string string) : bool :=
  match d !! "email", d !! "password" with
  | Some e, Some _ => bool_decide (Forall (fun u => user_email u ≠ e) us)
  | _, _ => false
  end.
Definition serializer_errors (us : list CustomUser)
    (d : gmap string string) : gmap string Json :=
  {[ "detail" := JStr "invalid" ]}.
Definition py_int (s : string) : option Z := None.
Definition SECRET_KEY : string := "k".

End codec.

(** ** A small database to run the model on *)
Module demo.

Definition alice : CustomUser := mkUser 1 "a@x.com" "pw1" None.

(** One registered user, no refresh token yet, default lifetimes, and a
    clock that stands still in the middle of a second. *)
Definition world : World :=
  mkWorld [alice] 2 [] 1 (mkConfig 900 7) 1700000000123456 [].

Definition credentials (email password : string) : Request :=
  mkRequest ∅ {[ "email" := email; "password" := password ]}.

Definition with_refresh (token : string) : Request :=
  mkRequest ∅ {[ "refresh" := token ]}.

Definition with_authorization (header : string) : Request :=
  mkRequest {[ "Authorization" := header ]} ∅.

(** The answer of an outcome that returned one. *)
Definition answer (o : Outcome Response) : Response :=
  match o with
  | Returns response _ => response
  | Raises _ _ => mkResponse ∅ 500
  end.

(** The token an answer carries under [field]. *)
Definition token_in (field : string) (response : Response) : string :=
  match body response !! field with
  | Some (JStr token) => token
  | _ => ""
  end.

End demo.

Section Service.

(** ** Collaborators outside the repository

    The JWS compact serialisation with its HMAC-SHA256 signature, Django's
    password hasher and e-mail normaliser, the djoser serializer's
    validation, Python's [int()] on a string, and the two places the
    signing key is read from ([os.getenv] in the views, [settings] in the
    authentication class). *)
Variable jws_sign : string -> gmap string Json -> string.
Variable jws_verify : string -> string -> option (gmap string Json).
Variable check_password : string -> string -> bool.
Variable make_password : option string -> string.
Variable normalize_email : string -> string.
Variable serializer_is_valid : list CustomUser -> gmap string string -> bool.
Variable serializer_errors :
  list CustomUser -> gmap string string -> gmap string Json.
Variable py_int : string -> option Z.
Variable views_SECRET_KEY : string.
Variable settings_SECRET_KEY : string.

(** What is assumed of the serialisation: a token signed under a key
    verifies under that key and carries the payload it was built from, and
    the empty string is no token. *)
Hypothesis jws_verify_sign :
  forall key payload, jws_verify key (jws_sign key payload) = Some payload.
Hypothesis jws_verify_empty :
  forall key, jws_verify key "" = None.

(** ** The [jwt] package *)

(** The registered time claims [jwt.encode] converts from [datetime] to
    whole seconds. *)
Definition time_claims : list string := ["exp"; "iat"; "nbf"].

Definition jwt_claim_to_json (k : string) (v : PyValue) : option Json :=
  match v with
  | PyJson j => Some j
  | PyDatetime t =>
      if decide (k ∈ time_claims) then Some (JInt (datetime.timegm t))
      else None
  end.

(** Modelled from the spec: [jwt.encode] of the PyJWT package, which is not
    among the sources.  Spec 4.1, Issue: the payload is serialised with its
    timestamps as integer seconds since the epoch and signed under the key.
    A [datetime] anywhere else in the payload cannot be serialised. *)
Definition jwt_encode (payload : gmap string PyValue) (key : string)
    : M string :=
  if decide (map_Forall (fun k v => is_Some (jwt_claim_to_json k v)) payload)
  then ret (jws_sign key (map_imap jwt_claim_to_json payload))
  else raise TypeError.

(** Modelled from the spec: [jwt.decode] of the PyJWT package, which is not
    among the sources.  Spec 4.1, Verify: fails with the malformed-token
    error when the signature is invalid or the structure unparsable, fails
    with the expired-token error when the current time in whole seconds has
    reached [exp] (inclusive comparison), and otherwise returns the
    claims. *)
Definition jwt_decode (token key : string) : M (gmap string Json) :=
  match jws_verify key token with
  | None => raise InvalidTokenError
  | Some payload =>
      let* now := timezone_now in
      match payload !! "exp" with
      | None => ret payload
      | Some (JInt exp) =>
          if decide (exp <= datetime.timegm now)
          then raise ExpiredSignatureError
          else ret payload
      | Some (JStr _) => raise InvalidTokenError
      end
  end.

(** ** [users/views.py]: [create_token] and [decode_token] *)

Definition create_token (data : gmap string Json) (expiration : Z)
    : M string :=
  let* now_exp := timezone_now in
  let* exp := or_overflow (datetime.add now_exp expiration) in
  let* now_iat := timezone_now in
  jwt_encode (<["iat" := PyDatetime now_iat]>
                (<["exp" := PyDatetime exp]> (PyJson <$> data)))
             views_SECRET_KEY.

Definition decode_token (token : string) : M (option (gmap string Json)) :=
  try_except
    (let* payload := jwt_decode token views_SECRET_KEY in ret (Some payload))
    (fun e =>
       match e with
       | ExpiredSignatureError => Some (ret None)
       | InvalidTokenError => Some (ret None)
       | _ => None
       end).

(** ** The ORM calls the views make *)

Definition User_objects_get (P : CustomUser -> Prop)
    `{!forall u, Decision (P u)} : M CustomUser :=
  fun w =>
    match objects_get P (users w) with
    | Found u => Returns u w
    | DoesNotExist => Raises User_DoesNotExist w
    | MultipleObjects => Raises MultipleObjectsReturned w
    end.

(** [User.objects.get(email=email)]; no row has a null e-mail. *)
Definition User_objects_get_email (email : option string) : M CustomUser :=
  match email with
  | Some e => User_objects_get (fun u => user_email u = e)
  | None => raise User_DoesNotExist
  end.

(** [User.objects.get(id=value)] for an integer or a string taken from a
    token payload: the field converts the value with [int()], whose
    [ValueError] on a string that is no integer is not caught, and the
    lookup follows. *)
Definition User_objects_get_id (value : Json) : M CustomUser :=
  match value with
  | JInt n => User_objects_get (fun u => user_id u = n)
  | JStr s =>
      match py_int s with
      | Some n => User_objects_get (fun u => user_id u = n)
      | None => raise ValueError
      end
  end.

(** [payload["user_id"]]. *)
Definition getitem (payload : gmap string Json) (k : string) : M Json :=
  match payload !! k with
  | Some v => ret v
  | None => raise (KeyError k)
  end.

(** [user.check_password(password)]; a missing password never matches. *)
Definition user_check_password (user : CustomUser) (password : option string)
    : bool :=
  match password with
  | Some raw => check_password raw (user_password user)
  | None => false
  end.

Definition RefreshTokenModel_objects_get_token (token : string)
    : M RefreshTokenModel :=
  fun w =>
    match objects_get (fun r => rt_token r = token) (refresh_tokens w) with
    | Found r => Returns r w
    | DoesNotExist => Raises RefreshTokenModel_DoesNotExist w
    | MultipleObjects => Raises MultipleObjectsReturned w
    end.

(** [token_obj.delete()]: [DELETE ... WHERE id = token_obj.id]. *)
Definition RefreshTokenModel_delete (obj : RefreshTokenModel) : M unit :=
  fun w =>
    Returns tt
      (with_refresh_tokens
         (filter (fun r => rt_id r ≠ rt_id obj) (refresh_tokens w))
         (refresh_tokens_seq w) w).

(** The [unique=True] constraint on [token]: does a row other than the one
    with primary key [pk] already hold [token]? *)
Definition token_taken (token : string) (pk : option Z)
    (rows : list RefreshTokenModel) : bool :=
  bool_decide (Exists (fun r => rt_token r = token ∧ Some (rt_id r) ≠ pk) rows).

(** [RefreshTokenModel.objects.update_or_create(user=user,
    defaults={"token": ..., "expires_at": ...})]: the row of the user is
    updated in place, or a row is created when the user has none;
    [created_at] is [auto_now_add]. *)
Definition RefreshTokenModel_objects_update_or_create (user : CustomUser)
    (token : string) (expires_at : Z) : M unit :=
  fun w =>
    let rows := refresh_tokens w in
    match objects_get (fun r => rt_user r = user_id user) rows with
    | MultipleObjects => Raises MultipleObjectsReturned w
    | Found obj =>
        if token_taken token (Some (rt_id obj)) rows
        then Raises IntegrityError w
        else
          let saved :=
            mkRefreshToken (rt_id obj) (rt_user obj) token
                           (rt_created_at obj) expires_at in
          Returns tt
            (with_refresh_tokens
               (map (fun r => if decide (rt_id r = rt_id obj) then saved else r)
                    rows)
               (refresh_tokens_seq w) w)
    | DoesNotExist =>
        let w1 := advance w in
        if token_taken token None rows
        then Raises IntegrityError w1
        else
          let created :=
            mkRefreshToken (refresh_tokens_seq w) (user_id user) token
                           (clock w1) expires_at in
          Returns tt
            (with_refresh_tokens (rows ++ [created])
                                 (refresh_tokens_seq w + 1) w1)
    end.

(** [constance.config], read afresh at every use. *)
Definition constance_config : M Config :=
  fun w => Returns (config w) w.

(** [CustomUserManager.create_user] of [users/models.py]. *)
Definition create_user (email password : option string) : M CustomUser :=
  match truthy email with
  | None => raise ValueError
  | Some e =>
      let email := normalize_email e in
      fun w =>
        if bool_decide (Exists (fun u => user_email u = email) (users w))
        then Raises IntegrityError w
        else
          let user := mkUser (users_seq w) email (make_password password) None in
          Returns user (with_users (users w ++ [user]) (users_seq w + 1) w)
  end.

(** ** The views of [users/views.py] *)

Definition detail (message : string) (code : Z) : Response :=
  mkResponse {[ "detail" := JStr message ]} code.

Definition user_claims (user : CustomUser) : gmap string Json :=
  {[ "user_id" := JInt (user_id user); "email" := JStr (user_email user) ]}.

(** Modelled from the spec: [serializer.save()] of
    [CustomUserCreateSerializer].  The [create] it runs is inherited from
    djoser's [UserCreateSerializer], which is not among the sources.  Spec
    4.4 and 6: Register creates the user with the hashed password, or
    fails with DuplicateEmail, a validation error (answered 400 at the
    boundary).  The user is created by [create_user] of [users/models.py],
    whose [IntegrityError] is the duplicate e-mail. *)
Definition CustomUserCreateSerializer_save
    (validated_data : gmap string string) : M CustomUser :=
  try_except
    (create_user (validated_data !! "email") (validated_data !! "password"))
    (fun e =>
       match e with
       | IntegrityError => Some (raise ValidationError)
       | _ => None
       end).

(** [RegisterView.post]; the response data are those of
    [CustomUserCreateSerializer.to_representation]. *)
Definition RegisterView_post (request : Request) : M Response :=
  fun w =>
    if serializer_is_valid (users w) (data request)
    then
      (let* user := CustomUserCreateSerializer_save (data request) in
       ret (mkResponse {[ "id" := JInt (user_id user);
                          "email" := JStr (user_email user) ]}
                       HTTP_201_CREATED)) w
    else
      Returns (mkResponse (serializer_errors (users w) (data request))
                          HTTP_400_BAD_REQUEST) w.

(** [CustomTokenObtainPairView.save_refresh_token]. *)
Definition save_refresh_token (user : CustomUser) (refresh_token : string)
    : M unit :=
  let* now := timezone_now in
  let* cfg := constance_config in
  let* lifetime :=
    or_overflow (datetime.timedelta_days (REFRESH_TOKEN_LIFETIME cfg)) in
  let* expires_at := or_overflow (datetime.add now lifetime) in
  RefreshTokenModel_objects_update_or_create user refresh_token expires_at.

(** [CustomTokenObtainPairView.post]. *)
Definition CustomTokenObtainPairView_post (request : Request) : M Response :=
  let email := data request !! "email" in
  let password := data request !! "password" in
  let* checked :=
    try_except
      (let* user := User_objects_get_email email in
       if negb (user_check_password user password)
       then ret (inl (detail "Invalid credentials" HTTP_401_UNAUTHORIZED))
       else ret (inr user))
      (fun e =>
         match e with
         | User_DoesNotExist =>
             Some (ret (inl (detail "User does not exist" HTTP_404_NOT_FOUND)))
         | _ => None
         end) in
  match checked with
  | inl response => ret response
  | inr user =>
      let* cfg_access := constance_config in
      let* access_token_lifetime :=
        or_overflow
          (datetime.timedelta_seconds (ACCESS_TOKEN_LIFETIME cfg_access)) in
      let* cfg_refresh := constance_config in
      let* refresh_token_lifetime :=
        or_overflow
          (datetime.timedelta_days (REFRESH_TOKEN_LIFETIME cfg_refresh)) in
      let* access_token :=
        create_token (user_claims user) access_token_lifetime in
      let* refresh_token :=
        create_token (user_claims user) refresh_token_lifetime in
      let* _ := save_refresh_token user refresh_token in
      ret (mkResponse {[ "access" := JStr access_token;
                         "refresh" := JStr refresh_token ]}
                      HTTP_200_OK)
  end.

(** [TokenRefreshView.post]. *)
Definition TokenRefreshView_post (request : Request) : M Response :=
  match truthy (data request !! "refresh") with
  | None => ret (detail "Refresh token is required" HTTP_400_BAD_REQUEST)
  | Some refresh_token =>
      let* decoded_token := decode_token refresh_token in
      match decoded_token with
      | None =>
          ret (detail "Invalid or expired refresh token" HTTP_401_UNAUTHORIZED)
      | Some decoded =>
          if decide (decoded = ∅)
          then ret (detail "Invalid or expired refresh token"
                           HTTP_401_UNAUTHORIZED)
          else
            try_except
              (let* uid := getitem decoded "user_id" in
               let* user := User_objects_get_id uid in
               let* access_token :=
                 create_token (user_claims user) ACCESS_TOKEN_EXPIRATION in
               ret (mkResponse {[ "access" := JStr access_token ]}
                               HTTP_200_OK))
              (fun e =>
                 match e with
                 | RefreshTokenModel_DoesNotExist =>
                     Some (ret (detail "Refresh token not found in database"
                                       HTTP_401_UNAUTHORIZED))
                 | User_DoesNotExist =>
                     Some (ret (detail "User not found" HTTP_404_NOT_FOUND))
                 | _ => None
                 end)
      end
  end.

(** [LogoutView.post]. *)
Definition LogoutView_post (request : Request) : M Response :=
  match truthy (data request !! "refresh") with
  | None => ret (detail "Refresh token is required" HTTP_400_BAD_REQUEST)
  | Some refresh_token =>
      try_except
        (let* token_obj := RefreshTokenModel_objects_get_token refresh_token in
         let* _ := RefreshTokenModel_delete token_obj in
         ret (mkResponse {[ "success" := JStr "User logged out." ]}
                         HTTP_200_OK))
        (fun e =>
           match e with
           | RefreshTokenModel_DoesNotExist =>
               Some (ret (detail "Invalid refresh token" HTTP_400_BAD_REQUEST))
           | _ => None
           end)
  end.

(** ** [users/authentication.py]: [JWTAuthentication.authenticate] *)

Definition JWTAuthentication_authenticate (request : Request)
    : M (option (CustomUser * string)) :=
  let auth_header := headers request !! "Authorization" in
  match truthy auth_header with
  | None => ret None
  | Some header =>
      if negb (String.prefix "Bearer " header) then ret None
      else
        let* token :=
          match split_space header !! 1%nat with
          | Some part => ret part
          | None => raise IndexError
          end in
        try_except
          (let* payload := jwt_decode token settings_SECRET_KEY in
           let* uid := getitem payload "user_id" in
           let* user := User_objects_get_id uid in
           ret (Some (user, token)))
          (fun e =>
             match e with
             | ExpiredSignatureError =>
                 Some (raise (AuthenticationFailed "Access token has expired"))
             | InvalidTokenError =>
                 Some (raise (AuthenticationFailed "Invalid token"))
             | User_DoesNotExist =>
                 Some (raise (AuthenticationFailed "User not found"))
             | _ => None
             end)
  end.

(** ** Requests executed one after the other

    Besides the four views, the administrator may change the dynamic
    configuration and the wall clock moves between (and during)
    requests. *)
Inductive Event : Type :=
| Register (request : Request)
| Login (request : Request)
| Refresh (request : Request)
| Logout (request : Request)
| ConfigChange (c : Config)
| ClockMoves (d : Z) (during : list Z).

Definition step (w : World) (ev : Event) : World :=
  match ev with
  | Register request => world_of (RegisterView_post request w)
  | Login request => world_of (CustomTokenObtainPairView_post request w)
  | Refresh request => world_of (TokenRefreshView_post request w)
  | Logout request => world_of (LogoutView_post request w)
  | ConfigChange c => with_config c w
  | ClockMoves d during =>
      mkWorld (users w) (users_seq w) (refresh_tokens w)
              (refresh_tokens_seq w) (config w) (clock w + d) during
  end.

Definition run (w : World) (evs : list Event) : World :=
  fold_left step evs w.

(** The refresh-token rows of one user. *)
Definition rows_of (uid : Z) (w : World) : list RefreshTokenModel :=
  filter (fun r => rt_user r = uid) (refresh_tokens w).

(** ** Outcomes spelled out

    The views again, as plain case analyses on the request and the world;
    the properties below first show that they agree with the monadic
    definitions. *)

(** The payload [create_token] signs when the clock reads [t_exp] and then
    [t_iat]. *)
Definition token_payload (d : gmap string Json) (expiration : Z)
    (t_exp t_iat : Z) : gmap string Json :=
  <["iat" := JInt (datetime.timegm t_iat)]>
    (<["exp" := JInt (datetime.timegm (t_exp + expiration))]> d).

(** What [authenticate] does once a bearer token has been presented. *)
Definition authenticate_token (token : string) (w : World)
    : Outcome (option (CustomUser * string)) :=
  match jws_verify settings_SECRET_KEY token with
  | None => Raises (AuthenticationFailed "Invalid token") w
  | Some payload =>
      let lookup_user :=
        match payload !! "user_id" with
        | None => Raises (KeyError "user_id") (advance w)
        | Some v =>
            match User_objects_get_id v (advance w) with
            | Returns user w' => Returns (Some (user, token)) w'
            | Raises User_DoesNotExist w' =>
                Raises (AuthenticationFailed "User not found") w'
            | Raises e w' => Raises e w'
            end
        end in
      match payload !! "exp" with
      | None => lookup_user
      | Some (JInt exp) =>
          if decide (exp <= datetime.timegm (clock (advance w)))
          then Raises (AuthenticationFailed "Access token has expired")
                      (advance w)
          else lookup_user
      | Some (JStr _) => Raises (AuthenticationFailed "Invalid token") (advance w)
      end
  end.

(** The access token [TokenRefreshView.post] mints for [user] when the
    clock is read in the worlds [w_exp] and then [w_iat]. *)
Definition refreshed_access (user : CustomUser) (w_exp w_iat : World)
    : string :=
  jws_sign views_SECRET_KEY
    (token_payload (user_claims user) ACCESS_TOKEN_EXPIRATION
                   (clock w_exp) (clock w_iat)).

(** What [TokenRefreshView.post] does with the claims of a token that
    [decode_token] accepted, in the world [w1] after decoding. *)
Definition refresh_decoded (decoded : gmap string Json) (w1 : World)
    : Outcome Response :=
  if decide (decoded = ∅)
  then Returns (detail "Invalid or expired refresh token"
                       HTTP_401_UNAUTHORIZED) w1
  else
    match decoded !! "user_id" with
    | None => Raises (KeyError "user_id") w1
    | Some v =>
        match User_objects_get_id v w1 with
        | Returns user _ =>
            if decide (datetime.datetime_ok
                         (clock (advance w1) + ACCESS_TOKEN_EXPIRATION))
            then Returns
                   (mkResponse
                      {[ "access" :=
                           JStr (refreshed_access user (advance w1)
                                                  (advance (advance w1))) ]}
                      HTTP_200_OK)
                   (advance (advance w1))
            else Raises OverflowError (advance w1)
        | Raises User_DoesNotExist _ =>
            Returns (detail "User not found" HTTP_404_NOT_FOUND) w1
        | Raises e _ => Raises e w1
        end
    end.

Definition refresh_outcome (request : Request) (w : World)
    : Outcome Response :=
  match truthy (data request !! "refresh") with
  | None =>
      Returns (detail "Refresh token is required" HTTP_400_BAD_REQUEST) w
  | Some token =>
      match jws_verify views_SECRET_KEY token with
      | None =>
          Returns (detail "Invalid or expired refresh token"
                          HTTP_401_UNAUTHORIZED) w
      | Some payload =>
          match payload !! "exp" with
          | None => refresh_decoded payload (advance w)
          | Some (JInt exp) =>
              if decide (exp <= datetime.timegm (clock (advance w)))
              then Returns (detail "Invalid or expired refresh token"
                                   HTTP_401_UNAUTHORIZED) (advance w)
              else refresh_decoded payload (advance w)
          | Some (JStr _) =>
              Returns (detail "Invalid or expired refresh token"
                              HTTP_401_UNAUTHORIZED) (advance w)
          end
      end
  end.

(** The same outcome in a world changed by [f]. *)
Definition map_world {A} (f : World -> World) (o : Outcome A) : Outcome A :=
  match o with
  | Returns a w => Returns a (f w)
  | Raises e w => Raises e (f w)
  end.

(** The answers of [TokenRefreshView.post]. *)
Definition refresh_answer (response : Response) : Prop :=
  (exists access,
     response = mkResponse {[ "access" := JStr access ]} HTTP_200_OK)
  \/ response = detail "Refresh token is required" HTTP_400_BAD_REQUEST
  \/ response = detail "Invalid or expired refresh token" HTTP_401_UNAUTHORIZED
  \/ response = detail "User not found" HTTP_404_NOT_FOUND.

(** What [CustomTokenObtainPairView.post] does once the credentials of
    [user] have been accepted: the clock is read five times (twice for each
    token, once for the row), and the row of the user is written last. *)
Definition login_issue (user : CustomUser) (w : World) : Outcome Response :=
  match datetime.timedelta_seconds (ACCESS_TOKEN_LIFETIME (config w)) with
  | None => Raises OverflowError w
  | Some access_lifetime =>
      match datetime.timedelta_days (REFRESH_TOKEN_LIFETIME (config w)) with
      | None => Raises OverflowError w
      | Some refresh_lifetime =>
          let w1 := advance w in
          let w2 := advance w1 in
          let w3 := advance w2 in
          let w4 := advance w3 in
          let w5 := advance w4 in
          let access_token :=
            jws_sign views_SECRET_KEY
              (token_payload (user_claims user) access_lifetime
                             (clock w1) (clock w2)) in
          let refresh_token :=
            jws_sign views_SECRET_KEY
              (token_payload (user_claims user) refresh_lifetime
                             (clock w3) (clock w4)) in
          if decide (datetime.datetime_ok (clock w1 + access_lifetime)) then
            if decide (datetime.datetime_ok (clock w3 + refresh_lifetime)) then
              if decide (datetime.datetime_ok (clock w5 + refresh_lifetime))
              then
                match RefreshTokenModel_objects_update_or_create
                        user refresh_token (clock w5 + refresh_lifetime) w5
                with
                | Returns _ w6 =>
                    Returns (mkResponse {[ "access" := JStr access_token;
                                           "refresh" := JStr refresh_token ]}
                                        HTTP_200_OK) w6
                | Raises e w6 => Raises e w6
                end
              else Raises OverflowError w5
            else Raises OverflowError w3
          else Raises OverflowError w1
      end
  end.

Definition login_outcome (request : Request) (w : World) : Outcome Response :=
  match data request !! "email" with
  | None => Returns (detail "User does not exist" HTTP_404_NOT_FOUND) w
  | Some e =>
      match objects_get (fun u => user_email u = e) (users w) with
      | DoesNotExist =>
          Returns (detail "User does not exist" HTTP_404_NOT_FOUND) w
      | MultipleObjects => Raises MultipleObjectsReturned w
      | Found user =>
          if user_check_password user (data request !! "password")
          then login_issue user w
          else Returns (detail "Invalid credentials" HTTP_401_UNAUTHORIZED) w
      end
  end.

(** Primary keys are unique and below the next value of the sequence. *)
Definition pk_consistent (w : World) : Prop :=
  NoDup (rt_id <$> refresh_tokens w) /\
  Forall (fun r => rt_id r < refresh_tokens_seq w) (refresh_tokens w).

Definition one_row_per_user (w : World) : Prop :=
  forall uid, (length (rows_of uid w) <= 1)%nat.

(** The table invariant the views maintain. *)
Definition store_ok (w : World) : Prop :=
  pk_consistent w /\ one_row_per_user w.

Definition same_store (w w' : World) : Prop :=
  refresh_tokens w' = refresh_tokens w /\
  refresh_tokens_seq w' = refresh_tokens_seq w.

(** The constraints the database schema declares: primary keys and the
    [unique=True] columns hold no value twice, and primary keys are below
    the next value of their sequence. *)
Definition db_constraints (w : World) : Prop :=
  NoDup (user_id <$> users w) /\
  Forall (fun u => user_id u < users_seq w) (users w) /\
  NoDup (user_email <$> users w) /\
  pk_consistent w /\
  NoDup (rt_token <$> refresh_tokens w).

(** ** The update serializer of [users/serializers.py] *)

(** [instance.save()] for a user that already has a primary key: the rows
    with that key are rewritten ([UPDATE ... WHERE id = ...]), and a row is
    inserted when there is none; the [unique=True] e-mail is checked
    against the rows of the other users. *)
Definition CustomUser_save (instance : CustomUser) : M unit :=
  fun w =>
    if bool_decide
         (Exists (fun u => user_email u = user_email instance
                           /\ user_id u <> user_id instance) (users w))
    then Raises IntegrityError w
    else if bool_decide
              (Exists (fun u => user_id u = user_id instance) (users w))
    then
      Returns tt
        (with_users
           (map (fun u => if decide (user_id u = user_id instance)
                          then instance else u) (users w))
           (users_seq w) w)
    else Returns tt (with_users (users w ++ [instance]) (users_seq w) w).

(** [UserUpdateSerializer.update]: [validated_data] holds the fields the
    request sent, among [username] (which may be null) and [email]; a
    field that is absent keeps the value of the instance.  A null e-mail
    cannot be stored. *)
Definition UserUpdateSerializer_update (instance : CustomUser)
    (validated_data : gmap string (option string)) : M CustomUser :=
  let username :=
    default (user_username instance) (validated_data !! "username") in
  match default (Some (user_email instance)) (validated_data !! "email") with
  | None => raise IntegrityError
  | Some email =>
      let updated :=
        mkUser (user_id instance) email (user_password instance) username in
      let* _ := CustomUser_save updated in
      ret updated
  end.

(** Does a string hold no space? *)
Fixpoint no_space (s : string) : bool :=
  match s with
  | EmptyString => true
  | String c rest => negb (Ascii.eqb c " "%char) && no_space rest
  end.

(** The claim names RFC 7519 registers.  The [jwt] package gives them a
    meaning of their own when it encodes or decodes a payload (a type it
    insists on, a check it makes), whoever put them there. *)
Definition registered_claims : list string :=
  ["iss"; "sub"; "aud"; "exp"; "nbf"; "iat"; "jti"].

(** By how many rows the refresh-token table has grown from [w] to [w']. *)
Definition rows_added (w w' : World) : Z :=
  Z.of_nat (length (refresh_tokens w')) - Z.of_nat (length (refresh_tokens w)).

(** * Properties *)

(** ** Symbolic execution of the token functions *)

Lemma time_claims_to_json (d : gmap string Json) (t_exp t_iat : Z) :
  map_imap jwt_claim_to_json
    (<["iat" := PyDatetime t_iat]> (<["exp" := PyDatetime t_exp]> (PyJson <$> d)))
  = <["iat" := JInt (datetime.timegm t_iat)]>
      (<["exp" := JInt (datetime.timegm t_exp)]> d).
Proof.
  apply map_eq; intros k.
  rewrite map_lookup_imap.
  destruct (decide (k = "iat")) as [->|Hiat].
  { rewrite !lookup_insert_eq. reflexivity. }
  rewrite !(lookup_insert_ne _ "iat") by congruence.
  destruct (decide (k = "exp")) as [->|Hexp].
  { rewrite !lookup_insert_eq. reflexivity. }
  rewrite !(lookup_insert_ne _ "exp") by congruence.
  rewrite lookup_fmap. destruct (d !! k); reflexivity.
Qed.

Lemma time_claims_serialisable (d : gmap string Json) (t_exp t_iat : Z) :
  map_Forall (fun k v => is_Some (jwt_claim_to_json k v))
    (<["iat" := PyDatetime t_iat]> (<["exp" := PyDatetime t_exp]> (PyJson <$> d))).
Proof.
  intros k v Hk.
  destruct (decide (k = "iat")) as [->|Hiat].
  { rewrite lookup_insert_eq in Hk. injection Hk as <-. eexists; reflexivity. }
  rewrite lookup_insert_ne in Hk by congruence.
  destruct (decide (k = "exp")) as [->|Hexp].
  { rewrite lookup_insert_eq in Hk. injection Hk as <-. eexists; reflexivity. }
  rewrite lookup_insert_ne in Hk by congruence.
  rewrite lookup_fmap in Hk. destruct (d !! k); simplify_eq/=. eexists; reflexivity.
Qed.

Lemma create_token_eq (d : gmap string Json) (expiration : Z) (w : World) :
  create_token d expiration w =
  if decide (datetime.datetime_ok (clock (advance w) + expiration))
  then Returns
         (jws_sign views_SECRET_KEY
            (token_payload d expiration (clock (advance w))
                           (clock (advance (advance w)))))
         (advance (advance w))
  else Raises OverflowError (advance w).
Proof.
  unfold create_token, bind, timezone_now, datetime.add, or_overflow.
  destruct (decide (datetime.datetime_ok (clock (advance w) + expiration)));
    [|reflexivity].
  cbn [ret]. unfold jwt_encode.
  destruct (decide _) as [_|Hno].
  - unfold ret, token_payload. rewrite time_claims_to_json. reflexivity.
  - exfalso. apply Hno, time_claims_serialisable.
Qed.

Lemma decode_token_eq (token : string) (w : World) :
  decode_token token w =
  match jws_verify views_SECRET_KEY token with
  | None => Returns None w
  | Some payload =>
      match payload !! "exp" with
      | None => Returns (Some payload) (advance w)
      | Some (JInt exp) =>
          if decide (exp <= datetime.timegm (clock (advance w)))
          then Returns None (advance w)
          else Returns (Some payload) (advance w)
      | Some (JStr _) => Returns None (advance w)
      end
  end.
Proof.
  unfold decode_token, jwt_decode.
  destruct (jws_verify views_SECRET_KEY token) as [payload|]; [|reflexivity].
  cbv [try_except bind timezone_now].
  destruct (payload !! "exp") as [[exp|?]|]; try reflexivity.
  destruct (decide _); reflexivity.
Qed.

Lemma advance_no_ticks (w : World) : ticks w = [] -> advance w = w.
Proof. unfold advance. intros ->. reflexivity. Qed.

(** ** Issue then Verify *)

Lemma timegm_lifetime (now ttl : Z) :
  datetime.us_per_second <= ttl ->
  ~ datetime.timegm (now + ttl) <= datetime.timegm now /\
  datetime.timegm now * datetime.us_per_second
    <= now < datetime.timegm (now + ttl) * datetime.us_per_second /\
  - datetime.us_per_second
    < (datetime.timegm (now + ttl) - datetime.timegm now)
      * datetime.us_per_second - ttl
    < datetime.us_per_second.
Proof using Type.
  unfold datetime.timegm, datetime.us_per_second. intros Httl.
  pose proof (Z.div_mod now 1000000 ltac:(lia)) as H1.
  pose proof (Z.mod_pos_bound now 1000000 ltac:(lia)) as H2.
  pose proof (Z.div_mod (now + ttl) 1000000 ltac:(lia)) as H3.
  pose proof (Z.mod_pos_bound (now + ttl) 1000000 ltac:(lia)) as H4.
  lia.
Qed.

(** C3 (amended): for every claims map and every lifetime of at least one
    second whose expiry instant is a representable [datetime],
    [create_token] followed by [decode_token] with no time elapsing
    succeeds; the claims returned are the input claims with [iat] and [exp]
    set, [iat] is not after the current instant, [exp] is after it, and
    [exp - iat] is within one second of the lifetime. *)
Theorem issue_then_verify (d : gmap string Json) (ttl : Z) (w : World) :
  ticks w = [] ->
  datetime.us_per_second <= ttl ->
  datetime.datetime_ok (clock w + ttl) ->
  exists token iat exp,
    create_token d ttl w = Returns token w /\
    decode_token token w =
      Returns (Some (<["iat" := JInt iat]> (<["exp" := JInt exp]> d))) w /\
    iat * datetime.us_per_second <= clock w < exp * datetime.us_per_second /\
    - datetime.us_per_second
      < (exp - iat) * datetime.us_per_second - ttl
      < datetime.us_per_second.
Proof.
  intros Hticks Httl Hok.
  exists (jws_sign views_SECRET_KEY (token_payload d ttl (clock w) (clock w))),
         (datetime.timegm (clock w)), (datetime.timegm (clock w + ttl)).
  destruct (timegm_lifetime (clock w) ttl Httl) as (Hlater & Hnow & Hlife).
  split; [|split; [|split]].
  - rewrite create_token_eq, !advance_no_ticks by assumption.
    destruct (decide _); [reflexivity | contradiction].
  - rewrite decode_token_eq, jws_verify_sign, !advance_no_ticks by assumption.
    unfold token_payload.
    rewrite lookup_insert_ne by discriminate. rewrite lookup_insert_eq.
    destruct (decide _); [contradiction | reflexivity].
  - exact Hnow.
  - exact Hlife.
Qed.

(** ** The authentication hook *)

Lemma split_space_nonempty (s : string) : split_space s <> [].
Proof.
  induction s as [|c rest IH]; cbn; [discriminate|].
  destruct (Ascii.eqb c " "%char); [discriminate|].
  destruct (split_space rest); discriminate.
Qed.

Lemma prefix_app (p h : string) :
  String.prefix p h = true -> exists rest, h = (p ++ rest)%string.
Proof.
  revert h. induction p as [|a p IH]; intros h Hp.
  - exists h. reflexivity.
  - destruct h as [|b h]; cbn [String.prefix] in Hp; [discriminate|].
    destruct (ascii_dec a b) as [->|]; [|discriminate].
    destruct (IH _ Hp) as [rest ->]. exists rest. reflexivity.
Qed.

Lemma bearer_has_token (h : string) :
  String.prefix "Bearer " h = true ->
  exists token, split_space h !! 1%nat = Some token.
Proof.
  intros Hp. destruct (prefix_app _ _ Hp) as [rest ->].
  pose proof (split_space_nonempty rest) as Hne.
  change (split_space ("Bearer " +:+ rest))
    with ("Bearer" :: split_space rest).
  destruct (split_space rest) as [|part parts]; [contradiction|].
  exists part. reflexivity.
Qed.

Lemma bearer_truthy (h : string) :
  String.prefix "Bearer " h = true -> truthy (Some h) = Some h.
Proof.
  intros Hp. destruct h; [discriminate Hp|]. reflexivity.
Qed.

Lemma User_objects_get_world (P : CustomUser -> Prop)
    `{!forall u, Decision (P u)} (w : World) :
  world_of (User_objects_get P w) = w.
Proof. unfold User_objects_get. destruct (objects_get P (users w)); reflexivity. Qed.

Lemma User_objects_get_id_world (v : Json) (w : World) :
  world_of (User_objects_get_id v w) = w.
Proof.
  unfold User_objects_get_id. destruct v as [n|s0].
  - apply User_objects_get_world.
  - destruct (py_int s0); [apply User_objects_get_world | reflexivity].
Qed.

Lemma User_objects_get_id_outcome (v : Json) (w : World) :
  (exists u, User_objects_get_id v w = Returns u w) \/
  (exists e, User_objects_get_id v w = Raises e w /\
             (e = User_DoesNotExist \/ e = MultipleObjectsReturned
              \/ e = ValueError)).
Proof.
  assert (Hget : forall (P : CustomUser -> Prop) `{!forall u, Decision (P u)},
    (exists u, User_objects_get P w = Returns u w) \/
    (exists e, User_objects_get P w = Raises e w /\
               (e = User_DoesNotExist \/ e = MultipleObjectsReturned
                \/ e = ValueError))).
  { intros P HP. unfold User_objects_get.
    destruct (objects_get P (users w)); eauto 6. }
  unfold User_objects_get_id. destruct v as [n|s0]; [apply Hget|].
  destruct (py_int s0); [apply Hget|]. right. exists ValueError. eauto.
Qed.

Lemma authenticate_bearer (request : Request) (h token : string) (w : World) :
  headers request !! "Authorization" = Some h ->
  String.prefix "Bearer " h = true ->
  split_space h !! 1%nat = Some token ->
  JWTAuthentication_authenticate request w = authenticate_token token w.
Proof.
  intros Hh Hp Htok.
  unfold JWTAuthentication_authenticate, authenticate_token.
  rewrite Hh, (bearer_truthy _ Hp), Hp, Htok. cbn [negb].
  cbv [try_except bind timezone_now ret raise getitem jwt_decode].
  destruct (jws_verify settings_SECRET_KEY token) as [payload|];
    [|reflexivity].
  assert (Hlookup : forall v,
    match
      match User_objects_get_id v (advance w) with
      | Returns user w' => Returns (Some (user, token)) w'
      | Raises e w' => Raises e w'
      end
    with
    | Returns a w' => Returns a w'
    | Raises e w' =>
        match
          match e with
          | User_DoesNotExist =>
              Some (fun w0 => Raises (AuthenticationFailed "User not found") w0)
          | ExpiredSignatureError =>
              Some (fun w0 =>
                      Raises (AuthenticationFailed "Access token has expired") w0)
          | InvalidTokenError =>
              Some (fun w0 => Raises (AuthenticationFailed "Invalid token") w0)
          | _ => None
          end
        with
        | Some k => k w'
        | None => Raises e w'
        end
    end
    = match User_objects_get_id v (advance w) with
      | Returns user w' => Returns (Some (user, token)) w'
      | Raises User_DoesNotExist w' =>
          Raises (AuthenticationFailed "User not found") w'
      | Raises e w' => Raises e w'
      end).
  { intros v.
    destruct (User_objects_get_id_outcome v (advance w))
      as [[u ->]|[e [-> [->|[->| ->]]]]]; reflexivity. }
  destruct (payload !! "exp") as [[exp|s0]|]; try reflexivity.
  - destruct (decide _); [reflexivity|].
    destruct (payload !! "user_id") as [v|]; [apply Hlookup | reflexivity].
  - destruct (payload !! "user_id") as [v|]; [apply Hlookup | reflexivity].
Qed.

(** C10: when the Authorization header is absent or does not start with
    "Bearer ", [authenticate] returns [None] and leaves the world as it is.
    When it raises [AuthenticationFailed], a bearer token was presented and
    the message is one of three, each with its own cause: the token's [exp]
    has been reached, the token does not verify (or its [exp] is not a
    number), or the token is in order and no user has its [user_id].  The
    three messages differ. *)
Theorem authenticate_defers_without_bearer (request : Request) (w : World) :
  ((forall h, headers request !! "Authorization" = Some h ->
              String.prefix "Bearer " h = false) ->
   JWTAuthentication_authenticate request w = Returns None w)
  /\ (forall message w',
        JWTAuthentication_authenticate request w
          = Raises (AuthenticationFailed message) w' ->
        exists h token,
          headers request !! "Authorization" = Some h /\
          String.prefix "Bearer " h = true /\
          split_space h !! 1%nat = Some token /\
          ((message = "Access token has expired" /\
            exists payload exp,
              jws_verify settings_SECRET_KEY token = Some payload /\
              payload !! "exp" = Some (JInt exp) /\
              exp <= datetime.timegm (clock (advance w)))
           \/ (message = "Invalid token" /\
               (jws_verify settings_SECRET_KEY token = None \/
                exists payload s0,
                  jws_verify settings_SECRET_KEY token = Some payload /\
                  payload !! "exp" = Some (JStr s0)))
           \/ (message = "User not found" /\
               exists payload v,
                 jws_verify settings_SECRET_KEY token = Some payload /\
                 (forall exp, payload !! "exp" = Some (JInt exp) ->
                              datetime.timegm (clock (advance w)) < exp) /\
                 payload !! "user_id" = Some v /\
                 User_objects_get_id v (advance w)
                   = Raises User_DoesNotExist (advance w))))
  /\ "Access token has expired" <> "Invalid token"
  /\ "Access token has expired" <> "User not found"
  /\ "Invalid token" <> "User not found".
Proof.
  split; [|split; [|repeat split; discriminate]].
  - intros Hno. unfold JWTAuthentication_authenticate.
    destruct (headers request !! "Authorization") as [h|] eqn:Hh;
      [|reflexivity].
    specialize (Hno h eq_refl).
    unfold truthy. destruct (py_not (Some h)); [reflexivity|].
    rewrite Hno. reflexivity.
  - intros message w' Hraise.
    destruct (headers request !! "Authorization") as [h|] eqn:Hh.
    2:{ unfold JWTAuthentication_authenticate in Hraise.
        rewrite Hh in Hraise. discriminate Hraise. }
    destruct (String.prefix "Bearer " h) eqn:Hp.
    2:{ unfold JWTAuthentication_authenticate in Hraise.
        rewrite Hh in Hraise. unfold truthy in Hraise.
        destruct (py_not (Some h)); [discriminate Hraise|].
        rewrite Hp in Hraise. discriminate Hraise. }
    destruct (bearer_has_token h Hp) as [token Htok].
    exists h, token. repeat (split; [assumption || reflexivity|]).
    rewrite (authenticate_bearer request h token w Hh Hp Htok) in Hraise.
    unfold authenticate_token in Hraise.
    destruct (jws_verify settings_SECRET_KEY token) as [payload|].
    2:{ injection Hraise as <- <-. right; left. eauto. }
    assert (Hlookup : forall
      (Hfresh : forall exp, payload !! "exp" = Some (JInt exp) ->
                            datetime.timegm (clock (advance w)) < exp),
      match payload !! "user_id" with
      | None => Raises (KeyError "user_id") (advance w)
      | Some v =>
          match User_objects_get_id v (advance w) with
          | Returns user w' => Returns (Some (user, token)) w'
          | Raises User_DoesNotExist w' =>
              Raises (AuthenticationFailed "User not found") w'
          | Raises e w' => Raises e w'
          end
      end = Raises (AuthenticationFailed message) w' ->
      message = "User not found" /\
      exists payload0 v,
        Some payload = Some payload0 /\
        (forall exp, payload0 !! "exp" = Some (JInt exp) ->
                     datetime.timegm (clock (advance w)) < exp) /\
        payload0 !! "user_id" = Some v /\
        User_objects_get_id v (advance w)
          = Raises User_DoesNotExist (advance w)).
    { intros Hfresh Hr.
      destruct (payload !! "user_id") as [v|] eqn:Hv; [|discriminate Hr].
      destruct (User_objects_get_id_outcome v (advance w))
        as [[u Hu]|[e [He [->|[->| ->]]]]];
        rewrite ?Hu, ?He in Hr; try discriminate Hr.
      injection Hr as <- <-. split; [reflexivity|].
      exists payload, v. eauto. }
    destruct (payload !! "exp") as [[exp|s0]|] eqn:Hexp.
    + destruct (decide (exp <= datetime.timegm (clock (advance w)))).
      * injection Hraise as <- <-. left. split; [reflexivity|]. eauto.
      * right; right. apply Hlookup; [|exact Hraise].
        intros exp' [= <-]. lia.
    + injection Hraise as <- <-. right; left. split; [reflexivity|].
      right. eauto.
    + right; right. apply Hlookup; [|exact Hraise]. intros exp' [=].
Qed.

(** ** Expiry *)

(** C4: for a token that verifies under the key and carries an integer
    [exp], [jwt.decode] raises the expired-signature error exactly when the
    clock in whole seconds has reached [exp], the instant [exp] itself
    included.  [decode_token] then returns [None], and [authenticate]
    reports "Access token has expired" in exactly that case. *)
Theorem expiry_is_inclusive (key token : string)
    (payload : gmap string Json) (exp : Z) (w : World) :
  jws_verify key token = Some payload ->
  payload !! "exp" = Some (JInt exp) ->
  (jwt_decode token key w = Raises ExpiredSignatureError (advance w)
   <-> exp <= datetime.timegm (clock (advance w)))
  /\ (datetime.timegm (clock (advance w)) = exp ->
      jwt_decode token key w = Raises ExpiredSignatureError (advance w))
  /\ (datetime.timegm (clock (advance w)) < exp ->
      jwt_decode token key w = Returns payload (advance w))
  /\ (key = views_SECRET_KEY ->
      exp <= datetime.timegm (clock (advance w)) ->
      decode_token token w = Returns None (advance w))
  /\ (key = settings_SECRET_KEY ->
      forall request h,
        headers request !! "Authorization" = Some h ->
        String.prefix "Bearer " h = true ->
        split_space h !! 1%nat = Some token ->
        (JWTAuthentication_authenticate request w
           = Raises (AuthenticationFailed "Access token has expired")
                    (advance w)
         <-> exp <= datetime.timegm (clock (advance w)))).
Proof.
  intros Hverify Hexp.
  assert (Hdecode :
    jwt_decode token key w =
    if decide (exp <= datetime.timegm (clock (advance w)))
    then Raises ExpiredSignatureError (advance w)
    else Returns payload (advance w)).
  { unfold jwt_decode. rewrite Hverify.
    cbv [bind timezone_now]. rewrite Hexp.
    destruct (decide _); reflexivity. }
  split; [|split; [|split; [|split]]].
  - rewrite Hdecode. destruct (decide _); split; intros; try done.
  - intros Hnow. rewrite Hdecode. destruct (decide _); [reflexivity|lia].
  - intros Hnow. rewrite Hdecode. destruct (decide _); [lia|reflexivity].
  - intros -> Hnow. rewrite decode_token_eq, Hverify, Hexp.
    destruct (decide _); [reflexivity|contradiction].
  - intros -> request h Hh Hp Htok.
    rewrite (authenticate_bearer request h token w Hh Hp Htok).
    unfold authenticate_token. rewrite Hverify, Hexp.
    destruct (decide _) as [Hle|Hgt]; [split; intros; done|].
    split; [|intros; contradiction].
    intros Hr. exfalso.
    destruct (payload !! "user_id") as [v|]; [|discriminate Hr].
    destruct (User_objects_get_id_outcome v (advance w))
      as [[u Hu]|[e [He [->|[->| ->]]]]];
      rewrite ?Hu, ?He in Hr; discriminate Hr.
Qed.

(** ** Looking rows up *)

Lemma filter_none {A} (P : A -> Prop) `{!forall a, Decision (P a)}
    (rows : list A) :
  (forall a, a ∈ rows -> ~ P a) -> filter P rows = [].
Proof.
  intros Hnone. induction rows as [|a rows IH]; [reflexivity|].
  rewrite filter_cons_False by (apply Hnone; left).
  apply IH. intros b Hb. apply Hnone. right. exact Hb.
Qed.

Lemma objects_get_none {A} (P : A -> Prop) `{!forall a, Decision (P a)}
    (rows : list A) :
  (forall a, a ∈ rows -> ~ P a) -> objects_get P rows = DoesNotExist.
Proof.
  intros Hnone. unfold objects_get. rewrite filter_none by assumption.
  reflexivity.
Qed.

Lemma filter_unique_key {A B} `{EqDecision B} (f : A -> B) (rows : list A)
    (a : A) :
  NoDup (f <$> rows) -> a ∈ rows ->
  filter (fun x => f x = f a) rows = [a].
Proof.
  induction rows as [|b rows IH]; intros Hnd Hin.
  - inversion Hin.
  - rewrite fmap_cons in Hnd.
    inversion_clear Hnd as [|? ? Hfresh Hnd'].
    apply elem_of_cons in Hin as [<-|Hin].
    + rewrite filter_cons_True by reflexivity. f_equal.
      apply filter_none. intros x Hx Hfx.
      apply Hfresh. rewrite <- Hfx. apply list_elem_of_fmap. eauto.
    + rewrite filter_cons_False.
      * apply IH; assumption.
      * intros Hfb. apply Hfresh. rewrite Hfb.
        apply list_elem_of_fmap. eauto.
Qed.

Lemma objects_get_unique {A B} `{EqDecision B} (f : A -> B) (rows : list A)
    (a : A) :
  NoDup (f <$> rows) -> a ∈ rows ->
  objects_get (fun x => f x = f a) rows = Found a.
Proof.
  intros Hnd Hin. unfold objects_get.
  rewrite (filter_unique_key f rows a Hnd Hin). reflexivity.
Qed.

Lemma objects_get_single {A B} `{EqDecision B} (f : A -> B) (rows : list A)
    (k : B) :
  NoDup (f <$> rows) ->
  objects_get (fun x => f x = k) rows <> MultipleObjects.
Proof.
  intros Hnd. unfold objects_get.
  destruct (filter (fun x => f x = k) rows) as [|a [|b rest]] eqn:Hf;
    try discriminate.
  exfalso.
  assert (Ha : a ∈ filter (fun x => f x = k) rows) by (rewrite Hf; left).
  assert (Hb : b ∈ filter (fun x => f x = k) rows)
    by (rewrite Hf; right; left).
  apply list_elem_of_filter in Ha as [Ha Ha'].
  apply list_elem_of_filter in Hb as [Hb Hb'].
  subst k.
  rewrite (filter_unique_key f rows a Hnd Ha') in Hf. discriminate Hf.
Qed.

Lemma objects_get_found {A} (P : A -> Prop) `{!forall a, Decision (P a)}
    (rows : list A) (a : A) :
  objects_get P rows = Found a -> filter P rows = [a] /\ a ∈ rows /\ P a.
Proof.
  unfold objects_get. intros Hget.
  destruct (filter P rows) as [|b [|c rest]] eqn:Hf; try discriminate Hget.
  injection Hget as ->. split; [reflexivity|].
  assert (Hin : a ∈ filter P rows) by (rewrite Hf; left).
  apply list_elem_of_filter in Hin as [HP Hin]. split; assumption.
Qed.

(** ** Login failures *)

(** C5: a login whose e-mail belongs to no user is answered 404 "User does
    not exist"; a login whose e-mail belongs to a user but whose password
    does not match is answered 401 "Invalid credentials".  In both cases
    the world, and so the refresh-token table, is left as it was, and the
    answer holds no token. *)
Theorem login_failures (request : Request) (w : World) :
  ((forall user, user ∈ users w ->
                 data request !! "email" <> Some (user_email user)) ->
   CustomTokenObtainPairView_post request w
     = Returns (detail "User does not exist" HTTP_404_NOT_FOUND) w)
  /\ (forall user,
        NoDup (user_email <$> users w) ->
        user ∈ users w ->
        data request !! "email" = Some (user_email user) ->
        user_check_password user (data request !! "password") = false ->
        CustomTokenObtainPairView_post request w
          = Returns (detail "Invalid credentials" HTTP_401_UNAUTHORIZED) w)
  /\ (forall message code,
        body (detail message code) !! "access" = None /\
        body (detail message code) !! "refresh" = None).
Proof.
  split; [|split].
  - intros Hnone. unfold CustomTokenObtainPairView_post.
    cbv [bind try_except]. unfold User_objects_get_email.
    destruct (data request !! "email") as [e|] eqn:He; [|reflexivity].
    unfold User_objects_get.
    rewrite objects_get_none; [reflexivity|].
    intros u Hu Heq. apply (Hnone u Hu). congruence.
  - intros user Hnd Hin He Hpw. unfold CustomTokenObtainPairView_post.
    cbv [bind try_except]. rewrite He. unfold User_objects_get_email.
    unfold User_objects_get.
    rewrite (objects_get_unique user_email (users w) user Hnd Hin).
    rewrite Hpw. reflexivity.
  - intros message code. split; reflexivity.
Qed.

Lemma filter_agree {A} (P Q : A -> Prop) `{!forall a, Decision (P a)}
    `{!forall a, Decision (Q a)} (rows : list A) :
  (forall a, a ∈ rows -> (P a <-> Q a)) -> filter P rows = filter Q rows.
Proof.
  induction rows as [|a rows IH]; intros Hiff; [reflexivity|].
  assert (Ha : P a <-> Q a) by (apply Hiff; left).
  assert (Hrest : filter P rows = filter Q rows).
  { apply IH. intros b Hb. apply Hiff. right. exact Hb. }
  destruct (decide (P a)) as [HP|HP].
  - rewrite (filter_cons_True P) by exact HP.
    rewrite (filter_cons_True Q) by (apply Ha, HP).
    f_equal. exact Hrest.
  - rewrite (filter_cons_False P) by exact HP.
    rewrite (filter_cons_False Q) by (intros HQ; apply HP, Ha, HQ).
    exact Hrest.
Qed.

Lemma unique_key_inj {A B} (f : A -> B) (rows : list A) (a b : A) :
  NoDup (f <$> rows) -> a ∈ rows -> b ∈ rows -> f a = f b -> a = b.
Proof.
  induction rows as [|c rows IH]; intros Hnd Ha Hb Hf.
  - inversion Ha.
  - rewrite fmap_cons in Hnd. inversion_clear Hnd as [|? ? Hfresh Hnd'].
    apply elem_of_cons in Ha as [->|Ha]; apply elem_of_cons in Hb as [->|Hb].
    + reflexivity.
    + exfalso. apply Hfresh. rewrite Hf. apply list_elem_of_fmap. eauto.
    + exfalso. apply Hfresh. rewrite <- Hf. apply list_elem_of_fmap. eauto.
    + apply IH; assumption.
Qed.

Lemma truthy_nonempty (s : string) : s <> "" -> truthy (Some s) = Some s.
Proof.
  intros Hs. unfold truthy, py_not.
  rewrite bool_decide_eq_false_2 by assumption. reflexivity.
Qed.

(** ** Logout *)

(** C6 (amended): for every non-empty refresh token value, logout with a
    token held by a row of the store answers 200, removes that row and no
    other, and a second logout with the same token is then answered 400
    "Invalid refresh token"; logout with a token no row holds is answered
    400 "Invalid refresh token" and leaves the world as it was.  A missing
    or empty token is answered 400 "Refresh token is required", the world
    left as it was. *)
Theorem logout_deletes_or_reports (request : Request) (w : World) :
  (forall token,
     data request !! "refresh" = Some token ->
     token <> "" ->
     (forall row,
        NoDup (rt_id <$> refresh_tokens w) ->
        NoDup (rt_token <$> refresh_tokens w) ->
        row ∈ refresh_tokens w ->
        rt_token row = token ->
        let w' :=
          with_refresh_tokens (filter (fun r => r <> row) (refresh_tokens w))
                              (refresh_tokens_seq w) w in
        LogoutView_post request w
          = Returns (mkResponse {[ "success" := JStr "User logged out." ]}
                                HTTP_200_OK) w'
        /\ LogoutView_post request w'
           = Returns (detail "Invalid refresh token" HTTP_400_BAD_REQUEST) w')
     /\ ((forall row, row ∈ refresh_tokens w -> rt_token row <> token) ->
         LogoutView_post request w
           = Returns (detail "Invalid refresh token" HTTP_400_BAD_REQUEST) w))
  /\ ((data request !! "refresh" = None \/ data request !! "refresh" = Some "")
      -> LogoutView_post request w
         = Returns (detail "Refresh token is required" HTTP_400_BAD_REQUEST)
                   w).
Proof.
  split.
  2:{ unfold LogoutView_post. intros [-> | ->]; reflexivity. }
  intros token Hreq Hne.
  assert (Hmissing : forall w0,
    (forall row, row ∈ refresh_tokens w0 -> rt_token row <> token) ->
    LogoutView_post request w0
      = Returns (detail "Invalid refresh token" HTTP_400_BAD_REQUEST) w0).
  { intros w0 Hnone. unfold LogoutView_post.
    rewrite Hreq, (truthy_nonempty _ Hne).
    cbv [try_except bind RefreshTokenModel_objects_get_token].
    rewrite objects_get_none; [reflexivity|]. exact Hnone. }
  split; [|apply Hmissing].
  intros row Hpk Htok Hin Hrow w'. split.
  - unfold LogoutView_post.
    rewrite Hreq, (truthy_nonempty _ Hne).
    cbv [try_except bind RefreshTokenModel_objects_get_token].
    rewrite <- Hrow.
    rewrite (objects_get_unique rt_token (refresh_tokens w) row Htok Hin).
    cbv [RefreshTokenModel_delete ret]. subst w'. do 2 f_equal.
    apply filter_agree. intros r Hr. split.
    + intros Hid ->. apply Hid. reflexivity.
    + intros Hr' Hid. apply Hr'.
      apply (unique_key_inj rt_id (refresh_tokens w)); assumption.
  - apply Hmissing. subst w'. cbn. intros r Hr Heq.
    apply list_elem_of_filter in Hr as [Hr Hr'].
    apply Hr. apply (unique_key_inj rt_token (refresh_tokens w)); congruence.
Qed.

(** ** Refresh *)

Lemma refresh_eq (request : Request) (w : World) :
  TokenRefreshView_post request w = refresh_outcome request w.
Proof.
  unfold TokenRefreshView_post, refresh_outcome.
  destruct (truthy (data request !! "refresh")) as [token|]; [|reflexivity].
  unfold bind at 1. rewrite decode_token_eq.
  assert (Hdecoded : forall decoded w1,
    (if decide (decoded = ∅)
     then ret (detail "Invalid or expired refresh token" HTTP_401_UNAUTHORIZED)
     else
       try_except
         (let* uid := getitem decoded "user_id" in
          let* user := User_objects_get_id uid in
          let* access_token :=
            create_token (user_claims user) ACCESS_TOKEN_EXPIRATION in
          ret (mkResponse {[ "access" := JStr access_token ]} HTTP_200_OK))
         (fun e =>
            match e with
            | RefreshTokenModel_DoesNotExist =>
                Some (ret (detail "Refresh token not found in database"
                                  HTTP_401_UNAUTHORIZED))
            | User_DoesNotExist =>
                Some (ret (detail "User not found" HTTP_404_NOT_FOUND))
            | _ => None
            end)) w1
    = refresh_decoded decoded w1).
  { intros decoded w1. unfold refresh_decoded.
    destruct (decide (decoded = ∅)); [reflexivity|].
    cbv [try_except bind getitem ret raise].
    destruct (decoded !! "user_id") as [v|]; [|reflexivity].
    destruct (User_objects_get_id_outcome v w1)
      as [[u Hu]|[e [He [->|[->| ->]]]]];
      rewrite ?Hu, ?He; cbv beta iota; try reflexivity.
    rewrite create_token_eq. unfold refreshed_access.
    destruct (decide _); reflexivity. }
  destruct (jws_verify views_SECRET_KEY token) as [payload|]; [|reflexivity].
  destruct (payload !! "exp") as [[exp|s0]|]; try reflexivity.
  - destruct (decide _); [reflexivity | apply Hdecoded].
  - apply Hdecoded.
Qed.

Lemma advance_with_refresh_tokens rows seq (w : World) :
  advance (with_refresh_tokens rows seq w)
  = with_refresh_tokens rows seq (advance w).
Proof. unfold advance. cbn. destruct (ticks w); reflexivity. Qed.

Lemma advance_with_config c (w : World) :
  advance (with_config c w) = with_config c (advance w).
Proof. unfold advance. cbn. destruct (ticks w); reflexivity. Qed.

Lemma advance_users (w : World) : users (advance w) = users w.
Proof. unfold advance. destruct (ticks w); reflexivity. Qed.

Lemma advance_refresh_tokens (w : World) :
  refresh_tokens (advance w) = refresh_tokens w.
Proof. unfold advance. destruct (ticks w); reflexivity. Qed.

Lemma advance_refresh_tokens_seq (w : World) :
  refresh_tokens_seq (advance w) = refresh_tokens_seq w.
Proof. unfold advance. destruct (ticks w); reflexivity. Qed.

Lemma advance_config (w : World) : config (advance w) = config w.
Proof. unfold advance. destruct (ticks w); reflexivity. Qed.

Lemma User_objects_get_id_frame (f : World -> World) (v : Json) (w : World) :
  users (f w) = users w ->
  User_objects_get_id v (f w) = map_world f (User_objects_get_id v w).
Proof.
  intros Hu. unfold User_objects_get_id, User_objects_get.
  destruct v as [n|s0]; [|destruct (py_int s0); [|reflexivity]];
    rewrite Hu; destruct (objects_get _ (users w)); reflexivity.
Qed.

(** Refresh reads the users table and the clock and nothing else. *)
Lemma refresh_frame (f : World -> World) (request : Request) (w : World) :
  (forall w0, advance (f w0) = f (advance w0)) ->
  (forall w0, users (f w0) = users w0) ->
  (forall w0, clock (f w0) = clock w0) ->
  TokenRefreshView_post request (f w)
  = map_world f (TokenRefreshView_post request w).
Proof.
  intros Hadv Husers Hclock. rewrite !refresh_eq. unfold refresh_outcome.
  destruct (truthy (data request !! "refresh")) as [token|]; [|reflexivity].
  destruct (jws_verify views_SECRET_KEY token) as [payload|]; [|reflexivity].
  assert (Hdecoded :
    refresh_decoded payload (advance (f w))
    = map_world f (refresh_decoded payload (advance w))).
  { unfold refresh_decoded. rewrite !Hadv.
    destruct (decide (payload = ∅)); [reflexivity|].
    destruct (payload !! "user_id") as [v|]; [|reflexivity].
    rewrite (User_objects_get_id_frame f) by apply Husers.
    destruct (User_objects_get_id_outcome v (advance w))
      as [[u Hu]|[e [He [->|[->| ->]]]]];
      rewrite ?Hu, ?He; cbn [map_world]; try reflexivity.
    unfold refreshed_access. rewrite !Hclock.
    destruct (decide _); reflexivity. }
  destruct (payload !! "exp") as [[exp|s0]|].
  - rewrite Hadv, Hclock. destruct (decide _); [reflexivity|].
    rewrite <- Hadv. exact Hdecoded.
  - rewrite Hadv. reflexivity.
  - exact Hdecoded.
Qed.

Lemma with_refresh_tokens_same (w : World) :
  with_refresh_tokens (refresh_tokens w) (refresh_tokens_seq w) w = w.
Proof. destruct w; reflexivity. Qed.

(** Logout touches nothing but the rows of the refresh-token table. *)
Lemma logout_world (request : Request) (w : World) :
  exists rows,
    world_of (LogoutView_post request w)
    = with_refresh_tokens rows (refresh_tokens_seq w) w.
Proof.
  unfold LogoutView_post.
  destruct (truthy (data request !! "refresh")) as [token|].
  2:{ exists (refresh_tokens w). symmetry. apply with_refresh_tokens_same. }
  cbv [try_except bind RefreshTokenModel_objects_get_token
       RefreshTokenModel_delete ret].
  destruct (objects_get _ (refresh_tokens w)) as [row| |]; cbn [world_of].
  - eexists. reflexivity.
  - exists (refresh_tokens w). symmetry. apply with_refresh_tokens_same.
  - exists (refresh_tokens w). symmetry. apply with_refresh_tokens_same.
Qed.

(** C2: a refresh token that verifies, whose [exp] has not been reached and
    whose [user_id] is that of an existing user is answered 200 with a new
    access token, whatever the refresh-token table holds: the answer is the
    same for every content of the table, and in particular in the world a
    logout with this very token leaves behind. *)
Theorem refresh_ignores_store (request : Request) (token : string)
    (payload : gmap string Json) (exp uid : Z) (user : CustomUser)
    (w : World) :
  data request !! "refresh" = Some token ->
  jws_verify views_SECRET_KEY token = Some payload ->
  payload !! "exp" = Some (JInt exp) ->
  datetime.timegm (clock (advance w)) < exp ->
  payload !! "user_id" = Some (JInt uid) ->
  NoDup (user_id <$> users w) ->
  user ∈ users w ->
  user_id user = uid ->
  datetime.datetime_ok
    (clock (advance (advance w)) + ACCESS_TOKEN_EXPIRATION) ->
  let response :=
    mkResponse
      {[ "access" :=
           JStr (refreshed_access user (advance (advance w))
                                  (advance (advance (advance w)))) ]}
      HTTP_200_OK in
  TokenRefreshView_post request w
    = Returns response (advance (advance (advance w)))
  /\ (forall rows seq,
        TokenRefreshView_post request (with_refresh_tokens rows seq w)
        = Returns response
            (with_refresh_tokens rows seq (advance (advance (advance w)))))
  /\ (forall logout_response w',
        LogoutView_post request w = Returns logout_response w' ->
        TokenRefreshView_post request w'
        = Returns response (advance (advance (advance w')))).
Proof.
  intros Hreq Hverify Hexp Hfresh Huid Hpk Hin Hid Hok response.
  assert (Hne : token <> "").
  { intros ->. rewrite jws_verify_empty in Hverify. discriminate Hverify. }
  assert (Hmain : TokenRefreshView_post request w
                  = Returns response (advance (advance (advance w)))).
  { rewrite refresh_eq. unfold refresh_outcome.
    rewrite Hreq, (truthy_nonempty _ Hne), Hverify, Hexp.
    destruct (decide _) as [Hle|_]; [lia|].
    unfold refresh_decoded.
    destruct (decide (payload = ∅)) as [->|_].
    { rewrite lookup_empty in Hexp. discriminate Hexp. }
    rewrite Huid. unfold User_objects_get_id, User_objects_get.
    rewrite advance_users, <- Hid.
    rewrite (objects_get_unique user_id (users w) user Hpk Hin).
    destruct (decide _); [reflexivity | contradiction]. }
  split; [exact Hmain|].
  assert (Hrows : forall rows seq,
    TokenRefreshView_post request (with_refresh_tokens rows seq w)
    = Returns response
        (with_refresh_tokens rows seq (advance (advance (advance w))))).
  { intros rows seq.
    rewrite (refresh_frame (with_refresh_tokens rows seq)), Hmain.
    - reflexivity.
    - intros w0. apply advance_with_refresh_tokens.
    - reflexivity.
    - reflexivity. }
  split; [exact Hrows|].
  intros logout_response w' Hlogout.
  destruct (logout_world request w) as [rows Hw].
  rewrite Hlogout in Hw. cbn in Hw. subst w'.
  rewrite Hrows, !advance_with_refresh_tokens. reflexivity.
Qed.

Lemma timegm_add_seconds (t n : Z) :
  datetime.timegm (t + n * datetime.us_per_second) = datetime.timegm t + n.
Proof.
  unfold datetime.timegm, datetime.us_per_second.
  rewrite Z.div_add by lia. reflexivity.
Qed.

Lemma refresh_decoded_answer (decoded : gmap string Json) (w1 : World)
    (response : Response) (w' : World) :
  refresh_decoded decoded w1 = Returns response w' -> refresh_answer response.
Proof.
  unfold refresh_decoded, refresh_answer. intros Hr.
  destruct (decide (decoded = ∅)).
  { injection Hr as <- <-. auto. }
  destruct (decoded !! "user_id") as [v|]; [|discriminate Hr].
  destruct (User_objects_get_id_outcome v w1)
    as [[u Hu]|[e [He [->|[->| ->]]]]];
    rewrite ?Hu, ?He in Hr; try discriminate Hr.
  - destruct (decide _); [|discriminate Hr].
    injection Hr as <- <-. left. eauto.
  - injection Hr as <- <-. auto.
Qed.

(** C8 (amended): a missing or empty [refresh] field is answered 400
    "Refresh token is required"; a token that does not verify, or whose
    [exp] has been reached, is answered 401 "Invalid or expired refresh
    token"; a token in order whose [user_id] is that of no user is answered
    404 "User not found"; every response the view returns is one of these
    three or the 200 with the new access token; and the view does return a
    response whenever the tokens that verify carry an integer [user_id],
    user ids are unique and the expiry of the new access token is a
    representable [datetime].  These are not the only ways a refresh
    fails: a token that verifies, has not expired and carries claims but
    no [user_id] makes the view raise [KeyError], and one whose [user_id]
    is a string that is no integer makes it raise [ValueError]; the view
    catches neither, so there is no response at all. *)
Theorem refresh_failures (request : Request) (w : World) :
  ((data request !! "refresh" = None \/ data request !! "refresh" = Some "") ->
   TokenRefreshView_post request w
     = Returns (detail "Refresh token is required" HTTP_400_BAD_REQUEST) w)
  /\ (forall token,
        data request !! "refresh" = Some token -> token <> "" ->
        (jws_verify views_SECRET_KEY token = None ->
         TokenRefreshView_post request w
           = Returns (detail "Invalid or expired refresh token"
                             HTTP_401_UNAUTHORIZED) w)
        /\ (forall payload exp,
              jws_verify views_SECRET_KEY token = Some payload ->
              payload !! "exp" = Some (JInt exp) ->
              exp <= datetime.timegm (clock (advance w)) ->
              TokenRefreshView_post request w
                = Returns (detail "Invalid or expired refresh token"
                                  HTTP_401_UNAUTHORIZED) (advance w))
        /\ (forall payload exp uid,
              jws_verify views_SECRET_KEY token = Some payload ->
              payload !! "exp" = Some (JInt exp) ->
              datetime.timegm (clock (advance w)) < exp ->
              payload !! "user_id" = Some (JInt uid) ->
              (forall user, user ∈ users w -> user_id user <> uid) ->
              TokenRefreshView_post request w
                = Returns (detail "User not found" HTTP_404_NOT_FOUND)
                          (advance w)))
  /\ (forall response w',
        TokenRefreshView_post request w = Returns response w' ->
        refresh_answer response)
  /\ ((forall token payload,
         data request !! "refresh" = Some token ->
         jws_verify views_SECRET_KEY token = Some payload ->
         exists uid, payload !! "user_id" = Some (JInt uid)) ->
      NoDup (user_id <$> users w) ->
      datetime.datetime_ok
        (clock (advance (advance w)) + ACCESS_TOKEN_EXPIRATION) ->
      exists response w',
        TokenRefreshView_post request w = Returns response w')
  /\ (forall token payload,
        data request !! "refresh" = Some token -> token <> "" ->
        jws_verify views_SECRET_KEY token = Some payload ->
        (forall s0, payload !! "exp" <> Some (JStr s0)) ->
        (forall exp, payload !! "exp" = Some (JInt exp) ->
                     datetime.timegm (clock (advance w)) < exp) ->
        payload <> ∅ ->
        (payload !! "user_id" = None ->
         TokenRefreshView_post request w
           = Raises (KeyError "user_id") (advance w))
        /\ (forall s0,
              payload !! "user_id" = Some (JStr s0) -> py_int s0 = None ->
              TokenRefreshView_post request w
                = Raises ValueError (advance w))).
Proof.
  split; [|split; [|split; [|split]]].
  - intros Hmissing. rewrite refresh_eq. unfold refresh_outcome.
    destruct Hmissing as [-> | ->]; reflexivity.
  - intros token Hreq Hne. split; [|split].
    + intros Hverify. rewrite refresh_eq. unfold refresh_outcome.
      rewrite Hreq, (truthy_nonempty _ Hne), Hverify. reflexivity.
    + intros payload exp Hverify Hexp Hle.
      rewrite refresh_eq. unfold refresh_outcome.
      rewrite Hreq, (truthy_nonempty _ Hne), Hverify, Hexp.
      destruct (decide _); [reflexivity | contradiction].
    + intros payload exp uid Hverify Hexp Hlt Huid Hnone.
      rewrite refresh_eq. unfold refresh_outcome.
      rewrite Hreq, (truthy_nonempty _ Hne), Hverify, Hexp.
      destruct (decide _); [lia|].
      unfold refresh_decoded.
      destruct (decide (payload = ∅)) as [->|_].
      { rewrite lookup_empty in Hexp. discriminate Hexp. }
      rewrite Huid. unfold User_objects_get_id, User_objects_get.
      rewrite advance_users, objects_get_none; [reflexivity|].
      intros u Hu. apply Hnone. exact Hu.
  - intros response w'. rewrite refresh_eq. unfold refresh_outcome.
    destruct (truthy (data request !! "refresh")) as [token|].
    2:{ intros [= <- <-]. right; left. reflexivity. }
    destruct (jws_verify views_SECRET_KEY token) as [payload|].
    2:{ intros [= <- <-]. right; right; left. reflexivity. }
    destruct (payload !! "exp") as [[exp|s0]|].
    + destruct (decide _).
      * intros [= <- <-]. right; right; left. reflexivity.
      * apply refresh_decoded_answer.
    + intros [= <- <-]. right; right; left. reflexivity.
    + apply refresh_decoded_answer.
  - intros Hclaims Hpk Hok. rewrite refresh_eq. unfold refresh_outcome.
    unfold truthy.
    destruct (data request !! "refresh") as [token|] eqn:Hreq; cbn [py_not];
      [|eauto].
    destruct (bool_decide (token = "")); [eauto|].
    destruct (jws_verify views_SECRET_KEY token) as [payload|] eqn:Hverify;
      [|eauto].
    destruct (Hclaims token payload eq_refl Hverify) as [uid Huid].
    assert (Hdecoded : exists response w',
              refresh_decoded payload (advance w) = Returns response w').
    { unfold refresh_decoded. destruct (decide (payload = ∅)); [eauto|].
      rewrite Huid. unfold User_objects_get_id, User_objects_get.
      rewrite advance_users.
      destruct (objects_get (fun u => user_id u = uid) (users w))
        as [user| |] eqn:Hget.
      - destruct (decide _); [eauto | contradiction].
      - eauto.
      - exfalso. revert Hget. apply objects_get_single. exact Hpk. }
    destruct (payload !! "exp") as [[exp|s0]|]; [|eauto|exact Hdecoded].
    destruct (decide _); [eauto | exact Hdecoded].
  - intros token payload Hreq Hne Hverify Hstr Hfresh Hclaims.
    assert (Hpost : TokenRefreshView_post request w
                    = refresh_decoded payload (advance w)).
    { rewrite refresh_eq. unfold refresh_outcome.
      rewrite Hreq, (truthy_nonempty _ Hne), Hverify.
      destruct (payload !! "exp") as [[exp|s0]|] eqn:Hexp.
      - destruct (decide _) as [Hle|_]; [|reflexivity].
        specialize (Hfresh exp eq_refl). lia.
      - exfalso. exact (Hstr s0 eq_refl).
      - reflexivity. }
    rewrite Hpost. unfold refresh_decoded.
    destruct (decide (payload = ∅)); [contradiction|]. split.
    + intros ->. reflexivity.
    + intros s0 -> Hint. cbn [User_objects_get_id]. rewrite Hint.
      reflexivity.
Qed.

(** C9: whenever [TokenRefreshView.post] answers 200, the access token in
    the answer verifies, its [exp] is 15 minutes (900 seconds) after the
    second at which the clock was read for it, its [iat] is the second of
    the following reading (so [exp = iat + 900] when the clock does not
    move in between), and the answer is the same under every value of the
    dynamic configuration. *)
Theorem refresh_lifetime_is_fixed (request : Request) (w : World)
    (response : Response) (w' : World) :
  TokenRefreshView_post request w = Returns response w' ->
  status response = HTTP_200_OK ->
  exists access payload,
    body response = {[ "access" := JStr access ]} /\
    jws_verify views_SECRET_KEY access = Some payload /\
    payload !! "exp"
      = Some (JInt (datetime.timegm (clock (advance (advance w))) + 15 * 60)) /\
    payload !! "iat" = Some (JInt (datetime.timegm (clock w'))) /\
    (ticks w = [] ->
     payload !! "exp" = Some (JInt (datetime.timegm (clock w) + 900)) /\
     payload !! "iat" = Some (JInt (datetime.timegm (clock w)))) /\
    (forall c,
       TokenRefreshView_post request (with_config c w)
       = Returns response (with_config c w')).
Proof.
  intros Hpost Hstatus.
  assert (Hconfig : forall c,
    TokenRefreshView_post request (with_config c w)
    = Returns response (with_config c w')).
  { intros c. rewrite (refresh_frame (with_config c)), Hpost.
    - reflexivity.
    - intros w0. apply advance_with_config.
    - reflexivity.
    - reflexivity. }
  rewrite refresh_eq in Hpost. unfold refresh_outcome in Hpost.
  destruct (truthy (data request !! "refresh")) as [token|].
  2:{ injection Hpost as <- <-. discriminate Hstatus. }
  destruct (jws_verify views_SECRET_KEY token) as [decoded|].
  2:{ injection Hpost as <- <-. discriminate Hstatus. }
  assert (Hdecoded :
    refresh_decoded decoded (advance w) = Returns response w' ->
    exists access payload,
      body response = {[ "access" := JStr access ]} /\
      jws_verify views_SECRET_KEY access = Some payload /\
      payload !! "exp"
        = Some (JInt (datetime.timegm (clock (advance (advance w))) + 15 * 60)) /\
      payload !! "iat" = Some (JInt (datetime.timegm (clock w'))) /\
      (ticks w = [] ->
       payload !! "exp" = Some (JInt (datetime.timegm (clock w) + 900)) /\
       payload !! "iat" = Some (JInt (datetime.timegm (clock w)))) /\
      (forall c,
         TokenRefreshView_post request (with_config c w)
         = Returns response (with_config c w'))).
  { unfold refresh_decoded. intros Hr.
    destruct (decide (decoded = ∅)).
    { injection Hr as <- <-. discriminate Hstatus. }
    destruct (decoded !! "user_id") as [v|]; [|discriminate Hr].
    destruct (User_objects_get_id_outcome v (advance w))
      as [[u Hu]|[e [He [->|[->| ->]]]]];
      rewrite ?Hu, ?He in Hr; try discriminate Hr.
    2:{ injection Hr as <- <-. discriminate Hstatus. }
    destruct (decide _); [|discriminate Hr].
    injection Hr as <- <-.
    eexists _, _. split; [reflexivity|].
    split; [apply jws_verify_sign|].
    unfold token_payload, ACCESS_TOKEN_EXPIRATION.
    rewrite timegm_add_seconds.
    rewrite lookup_insert_ne by discriminate.
    rewrite !lookup_insert_eq.
    split; [reflexivity|]. split; [reflexivity|].
    split; [|exact Hconfig].
    intros Hticks. rewrite !(advance_no_ticks w) by assumption.
    split; reflexivity. }
  destruct (decoded !! "exp") as [[exp|s0]|].
  - destruct (decide _); [|exact (Hdecoded Hpost)].
    injection Hpost as <- <-. discriminate Hstatus.
  - injection Hpost as <- <-. discriminate Hstatus.
  - exact (Hdecoded Hpost).
Qed.

(** ** Login *)

Lemma login_eq (request : Request) (w : World) :
  CustomTokenObtainPairView_post request w = login_outcome request w.
Proof.
  unfold CustomTokenObtainPairView_post, login_outcome.
  unfold bind at 1. unfold try_except, bind at 1.
  unfold User_objects_get_email.
  destruct (data request !! "email") as [e|]; [|reflexivity].
  unfold User_objects_get.
  destruct (objects_get _ (users w)) as [user| |]; try reflexivity.
  destruct (user_check_password user (data request !! "password"));
    [|reflexivity].
  cbn [negb ret]. unfold login_issue.
  unfold bind at 1. unfold constance_config at 1.
  unfold bind at 1.
  destruct (datetime.timedelta_seconds _) as [access_lifetime|];
    [|reflexivity].
  cbn [or_overflow ret].
  unfold bind at 1. unfold constance_config at 1.
  unfold bind at 1.
  destruct (datetime.timedelta_days _) as [refresh_lifetime|] eqn:Hdays;
    [|reflexivity].
  cbn [or_overflow ret].
  unfold bind at 1. rewrite create_token_eq.
  destruct (decide _); [|reflexivity].
  unfold bind at 1. rewrite create_token_eq.
  destruct (decide _); [|reflexivity].
  unfold bind at 1. unfold save_refresh_token.
  cbv [bind timezone_now constance_config].
  rewrite !advance_config, Hdays. cbn [or_overflow ret].
  unfold datetime.add.
  destruct (decide _); [|reflexivity].
  cbn [or_overflow ret].
  destruct (RefreshTokenModel_objects_update_or_create _ _ _ _);
    reflexivity.
Qed.

(** ** The refresh-token table *)

Lemma map_untouched (obj saved : RefreshTokenModel)
    (rows : list RefreshTokenModel) :
  rt_id obj ∉ rt_id <$> rows ->
  map (fun r => if decide (rt_id r = rt_id obj) then saved else r) rows = rows.
Proof.
  induction rows as [|r rows IH]; intros Hfresh; [reflexivity|].
  cbn [map]. rewrite fmap_cons in Hfresh.
  apply not_elem_of_cons in Hfresh as [Hne Hfresh].
  destruct (decide (rt_id r = rt_id obj)); [congruence|].
  f_equal. apply IH. exact Hfresh.
Qed.

(** [obj.save()] on the only row of a user rewrites that row and no
    other. *)
Lemma update_in_place (rows : list RefreshTokenModel)
    (obj saved : RefreshTokenModel) (uid : Z) :
  NoDup (rt_id <$> rows) ->
  filter (fun r => rt_user r = uid) rows = [obj] ->
  rt_user saved = uid ->
  rt_id saved = rt_id obj ->
  let rows' :=
    map (fun r => if decide (rt_id r = rt_id obj) then saved else r) rows in
  filter (fun r => rt_user r = uid) rows' = [saved]
  /\ (forall uid', uid' <> uid ->
        filter (fun r => rt_user r = uid') rows'
        = filter (fun r => rt_user r = uid') rows)
  /\ rt_id <$> rows' = rt_id <$> rows.
Proof.
  intros Hnd Hf Huser Hid. cbv zeta.
  induction rows as [|r rows IH]; [discriminate Hf|].
  rewrite fmap_cons in Hnd. inversion_clear Hnd as [|? ? Hfresh Hnd'].
  cbn [map].
  destruct (decide (rt_user r = uid)) as [Hr|Hr].
  - rewrite filter_cons_True in Hf by exact Hr.
    injection Hf as -> Hrest.
    rewrite (map_untouched obj saved rows Hfresh).
    destruct (decide (rt_id obj = rt_id obj)); [|congruence].
    split; [|split].
    + rewrite filter_cons_True by exact Huser. rewrite Hrest. reflexivity.
    + intros uid' Hne.
      rewrite !filter_cons_False by congruence. reflexivity.
    + rewrite !fmap_cons, Hid. reflexivity.
  - rewrite filter_cons_False in Hf by exact Hr.
    assert (Hobj : obj ∈ rows).
    { assert (Hin : obj ∈ filter (fun r0 => rt_user r0 = uid) rows)
        by (rewrite Hf; left).
      apply list_elem_of_filter in Hin as [_ Hin]. exact Hin. }
    destruct (decide (rt_id r = rt_id obj)) as [Heq|Hne].
    { exfalso. apply Hfresh. rewrite Heq. apply list_elem_of_fmap. eauto. }
    destruct (IH Hnd' Hf) as (IH1 & IH2 & IH3).
    split; [|split].
    + rewrite filter_cons_False by exact Hr. exact IH1.
    + intros uid' Hne'. destruct (decide (rt_user r = uid')) as [Hu|Hu].
      * rewrite !filter_cons_True by exact Hu. f_equal. apply IH2, Hne'.
      * rewrite !filter_cons_False by exact Hu. apply IH2, Hne'.
    + rewrite !fmap_cons. f_equal. exact IH3.
Qed.

(** What [update_or_create] leaves behind: when it returns, the user has
    exactly one row, holding the token and the expiry passed in, under the
    primary key of the row the user had before (if any); the rows of the
    other users are as they were.  When it raises, the table is as it
    was. *)
Lemma update_or_create_spec (user : CustomUser) (token : string)
    (expires_at : Z) (w : World) :
  pk_consistent w ->
  match RefreshTokenModel_objects_update_or_create user token expires_at w
  with
  | Returns _ w' =>
      users w' = users w /\ config w' = config w /\
      pk_consistent w' /\
      (exists row,
         rows_of (user_id user) w' = [row] /\
         rt_token row = token /\
         rt_expires_at row = expires_at /\
         (forall old, rows_of (user_id user) w = [old] ->
                      rt_id row = rt_id old)) /\
      (forall uid, uid <> user_id user -> rows_of uid w' = rows_of uid w)
  | Raises _ w' =>
      users w' = users w /\ config w' = config w /\
      refresh_tokens w' = refresh_tokens w /\
      refresh_tokens_seq w' = refresh_tokens_seq w
  end.
Proof.
  intros [Hnd Hseq]. unfold RefreshTokenModel_objects_update_or_create.
  destruct (objects_get _ (refresh_tokens w)) as [obj| |] eqn:Hget.
  - apply objects_get_found in Hget as (Hf & Hin & Huser).
    destruct (token_taken _ _ _); [repeat split; reflexivity|].
    destruct (update_in_place (refresh_tokens w) obj
                (mkRefreshToken (rt_id obj) (rt_user obj) token
                                (rt_created_at obj) expires_at)
                (user_id user) Hnd Hf Huser eq_refl) as (H1 & H2 & H3).
    split; [reflexivity|]. split; [reflexivity|]. split; [|split].
    + split; cbn.
      * rewrite H3. exact Hnd.
      * apply list.Forall_forall. intros r Hr.
        assert (Hid : rt_id r ∈ rt_id <$>
                  map (fun r0 => if decide (rt_id r0 = rt_id obj)
                                 then mkRefreshToken (rt_id obj) (rt_user obj)
                                        token (rt_created_at obj) expires_at
                                 else r0) (refresh_tokens w)).
        { apply list_elem_of_fmap. exists r. split; [reflexivity | exact Hr]. }
        rewrite H3 in Hid. apply list_elem_of_fmap in Hid as (r0 & -> & Hr0).
        rewrite list.Forall_forall in Hseq. apply Hseq, Hr0.
    + eexists. split; [exact H1|]. repeat split.
      intros old Hold. unfold rows_of in Hold. rewrite Hf in Hold.
      injection Hold as <-. reflexivity.
    + intros uid Hne. apply H2, Hne.
  - unfold objects_get in Hget.
    destruct (filter _ (refresh_tokens w)) as [|a [|b rest]] eqn:Hf;
      try discriminate Hget.
    destruct (token_taken _ _ _).
    { rewrite advance_users, advance_config, advance_refresh_tokens,
        advance_refresh_tokens_seq. repeat split; reflexivity. }
    split; [apply advance_users|]. split; [apply advance_config|].
    split; [|split].
    + split; cbn.
      * rewrite fmap_app. apply list.NoDup_app. split; [exact Hnd|].
        split; [|apply NoDup_singleton].
        intros x Hx Hx'. apply list_elem_of_singleton in Hx'. subst x.
        apply list_elem_of_fmap in Hx as (r & Hr & Hin).
        rewrite list.Forall_forall in Hseq. specialize (Hseq r Hin). cbn in Hr. lia.
      * apply Forall_app. split.
        -- eapply list.Forall_impl; [exact Hseq|]. cbn. intros; lia.
        -- apply Forall_singleton. cbn. lia.
    + eexists. split.
      * unfold rows_of. cbn. rewrite list.filter_app, Hf.
        rewrite filter_cons_True by reflexivity. reflexivity.
      * repeat split. intros old Hold. unfold rows_of in Hold.
        rewrite Hf in Hold. discriminate Hold.
    + intros uid Hne. unfold rows_of. cbn. rewrite list.filter_app.
      rewrite filter_cons_False by (cbn; congruence).
      rewrite filter_nil, app_nil_r. reflexivity.
  - repeat split; reflexivity.
Qed.

Lemma same_store_refl (w : World) : same_store w w.
Proof. split; reflexivity. Qed.

Lemma same_store_advance (w w' : World) :
  same_store w w' -> same_store w (advance w').
Proof.
  intros [Hr Hs]. split.
  - rewrite advance_refresh_tokens. exact Hr.
  - rewrite advance_refresh_tokens_seq. exact Hs.
Qed.

Lemma store_ok_same (w w' : World) :
  same_store w w' -> store_ok w -> store_ok w'.
Proof.
  intros [Hr Hs] [[Hnd Hseq] Hone]. split; [split|].
  - rewrite Hr. exact Hnd.
  - rewrite Hr, Hs. exact Hseq.
  - intros uid. unfold rows_of. rewrite Hr. apply Hone.
Qed.

Lemma filter_filter_length {A} (P Q : A -> Prop)
    `{!forall a, Decision (P a)} `{!forall a, Decision (Q a)} (l : list A) :
  (length (filter Q (filter P l)) <= length (filter Q l))%nat.
Proof.
  induction l as [|a l IH]; [reflexivity|].
  destruct (decide (P a)) as [HP|HP].
  - rewrite (filter_cons_True P) by exact HP.
    destruct (decide (Q a)) as [HQ|HQ].
    + rewrite !(filter_cons_True Q) by exact HQ. cbn. lia.
    + rewrite !(filter_cons_False Q) by exact HQ. exact IH.
  - rewrite (filter_cons_False P) by exact HP.
    destruct (decide (Q a)) as [HQ|HQ].
    + rewrite (filter_cons_True Q) by exact HQ. cbn. lia.
    + rewrite (filter_cons_False Q) by exact HQ. exact IH.
Qed.

Lemma store_ok_delete (P : RefreshTokenModel -> Prop)
    `{!forall r, Decision (P r)} (w : World) :
  store_ok w ->
  store_ok (with_refresh_tokens (filter P (refresh_tokens w))
                                (refresh_tokens_seq w) w).
Proof.
  intros [[Hnd Hseq] Hone]. split; [split|]; cbn.
  - eapply sublist_NoDup; [exact Hnd|].
    apply fmap_sublist, sublist_filter.
  - apply list.Forall_forall. intros r Hr.
    apply list_elem_of_filter in Hr as [_ Hr].
    rewrite list.Forall_forall in Hseq. apply Hseq, Hr.
  - intros uid. unfold rows_of. cbn.
    etransitivity; [apply filter_filter_length|]. apply Hone.
Qed.

Lemma store_ok_logout (request : Request) (w : World) :
  store_ok w -> store_ok (world_of (LogoutView_post request w)).
Proof.
  intros Hok. unfold LogoutView_post.
  destruct (truthy (data request !! "refresh")) as [token|]; [|exact Hok].
  cbv [try_except bind RefreshTokenModel_objects_get_token
       RefreshTokenModel_delete ret].
  destruct (objects_get _ (refresh_tokens w)) as [row| |]; cbn [world_of];
    try exact Hok.
  apply store_ok_delete, Hok.
Qed.

Lemma store_ok_register (request : Request) (w : World) :
  store_ok w -> store_ok (world_of (RegisterView_post request w)).
Proof.
  intros Hok. unfold RegisterView_post.
  destruct (serializer_is_valid _ _); [|exact Hok].
  cbv [bind try_except CustomUserCreateSerializer_save create_user].
  destruct (truthy (data request !! "email")) as [e|]; [|exact Hok].
  destruct (bool_decide _); [exact Hok|].
  cbn [world_of ret]. revert Hok. apply store_ok_same. split; reflexivity.
Qed.

Lemma same_store_refresh (request : Request) (w : World) :
  same_store w (world_of (TokenRefreshView_post request w)).
Proof.
  rewrite refresh_eq. unfold refresh_outcome.
  destruct (truthy (data request !! "refresh")) as [token|];
    [|apply same_store_refl].
  destruct (jws_verify views_SECRET_KEY token) as [payload|];
    [|apply same_store_refl].
  assert (Hdecoded :
    same_store w (world_of (refresh_decoded payload (advance w)))).
  { unfold refresh_decoded.
    destruct (decide (payload = ∅));
      [apply same_store_advance, same_store_refl|].
    destruct (payload !! "user_id") as [v|];
      [|apply same_store_advance, same_store_refl].
    destruct (User_objects_get_id_outcome v (advance w))
      as [[u Hu]|[e [He [->|[->| ->]]]]];
      rewrite ?Hu, ?He; cbn [world_of];
      try apply same_store_advance, same_store_refl.
    destruct (decide _); cbn [world_of];
      repeat apply same_store_advance; apply same_store_refl. }
  destruct (payload !! "exp") as [[exp|s0]|]; [| |exact Hdecoded].
  - destruct (decide _); [|exact Hdecoded].
    apply same_store_advance, same_store_refl.
  - apply same_store_advance, same_store_refl.
Qed.

Lemma store_ok_login (request : Request) (w : World) :
  store_ok w ->
  store_ok (world_of (CustomTokenObtainPairView_post request w)).
Proof.
  intros Hok. rewrite login_eq. unfold login_outcome.
  destruct (data request !! "email") as [e|]; [|exact Hok].
  destruct (objects_get _ (users w)) as [user| |]; try exact Hok.
  destruct (user_check_password _ _); [|exact Hok].
  unfold login_issue.
  destruct (datetime.timedelta_seconds _) as [access_lifetime|];
    [|exact Hok].
  destruct (datetime.timedelta_days _) as [refresh_lifetime|]; [|exact Hok].
  cbv zeta.
  assert (Hadv : forall n, store_ok (Nat.iter n advance w)).
  { intros n. apply (store_ok_same w); [|exact Hok].
    induction n as [|n IH]; [apply same_store_refl|].
    cbn [Nat.iter nat_rect]. apply same_store_advance, IH. }
  destruct (decide _); [|exact (Hadv 1%nat)].
  destruct (decide _); [|exact (Hadv 3%nat)].
  destruct (decide _); [|exact (Hadv 5%nat)].
  pose proof (update_or_create_spec user
                (jws_sign views_SECRET_KEY
                   (token_payload (user_claims user) refresh_lifetime
                      (clock (Nat.iter 3 advance w))
                      (clock (Nat.iter 4 advance w))))
                (clock (Nat.iter 5 advance w) + refresh_lifetime)
                (Nat.iter 5 advance w) (proj1 (Hadv 5%nat))) as Hspec.
  cbn [Nat.iter nat_rect] in Hspec.
  destruct (RefreshTokenModel_objects_update_or_create _ _ _ _)
    as [[] w6|exn w6]; cbn [world_of].
  - destruct Hspec as (_ & _ & Hpk & (row & Hrow & _) & Hothers).
    split; [exact Hpk|]. intros uid.
    destruct (decide (uid = user_id user)) as [->|Hne].
    + rewrite Hrow. reflexivity.
    + rewrite (Hothers uid Hne). apply (Hadv 5%nat).
  - destruct Hspec as (_ & _ & Hr & Hs).
    apply (store_ok_same (Nat.iter 5 advance w)); [|exact (Hadv 5%nat)].
    split; assumption.
Qed.

Lemma store_ok_step (w : World) (ev : Event) :
  store_ok w -> store_ok (step w ev).
Proof.
  intros Hok. destruct ev as [request|request|request|request|c|d during];
    cbn [step].
  - apply store_ok_register, Hok.
  - apply store_ok_login, Hok.
  - revert Hok. apply store_ok_same, same_store_refresh.
  - apply store_ok_logout, Hok.
  - revert Hok. apply store_ok_same. split; reflexivity.
  - revert Hok. apply store_ok_same. split; reflexivity.
Qed.

Lemma store_ok_run (evs : list Event) (w : World) :
  store_ok w -> store_ok (run w evs).
Proof.
  revert w. induction evs as [|ev evs IH]; intros w Hok; [exact Hok|].
  cbn [run fold_left]. apply IH, store_ok_step, Hok.
Qed.

Lemma store_ok_empty (w : World) : refresh_tokens w = [] -> store_ok w.
Proof.
  intros Hempty. split; [split|].
  - rewrite Hempty. constructor.
  - rewrite Hempty. constructor.
  - intros uid. unfold rows_of. rewrite Hempty. cbn. lia.
Qed.

Lemma timedelta_days_eq (n d : Z) :
  datetime.timedelta_days n = Some d -> d = n * datetime.us_per_day.
Proof.
  unfold datetime.timedelta_days, datetime.timedelta_of_us.
  destruct (decide _); [|discriminate]. intros [= <-]. reflexivity.
Qed.

Lemma timedelta_seconds_eq (n d : Z) :
  datetime.timedelta_seconds n = Some d -> d = n * datetime.us_per_second.
Proof.
  unfold datetime.timedelta_seconds, datetime.timedelta_of_us.
  destruct (decide _); [|discriminate]. intros [= <-]. reflexivity.
Qed.

Lemma rows_of_iter_advance (n : nat) (uid : Z) (w : World) :
  rows_of uid (Nat.iter n advance w) = rows_of uid w.
Proof.
  induction n as [|n IH]; [reflexivity|].
  cbn [Nat.iter nat_rect]. unfold rows_of in *.
  rewrite advance_refresh_tokens. exact IH.
Qed.

Lemma pk_consistent_iter (n : nat) (w : World) :
  pk_consistent w -> pk_consistent (Nat.iter n advance w).
Proof.
  intros Hpk. induction n as [|n IH]; [exact Hpk|].
  cbn [Nat.iter nat_rect]. destruct IH as [Hnd Hseq]. split.
  - rewrite advance_refresh_tokens. exact Hnd.
  - rewrite advance_refresh_tokens, advance_refresh_tokens_seq. exact Hseq.
Qed.

(** The access token of a login answered 200. *)
Lemma login_access (request : Request) (w : World) (response : Response)
    (w' : World) :
  CustomTokenObtainPairView_post request w = Returns response w' ->
  status response = HTTP_200_OK ->
  exists user,
    body response !! "access"
    = Some (JStr (jws_sign views_SECRET_KEY
                    (token_payload (user_claims user)
                       (ACCESS_TOKEN_LIFETIME (config w)
                        * datetime.us_per_second)
                       (clock (advance w))
                       (clock (advance (advance w)))))).
Proof.
  intros Hpost Hstatus. rewrite login_eq in Hpost.
  unfold login_outcome in Hpost.
  destruct (data request !! "email") as [e|].
  2:{ injection Hpost as <- <-. discriminate Hstatus. }
  destruct (objects_get _ (users w)) as [user| |].
  2:{ injection Hpost as <- <-. discriminate Hstatus. }
  2:{ discriminate Hpost. }
  destruct (user_check_password _ _).
  2:{ injection Hpost as <- <-. discriminate Hstatus. }
  unfold login_issue in Hpost.
  destruct (datetime.timedelta_seconds _) as [access_lifetime|] eqn:Hsec;
    [|discriminate Hpost].
  destruct (datetime.timedelta_days _) as [refresh_lifetime|];
    [|discriminate Hpost].
  apply timedelta_seconds_eq in Hsec. subst access_lifetime.
  cbv zeta in Hpost.
  destruct (decide _); [|discriminate Hpost].
  destruct (decide _); [|discriminate Hpost].
  destruct (decide _); [|discriminate Hpost].
  destruct (RefreshTokenModel_objects_update_or_create _ _ _ _)
    as [[] w6|exn w6]; [|discriminate Hpost].
  injection Hpost as <- <-. exists user. reflexivity.
Qed.

(** A login answered 200, taken apart: the user found by e-mail, the two
    tokens of the answer, and the one row the user is left with. *)
Lemma login_success (request : Request) (w : World) (response : Response)
    (w' : World) :
  pk_consistent w ->
  CustomTokenObtainPairView_post request w = Returns response w' ->
  status response = HTTP_200_OK ->
  exists email user row,
    data request !! "email" = Some email /\
    objects_get (fun u => user_email u = email) (users w) = Found user /\
    body response =
      {[ "access" :=
           JStr (jws_sign views_SECRET_KEY
                   (token_payload (user_claims user)
                      (ACCESS_TOKEN_LIFETIME (config w)
                       * datetime.us_per_second)
                      (clock (Nat.iter 1 advance w))
                      (clock (Nat.iter 2 advance w))));
         "refresh" := JStr (rt_token row) ]} /\
    rows_of (user_id user) w' = [row] /\
    rt_expires_at row
      = clock (Nat.iter 5 advance w)
        + REFRESH_TOKEN_LIFETIME (config w) * datetime.us_per_day /\
    (forall old, rows_of (user_id user) w = [old] -> rt_id row = rt_id old) /\
    users w' = users w /\ config w' = config w /\ pk_consistent w'.
Proof.
  intros Hpk Hpost Hstatus. rewrite login_eq in Hpost.
  unfold login_outcome in Hpost.
  destruct (data request !! "email") as [e|] eqn:He.
  2:{ injection Hpost as <- <-. discriminate Hstatus. }
  destruct (objects_get _ (users w)) as [user| |] eqn:Hget.
  2:{ injection Hpost as <- <-. discriminate Hstatus. }
  2:{ discriminate Hpost. }
  destruct (user_check_password _ _).
  2:{ injection Hpost as <- <-. discriminate Hstatus. }
  unfold login_issue in Hpost.
  destruct (datetime.timedelta_seconds _) as [access_lifetime|] eqn:Hsec;
    [|discriminate Hpost].
  destruct (datetime.timedelta_days _) as [refresh_lifetime|] eqn:Hdays;
    [|discriminate Hpost].
  apply timedelta_seconds_eq in Hsec. apply timedelta_days_eq in Hdays.
  cbv zeta in Hpost.
  destruct (decide _); [|discriminate Hpost].
  destruct (decide _); [|discriminate Hpost].
  destruct (decide _); [|discriminate Hpost].
  assert (Hpk5 : pk_consistent (Nat.iter 5 advance w)).
  { apply pk_consistent_iter, Hpk. }
  pose proof (update_or_create_spec user
                (jws_sign views_SECRET_KEY
                   (token_payload (user_claims user) refresh_lifetime
                      (clock (Nat.iter 3 advance w))
                      (clock (Nat.iter 4 advance w))))
                (clock (Nat.iter 5 advance w) + refresh_lifetime)
                (Nat.iter 5 advance w) Hpk5) as Hspec.
  cbn [Nat.iter nat_rect] in Hspec.
  destruct (RefreshTokenModel_objects_update_or_create _ _ _ _)
    as [[] w6|exn w6]; [|discriminate Hpost].
  injection Hpost as <- <-.
  destruct Hspec as (Hu & Hc & Hpk' & (row & Hrow & Htok & Hexp & Hold) & _).
  exists e, user, row. subst access_lifetime refresh_lifetime.
  split; [reflexivity|]. split; [exact Hget|].
  split; [cbn [body Nat.iter nat_rect]; rewrite Htok; reflexivity|].
  split; [exact Hrow|]. split; [exact Hexp|].
  split.
  { intros old Hw. apply Hold.
    rewrite <- (rows_of_iter_advance 5 (user_id user) w) in Hw. exact Hw. }
  split; [rewrite Hu, !advance_users; reflexivity|].
  split; [rewrite Hc, !advance_config; reflexivity|].
  exact Hpk'.
Qed.

(** C1: starting from an empty refresh-token table, after any sequence of
    registrations, logins, refreshes and logouts (with configuration
    changes and clock movements in between) every user has at most one row
    in the table; and when two logins with the same e-mail are then both
    answered 200, one after the other, the user is left with exactly one
    row, the row written by the first login rewritten in place, which holds
    the refresh token of the second answer and the expiry instant computed
    by the second login. *)
Theorem one_refresh_row_per_user (w0 : World) (evs : list Event) :
  refresh_tokens w0 = [] ->
  let w := run w0 evs in
  (forall uid, (length (rows_of uid w) <= 1)%nat)
  /\ (forall request1 request2 response1 response2 w1 w2 email,
        data request1 !! "email" = Some email ->
        data request2 !! "email" = Some email ->
        CustomTokenObtainPairView_post request1 w = Returns response1 w1 ->
        status response1 = HTTP_200_OK ->
        CustomTokenObtainPairView_post request2 w1 = Returns response2 w2 ->
        status response2 = HTTP_200_OK ->
        exists user row1 row2,
          user ∈ users w /\ user_email user = email /\
          rows_of (user_id user) w1 = [row1] /\
          body response1 !! "refresh" = Some (JStr (rt_token row1)) /\
          rows_of (user_id user) w2 = [row2] /\
          body response2 !! "refresh" = Some (JStr (rt_token row2)) /\
          rt_expires_at row2
            = clock (Nat.iter 5 advance w1)
              + REFRESH_TOKEN_LIFETIME (config w1) * datetime.us_per_day /\
          rt_id row2 = rt_id row1).
Proof.
  intros Hempty w.
  assert (Hok : store_ok w) by (apply store_ok_run, store_ok_empty, Hempty).
  split; [apply Hok|].
  intros request1 request2 response1 response2 w1 w2 email
         He1 He2 Hpost1 Hs1 Hpost2 Hs2.
  destruct (login_success request1 w response1 w1 (proj1 Hok) Hpost1 Hs1)
    as (e1 & user1 & row1 & He1' & Hget1 & Hbody1 & Hrow1 & _ & _
        & Husers & _ & Hpk1).
  destruct (login_success request2 w1 response2 w2 Hpk1 Hpost2 Hs2)
    as (e2 & user2 & row2 & He2' & Hget2 & Hbody2 & Hrow2 & Hexp2 & Hold
        & _ & _ & _).
  assert (e1 = email) by congruence. assert (e2 = email) by congruence.
  subst e1 e2. rewrite Husers, Hget1 in Hget2. injection Hget2 as <-.
  apply objects_get_found in Hget1 as (_ & Hin & Hemail).
  exists user1, row1, row2.
  split; [exact Hin|]. split; [exact Hemail|]. split; [exact Hrow1|].
  split; [rewrite Hbody1; reflexivity|]. split; [exact Hrow2|].
  split; [rewrite Hbody2; reflexivity|]. split; [exact Hexp2|].
  apply Hold, Hrow1.
Qed.

Lemma decode_token_with_config (c : Config) (token : string) (w : World) :
  decode_token token (with_config c w)
  = map_world (with_config c) (decode_token token w).
Proof.
  rewrite !decode_token_eq.
  destruct (jws_verify views_SECRET_KEY token) as [payload|]; [|reflexivity].
  rewrite advance_with_config.
  destruct (payload !! "exp") as [[exp|s0]|]; try reflexivity.
  cbn [clock with_config]. destruct (decide _); reflexivity.
Qed.

(** C7: when the configuration is changed to [c] and a login is then
    answered 200, the access token of the answer expires
    [ACCESS_TOKEN_LIFETIME c] seconds after the second at which the clock
    was read for it (so [exp = iat + ACCESS_TOKEN_LIFETIME c] when the
    clock does not move in between).  The change itself leaves the rows of
    the refresh-token table alone, and every token decodes to the same
    claims, hence the same [exp], as before the change. *)
Theorem access_ttl_takes_effect (c : Config) (request : Request) (w : World)
    (response : Response) (w' : World) :
  CustomTokenObtainPairView_post request (with_config c w)
    = Returns response w' ->
  status response = HTTP_200_OK ->
  (exists access payload,
     body response !! "access" = Some (JStr access) /\
     jws_verify views_SECRET_KEY access = Some payload /\
     payload !! "exp"
       = Some (JInt (datetime.timegm (clock (advance w))
                     + ACCESS_TOKEN_LIFETIME c)) /\
     payload !! "iat"
       = Some (JInt (datetime.timegm (clock (advance (advance w))))) /\
     (ticks w = [] ->
      payload !! "exp"
        = Some (JInt (datetime.timegm (clock w) + ACCESS_TOKEN_LIFETIME c)) /\
      payload !! "iat" = Some (JInt (datetime.timegm (clock w)))))
  /\ refresh_tokens (with_config c w) = refresh_tokens w
  /\ (forall token,
        decode_token token (with_config c w)
        = map_world (with_config c) (decode_token token w)).
Proof.
  intros Hpost Hstatus.
  split; [|split; [reflexivity | intros; apply decode_token_with_config]].
  destruct (login_access request (with_config c w) response w' Hpost Hstatus)
    as (user & Hbody).
  rewrite !advance_with_config in Hbody.
  cbn [clock config with_config] in Hbody.
  eexists _, _. split; [exact Hbody|].
  split; [apply jws_verify_sign|].
  unfold token_payload. rewrite timegm_add_seconds.
  rewrite lookup_insert_ne by discriminate. rewrite !lookup_insert_eq.
  split; [reflexivity|]. split; [reflexivity|].
  intros Hticks. rewrite !(advance_no_ticks w) by assumption.
  split; reflexivity.
Qed.

(** ** The schema's constraints hold in every reachable world *)

Lemma map_saved_elem (obj saved x : RefreshTokenModel)
    (rows : list RefreshTokenModel) :
  x ∈ map (fun r => if decide (rt_id r = rt_id obj) then saved else r) rows ->
  x = saved \/ x ∈ rows.
Proof.
  induction rows as [|r rows IH]; cbn [map]; intros Hx; [inversion Hx|].
  apply elem_of_cons in Hx as [->|Hx].
  - destruct (decide _); [left; reflexivity | right; left].
  - destruct (IH Hx) as [->|Hin]; [left; reflexivity | right; right; exact Hin].
Qed.

Lemma update_tokens_unique (rows : list RefreshTokenModel)
    (obj saved : RefreshTokenModel) :
  NoDup (rt_id <$> rows) ->
  NoDup (rt_token <$> rows) ->
  (forall r, r ∈ rows -> rt_token r = rt_token saved ->
             rt_id r = rt_id obj) ->
  NoDup (rt_token <$>
           map (fun r => if decide (rt_id r = rt_id obj) then saved else r)
               rows).
Proof.
  induction rows as [|r rows IH]; intros Hpk Htok Hfree; [constructor|].
  rewrite fmap_cons in Hpk. rewrite fmap_cons in Htok.
  inversion_clear Hpk as [|? ? Hpk_fresh Hpk'].
  inversion_clear Htok as [|? ? Htok_fresh Htok'].
  cbn [map]. rewrite fmap_cons.
  assert (Hfree' : forall r0, r0 ∈ rows -> rt_token r0 = rt_token saved ->
                              rt_id r0 = rt_id obj).
  { intros r0 Hr0. apply Hfree. right. exact Hr0. }
  destruct (decide (rt_id r = rt_id obj)) as [Heq|Hne].
  - rewrite map_untouched by (rewrite <- Heq; exact Hpk_fresh).
    constructor; [|exact Htok'].
    intros Hin. apply list_elem_of_fmap in Hin as (r0 & Ht & Hr0).
    apply Hpk_fresh. rewrite Heq, <- (Hfree' r0 Hr0 (eq_sym Ht)).
    apply list_elem_of_fmap. eauto.
  - constructor; [|apply IH; assumption].
    intros Hin. apply list_elem_of_fmap in Hin as (x & Ht & Hx).
    apply map_saved_elem in Hx as [->|Hx].
    + apply Hne, Hfree; [left | exact Ht].
    + apply Htok_fresh. rewrite Ht. apply list_elem_of_fmap. eauto.
Qed.

Lemma token_taken_false (token : string) (pk : option Z)
    (rows : list RefreshTokenModel) (r : RefreshTokenModel) :
  token_taken token pk rows = false ->
  r ∈ rows -> rt_token r = token -> Some (rt_id r) = pk.
Proof.
  unfold token_taken. intros Hfree Hin Ht.
  apply bool_decide_eq_false in Hfree.
  destruct (decide (Some (rt_id r) = pk)) as [Heq|Hne]; [exact Heq|].
  exfalso. apply Hfree. apply list.Exists_exists. exists r.
  split; [exact Hin|]. split; assumption.
Qed.

Lemma update_or_create_tokens (user : CustomUser) (token : string)
    (expires_at : Z) (w : World) :
  pk_consistent w ->
  NoDup (rt_token <$> refresh_tokens w) ->
  NoDup (rt_token <$> refresh_tokens
           (world_of (RefreshTokenModel_objects_update_or_create
                        user token expires_at w))).
Proof.
  intros [Hpk Hseq] Htok.
  unfold RefreshTokenModel_objects_update_or_create.
  destruct (objects_get _ (refresh_tokens w)) as [obj| |] eqn:Hget.
  - destruct (token_taken _ _ _) eqn:Htaken; cbn [world_of]; [exact Htok|].
    cbn. apply update_tokens_unique; [exact Hpk | exact Htok|].
    intros r Hr Ht. cbn in Ht.
    pose proof (token_taken_false _ _ _ r Htaken Hr Ht) as Hid.
    congruence.
  - destruct (token_taken _ _ _) eqn:Htaken; cbn [world_of].
    { rewrite advance_refresh_tokens. exact Htok. }
    cbn. rewrite fmap_app. apply list.NoDup_app.
    split; [exact Htok|]. split; [|apply NoDup_singleton].
    intros x Hx Hx'. apply list_elem_of_singleton in Hx'. cbn in Hx'.
    subst x. apply list_elem_of_fmap in Hx as (r & Ht & Hr).
    pose proof (token_taken_false _ _ _ r Htaken Hr (eq_sym Ht)) as Hid.
    discriminate Hid.
  - exact Htok.
Qed.

Lemma db_constraints_same (w w' : World) :
  users w' = users w -> users_seq w' = users_seq w ->
  same_store w w' -> db_constraints w -> db_constraints w'.
Proof.
  intros Hu Hs [Hr Hrs] (H1 & H2 & H3 & [H4 H5] & H6).
  unfold db_constraints, pk_consistent. rewrite Hu, Hs, Hr, Hrs.
  repeat split; assumption.
Qed.

Lemma advance_users_seq (w : World) : users_seq (advance w) = users_seq w.
Proof. unfold advance. destruct (ticks w); reflexivity. Qed.

Lemma db_constraints_iter (n : nat) (w : World) :
  db_constraints w -> db_constraints (Nat.iter n advance w).
Proof.
  intros Hdb. induction n as [|n IH]; [exact Hdb|].
  cbn [Nat.iter nat_rect]. revert IH. apply db_constraints_same.
  - apply advance_users.
  - apply advance_users_seq.
  - apply same_store_advance, same_store_refl.
Qed.

Lemma db_constraints_register (request : Request) (w : World) :
  db_constraints w ->
  db_constraints (world_of (RegisterView_post request w)).
Proof.
  intros Hdb. unfold RegisterView_post.
  destruct (serializer_is_valid _ _); [|exact Hdb].
  cbv [bind try_except CustomUserCreateSerializer_save create_user].
  destruct (truthy (data request !! "email")) as [e|]; [|exact Hdb].
  destruct (bool_decide _) eqn:Hfree; [exact Hdb|].
  apply bool_decide_eq_false in Hfree.
  cbn [world_of ret].
  destruct Hdb as (Hid & Hseq & Hemail & Hpk & Htok).
  split; [|split; [|split; [|split]]]; cbn.
  - rewrite fmap_app. apply list.NoDup_app.
    split; [exact Hid|]. split; [|apply NoDup_singleton].
    intros x Hx Hx'. apply list_elem_of_singleton in Hx'. cbn in Hx'.
    subst x. apply list_elem_of_fmap in Hx as (u & Hu & Hin).
    rewrite list.Forall_forall in Hseq. specialize (Hseq u Hin). lia.
  - apply Forall_app. split.
    + eapply list.Forall_impl; [exact Hseq|]. cbn. intros; lia.
    + apply Forall_singleton. cbn. lia.
  - rewrite fmap_app. apply list.NoDup_app.
    split; [exact Hemail|]. split; [|apply NoDup_singleton].
    intros x Hx Hx'. apply list_elem_of_singleton in Hx'. cbn in Hx'.
    subst x. apply list_elem_of_fmap in Hx as (u & Hu & Hin).
    apply Hfree. apply list.Exists_exists. exists u. split; [exact Hin|].
    symmetry. exact Hu.
  - exact Hpk.
  - exact Htok.
Qed.

Lemma db_constraints_update_or_create (user : CustomUser) (token : string)
    (expires_at : Z) (w : World) :
  db_constraints w ->
  db_constraints
    (world_of (RefreshTokenModel_objects_update_or_create
                 user token expires_at w)).
Proof.
  intros (Hid & Hseq & Hemail & Hpk & Htok).
  pose proof (update_or_create_spec user token expires_at w Hpk) as Hspec.
  pose proof (update_or_create_tokens user token expires_at w Hpk Htok)
    as Htokens.
  assert (Husers :
    users (world_of (RefreshTokenModel_objects_update_or_create
                       user token expires_at w)) = users w /\
    users_seq (world_of (RefreshTokenModel_objects_update_or_create
                           user token expires_at w)) = users_seq w).
  { unfold RefreshTokenModel_objects_update_or_create.
    destruct (objects_get _ (refresh_tokens w)) as [obj| |];
      [destruct (token_taken _ _ _) | destruct (token_taken _ _ _) |];
      cbn [world_of]; cbn;
      rewrite ?advance_users, ?advance_users_seq; split; reflexivity. }
  destruct Husers as [Hu Hs].
  destruct (RefreshTokenModel_objects_update_or_create user token expires_at w)
    as [[] w'|exn w']; cbn [world_of] in *.
  - destruct Hspec as (_ & _ & Hpk' & _).
    unfold db_constraints. rewrite Hu, Hs. repeat split; try assumption;
      apply Hpk'.
  - destruct Hspec as (_ & _ & Hr & Hrs).
    unfold db_constraints, pk_consistent. rewrite Hu, Hs, Hr, Hrs.
    repeat split; try assumption; apply Hpk.
Qed.

Lemma db_constraints_login (request : Request) (w : World) :
  db_constraints w ->
  db_constraints (world_of (CustomTokenObtainPairView_post request w)).
Proof.
  intros Hdb. rewrite login_eq. unfold login_outcome.
  destruct (data request !! "email") as [e|]; [|exact Hdb].
  destruct (objects_get _ (users w)) as [user| |]; try exact Hdb.
  destruct (user_check_password _ _); [|exact Hdb].
  unfold login_issue.
  destruct (datetime.timedelta_seconds _) as [access_lifetime|];
    [|exact Hdb].
  destruct (datetime.timedelta_days _) as [refresh_lifetime|]; [|exact Hdb].
  cbv zeta.
  destruct (decide _); [|exact (db_constraints_iter 1 w Hdb)].
  destruct (decide _); [|exact (db_constraints_iter 3 w Hdb)].
  destruct (decide _); [|exact (db_constraints_iter 5 w Hdb)].
  pose proof (db_constraints_update_or_create user
                (jws_sign views_SECRET_KEY
                   (token_payload (user_claims user) refresh_lifetime
                      (clock (Nat.iter 3 advance w))
                      (clock (Nat.iter 4 advance w))))
                (clock (Nat.iter 5 advance w) + refresh_lifetime)
                (Nat.iter 5 advance w) (db_constraints_iter 5 w Hdb)) as Hspec.
  cbn [Nat.iter nat_rect] in Hspec.
  destruct (RefreshTokenModel_objects_update_or_create _ _ _ _)
    as [[] w6|exn w6]; exact Hspec.
Qed.

Lemma db_constraints_logout (request : Request) (w : World) :
  db_constraints w -> db_constraints (world_of (LogoutView_post request w)).
Proof.
  intros Hdb. unfold LogoutView_post.
  destruct (truthy (data request !! "refresh")) as [token|]; [|exact Hdb].
  cbv [try_except bind RefreshTokenModel_objects_get_token
       RefreshTokenModel_delete ret].
  destruct (objects_get _ (refresh_tokens w)) as [row| |]; cbn [world_of];
    try exact Hdb.
  destruct Hdb as (Hid & Hseq & Hemail & [Hpk Hpkseq] & Htok).
  repeat split; cbn; try assumption.
  - eapply sublist_NoDup; [exact Hpk|]. apply fmap_sublist, sublist_filter.
  - apply list.Forall_forall. intros r Hr.
    apply list_elem_of_filter in Hr as [_ Hr].
    rewrite list.Forall_forall in Hpkseq. apply Hpkseq, Hr.
  - eapply sublist_NoDup; [exact Htok|]. apply fmap_sublist, sublist_filter.
Qed.

Lemma users_refresh (request : Request) (w : World) :
  users (world_of (TokenRefreshView_post request w)) = users w /\
  users_seq (world_of (TokenRefreshView_post request w)) = users_seq w.
Proof.
  assert (Hiter : forall n, users (Nat.iter n advance w) = users w /\
                            users_seq (Nat.iter n advance w) = users_seq w).
  { induction n as [|n [IH1 IH2]]; [split; reflexivity|].
    cbn [Nat.iter nat_rect]. rewrite advance_users, advance_users_seq.
    split; assumption. }
  rewrite refresh_eq. unfold refresh_outcome.
  destruct (truthy (data request !! "refresh")) as [token|];
    [|exact (Hiter 0%nat)].
  destruct (jws_verify views_SECRET_KEY token) as [payload|];
    [|exact (Hiter 0%nat)].
  assert (Hdecoded :
    users (world_of (refresh_decoded payload (advance w))) = users w /\
    users_seq (world_of (refresh_decoded payload (advance w))) = users_seq w).
  { unfold refresh_decoded.
    destruct (decide (payload = ∅)); [exact (Hiter 1%nat)|].
    destruct (payload !! "user_id") as [v|]; [|exact (Hiter 1%nat)].
    destruct (User_objects_get_id_outcome v (advance w))
      as [[u Hu]|[e [He [->|[->| ->]]]]];
      rewrite ?Hu, ?He; cbn [world_of]; try exact (Hiter 1%nat).
    destruct (decide _); cbn [world_of];
      [exact (Hiter 3%nat) | exact (Hiter 2%nat)]. }
  destruct (payload !! "exp") as [[exp|s0]|];
    [|exact (Hiter 1%nat)|exact Hdecoded].
  destruct (decide _); [exact (Hiter 1%nat) | exact Hdecoded].
Qed.

Lemma db_constraints_step (w : World) (ev : Event) :
  db_constraints w -> db_constraints (step w ev).
Proof.
  intros Hdb. destruct ev as [request|request|request|request|c|d during];
    cbn [step].
  - apply db_constraints_register, Hdb.
  - apply db_constraints_login, Hdb.
  - revert Hdb. apply db_constraints_same.
    + apply users_refresh.
    + apply users_refresh.
    + apply same_store_refresh.
  - apply db_constraints_logout, Hdb.
  - revert Hdb. apply db_constraints_same; try reflexivity.
    split; reflexivity.
  - revert Hdb. apply db_constraints_same; try reflexivity.
    split; reflexivity.
Qed.

(** Starting from an empty database, every world the views can reach
    satisfies the constraints of the schema. *)
Lemma db_constraints_run (evs : list Event) (w : World) :
  users w = [] -> refresh_tokens w = [] ->
  db_constraints (run w evs).
Proof.
  intros Hu Hr.
  assert (Hdb : db_constraints w).
  { unfold db_constraints, pk_consistent. rewrite Hu, Hr.
    repeat split; constructor. }
  clear Hu Hr. revert w Hdb.
  induction evs as [|ev evs IH]; intros w Hdb; [exact Hdb|].
  cbn [run fold_left]. apply IH, db_constraints_step, Hdb.
Qed.

(** * More properties of the views *)

(** ** Login, taken apart further *)

Lemma jws_sign_nonempty (key : string) (payload : gmap string Json) :
  jws_sign key payload <> "".
Proof.
  intros Hempty. pose proof (jws_verify_sign key payload) as Hverify.
  rewrite Hempty, jws_verify_empty in Hverify. discriminate Hverify.
Qed.

Lemma iter_advance_no_ticks (n : nat) (w : World) :
  ticks w = [] -> Nat.iter n advance w = w.
Proof.
  intros Hticks. induction n as [|n IH]; [reflexivity|].
  change (Nat.iter (S n) advance w) with (advance (Nat.iter n advance w)).
  rewrite IH. apply advance_no_ticks, Hticks.
Qed.

Lemma timegm_add_days (t n : Z) :
  datetime.timegm (t + n * datetime.us_per_day) = datetime.timegm t + 86400 * n.
Proof.
  unfold datetime.us_per_day.
  replace (n * (86400 * datetime.us_per_second))
    with (86400 * n * datetime.us_per_second) by ring.
  apply timegm_add_seconds.
Qed.

(** The two ways [update_or_create] returns: the only row of the user
    rewritten, or a row appended for a user who had none. *)
Lemma update_or_create_cases (user : CustomUser) (token : string)
    (expires_at : Z) (w w' : World) :
  RefreshTokenModel_objects_update_or_create user token expires_at w
    = Returns tt w' ->
  (exists old,
     rows_of (user_id user) w = [old] /\
     token_taken token (Some (rt_id old)) (refresh_tokens w) = false /\
     w' = with_refresh_tokens
            (map (fun r => if decide (rt_id r = rt_id old)
                           then mkRefreshToken (rt_id old) (rt_user old) token
                                               (rt_created_at old) expires_at
                           else r) (refresh_tokens w))
            (refresh_tokens_seq w) w)
  \/ (rows_of (user_id user) w = [] /\
      token_taken token None (refresh_tokens w) = false /\
      w' = with_refresh_tokens
             (refresh_tokens w
              ++ [mkRefreshToken (refresh_tokens_seq w) (user_id user) token
                                 (clock (advance w)) expires_at])
             (refresh_tokens_seq w + 1) (advance w)).
Proof.
  unfold RefreshTokenModel_objects_update_or_create, rows_of, objects_get.
  destruct (filter _ (refresh_tokens w)) as [|old [|other rest]] eqn:Hf.
  - destruct (token_taken _ _ _) eqn:Htaken; [discriminate|].
    intros [= <-]. right. auto.
  - destruct (token_taken _ _ _) eqn:Htaken; [discriminate|].
    intros [= <-]. left. exists old. auto.
  - discriminate.
Qed.

(** A login answered 200, with the call that wrote the row. *)
Lemma login_complete (request : Request) (w : World) (response : Response)
    (w' : World) :
  CustomTokenObtainPairView_post request w = Returns response w' ->
  status response = HTTP_200_OK ->
  exists user,
    data request !! "email" = Some (user_email user) /\
    user ∈ users w /\
    user_check_password user (data request !! "password") = true /\
    let access_token :=
      jws_sign views_SECRET_KEY
        (token_payload (user_claims user)
           (ACCESS_TOKEN_LIFETIME (config w) * datetime.us_per_second)
           (clock (Nat.iter 1 advance w)) (clock (Nat.iter 2 advance w))) in
    let refresh_token :=
      jws_sign views_SECRET_KEY
        (token_payload (user_claims user)
           (REFRESH_TOKEN_LIFETIME (config w) * datetime.us_per_day)
           (clock (Nat.iter 3 advance w)) (clock (Nat.iter 4 advance w))) in
    response = mkResponse {[ "access" := JStr access_token;
                             "refresh" := JStr refresh_token ]} HTTP_200_OK /\
    RefreshTokenModel_objects_update_or_create user refresh_token
      (clock (Nat.iter 5 advance w)
       + REFRESH_TOKEN_LIFETIME (config w) * datetime.us_per_day)
      (Nat.iter 5 advance w) = Returns tt w'.
Proof.
  intros Hpost Hstatus. rewrite login_eq in Hpost.
  unfold login_outcome in Hpost.
  destruct (data request !! "email") as [e|] eqn:He.
  2:{ injection Hpost as <- <-. discriminate Hstatus. }
  destruct (objects_get _ (users w)) as [user| |] eqn:Hget.
  2:{ injection Hpost as <- <-. discriminate Hstatus. }
  2:{ discriminate Hpost. }
  destruct (user_check_password _ _) eqn:Hpw.
  2:{ injection Hpost as <- <-. discriminate Hstatus. }
  unfold login_issue in Hpost.
  destruct (datetime.timedelta_seconds _) as [access_lifetime|] eqn:Hsec;
    [|discriminate Hpost].
  destruct (datetime.timedelta_days _) as [refresh_lifetime|] eqn:Hdays;
    [|discriminate Hpost].
  apply timedelta_seconds_eq in Hsec. apply timedelta_days_eq in Hdays.
  subst access_lifetime refresh_lifetime.
  cbv zeta in Hpost.
  destruct (decide _); [|discriminate Hpost].
  destruct (decide _); [|discriminate Hpost].
  destruct (decide _); [|discriminate Hpost].
  apply objects_get_found in Hget as (_ & Hin & Hemail).
  exists user. split; [congruence|]. split; [exact Hin|].
  split; [exact Hpw|]. cbv zeta. cbn [Nat.iter nat_rect].
  destruct (RefreshTokenModel_objects_update_or_create _ _ _ _)
    as [[] w6|exn w6]; [|discriminate Hpost].
  injection Hpost as <- <-. split; reflexivity.
Qed.

Lemma refresh_tokens_iter_advance (n : nat) (w : World) :
  refresh_tokens (Nat.iter n advance w) = refresh_tokens w.
Proof.
  induction n as [|n IH]; [reflexivity|].
  cbn [Nat.iter nat_rect]. rewrite advance_refresh_tokens. exact IH.
Qed.

Lemma refresh_tokens_seq_iter_advance (n : nat) (w : World) :
  refresh_tokens_seq (Nat.iter n advance w) = refresh_tokens_seq w.
Proof.
  induction n as [|n IH]; [reflexivity|].
  cbn [Nat.iter nat_rect]. rewrite advance_refresh_tokens_seq. exact IH.
Qed.

Lemma users_iter_advance (n : nat) (w : World) :
  users (Nat.iter n advance w) = users w.
Proof.
  induction n as [|n IH]; [reflexivity|].
  cbn [Nat.iter nat_rect]. rewrite advance_users. exact IH.
Qed.

Lemma config_iter_advance (n : nat) (w : World) :
  config (Nat.iter n advance w) = config w.
Proof.
  induction n as [|n IH]; [reflexivity|].
  cbn [Nat.iter nat_rect]. rewrite advance_config. exact IH.
Qed.

(** X1: a login answered 200 leaves the users table and the configuration
    as they were and the rows of every other user untouched.  A user who
    had no row gets one, stamped with the clock reading that follows the
    five readings of the view, and the table grows by one row; a user who
    had a row keeps that row's primary key and creation instant, and the
    table keeps its size. *)
Theorem login_writes_one_row (request : Request) (w : World)
    (response : Response) (w' : World) :
  pk_consistent w ->
  CustomTokenObtainPairView_post request w = Returns response w' ->
  status response = HTTP_200_OK ->
  exists user,
    user ∈ users w /\
    data request !! "email" = Some (user_email user) /\
    users w' = users w /\ config w' = config w /\
    (forall uid, uid <> user_id user -> rows_of uid w' = rows_of uid w) /\
    ((rows_of (user_id user) w = [] /\ rows_added w w' = 1 /\
      exists row, rows_of (user_id user) w' = [row] /\
                  rt_id row = refresh_tokens_seq w /\
                  rt_created_at row = clock (Nat.iter 6 advance w))
     \/ (exists old row,
           rows_of (user_id user) w = [old] /\
           rows_of (user_id user) w' = [row] /\
           rows_added w w' = 0 /\
           rt_id row = rt_id old /\
           rt_created_at row = rt_created_at old)).
Proof.
  intros Hpk Hpost Hstatus.
  destruct (login_complete request w response w' Hpost Hstatus)
    as (user & He & Hin & _ & _ & Hsave).
  exists user. split; [exact Hin|]. split; [exact He|].
  match type of Hsave with
  | RefreshTokenModel_objects_update_or_create _ ?tok ?e _ = _ =>
      pose proof (update_or_create_spec user tok e (Nat.iter 5 advance w)
                    (pk_consistent_iter 5 w Hpk)) as Hspec
  end.
  rewrite Hsave in Hspec.
  destruct Hspec as (Hu & Hc & _ & _ & Hothers).
  split; [rewrite Hu; apply users_iter_advance|].
  split; [rewrite Hc; apply config_iter_advance|].
  split.
  { intros uid Hne. rewrite (Hothers uid Hne). apply rows_of_iter_advance. }
  apply update_or_create_cases in Hsave
    as [(old & Hold & _ & ->)|(Hnone & _ & ->)].
  - right. rewrite rows_of_iter_advance in Hold.
    destruct (update_in_place (refresh_tokens w) old
                (mkRefreshToken (rt_id old) (rt_user old)
                   (jws_sign views_SECRET_KEY
                      (token_payload (user_claims user)
                         (REFRESH_TOKEN_LIFETIME (config w)
                          * datetime.us_per_day)
                         (clock (Nat.iter 3 advance w))
                         (clock (Nat.iter 4 advance w))))
                   (rt_created_at old)
                   (clock (Nat.iter 5 advance w)
                    + REFRESH_TOKEN_LIFETIME (config w) * datetime.us_per_day))
                (user_id user) (proj1 Hpk) Hold) as (Hrow & _ & _).
    { cbn. assert (Hmem : old ∈ rows_of (user_id user) w)
        by (rewrite Hold; left).
      apply list_elem_of_filter in Hmem as [Hmem _]. exact Hmem. }
    { reflexivity. }
    eexists old, _. split; [exact Hold|].
    split.
    { unfold rows_of. cbn [refresh_tokens with_refresh_tokens].
      rewrite refresh_tokens_iter_advance. exact Hrow. }
    split.
    { unfold rows_added. cbn [refresh_tokens with_refresh_tokens].
      rewrite refresh_tokens_iter_advance, length_map. lia. }
    split; reflexivity.
  - left. rewrite rows_of_iter_advance in Hnone.
    split; [exact Hnone|]. split.
    { unfold rows_added. cbn [refresh_tokens with_refresh_tokens].
      rewrite refresh_tokens_iter_advance, length_app. cbn. lia. }
    eexists. split.
    { unfold rows_of in *. cbn [refresh_tokens with_refresh_tokens].
      rewrite refresh_tokens_iter_advance, list.filter_app, Hnone.
      rewrite filter_cons_True by reflexivity. reflexivity. }
    split; [|reflexivity].
    cbn [rt_id]. apply refresh_tokens_seq_iter_advance.
Qed.

(** A login answered 200 leaves a world that differs from the one it
    started in by the rows of the refresh-token table and by the clock
    readings it consumed. *)
Lemma login_world (request : Request) (w : World) (response : Response)
    (w' : World) :
  CustomTokenObtainPairView_post request w = Returns response w' ->
  status response = HTTP_200_OK ->
  exists rows seq n, w' = with_refresh_tokens rows seq (Nat.iter n advance w).
Proof.
  intros Hpost Hstatus.
  destruct (login_complete request w response w' Hpost Hstatus)
    as (user & _ & _ & _ & _ & Hsave).
  apply update_or_create_cases in Hsave as [(old & _ & _ & ->)|(_ & _ & ->)].
  - eexists _, _, 5%nat. reflexivity.
  - eexists _, _, 6%nat. reflexivity.
Qed.

(** X2: after a login answered 200 the refresh token of the answer is on
    file, and a logout with it is answered 200; afterwards no row holds the
    token, the user has no row, and the rows of the other users are as
    they were. *)
Theorem login_then_logout (request : Request) (w : World)
    (response : Response) (w' : World) :
  pk_consistent w ->
  NoDup (rt_token <$> refresh_tokens w) ->
  CustomTokenObtainPairView_post request w = Returns response w' ->
  status response = HTTP_200_OK ->
  exists user refresh_token row,
    data request !! "email" = Some (user_email user) /\
    body response !! "refresh" = Some (JStr refresh_token) /\
    row ∈ refresh_tokens w' /\ rt_token row = refresh_token /\
    rt_user row = user_id user /\
    forall logout_request,
      data logout_request !! "refresh" = Some refresh_token ->
      exists w'',
        LogoutView_post logout_request w'
          = Returns (mkResponse {[ "success" := JStr "User logged out." ]}
                                HTTP_200_OK) w'' /\
        (forall r, r ∈ refresh_tokens w'' -> rt_token r <> refresh_token) /\
        rows_of (user_id user) w'' = [] /\
        (forall uid, uid <> user_id user -> rows_of uid w'' = rows_of uid w').
Proof.
  intros Hpk Htok Hpost Hstatus.
  destruct (login_complete request w response w' Hpost Hstatus)
    as (user & He & _ & _ & Hresponse & Hsave).
  cbv zeta in Hresponse.
  assert (Hpk5 : pk_consistent (Nat.iter 5 advance w))
    by (apply pk_consistent_iter, Hpk).
  assert (Htok5 : NoDup (rt_token <$> refresh_tokens (Nat.iter 5 advance w)))
    by (rewrite refresh_tokens_iter_advance; exact Htok).
  match type of Hsave with
  | RefreshTokenModel_objects_update_or_create _ ?tok ?e _ = _ =>
      pose proof (update_or_create_spec user tok e _ Hpk5) as Hspec;
      pose proof (update_or_create_tokens user tok e _ Hpk5 Htok5) as Htok';
      set (refresh_token := tok) in *
  end.
  rewrite Hsave in Hspec, Htok'. cbn [world_of] in Htok'.
  destruct Hspec as (_ & _ & Hpk' & (row & Hrow & Hrt & _) & _).
  assert (Hin : row ∈ refresh_tokens w' /\ rt_user row = user_id user).
  { assert (Hmem : row ∈ rows_of (user_id user) w') by (rewrite Hrow; left).
    apply list_elem_of_filter in Hmem as [Hu Hmem]. split; assumption. }
  destruct Hin as [Hin Huser].
  exists user, refresh_token, row.
  split; [exact He|]. split; [rewrite Hresponse; reflexivity|].
  split; [exact Hin|]. split; [exact Hrt|]. split; [exact Huser|].
  intros logout_request Hreq.
  eexists. split; [|split; [|split]].
  - unfold LogoutView_post. rewrite Hreq.
    rewrite truthy_nonempty by apply jws_sign_nonempty.
    cbv [try_except bind RefreshTokenModel_objects_get_token].
    rewrite <- Hrt.
    rewrite (objects_get_unique rt_token (refresh_tokens w') row Htok' Hin).
    reflexivity.
  - cbn. intros r Hr Heq.
    apply list_elem_of_filter in Hr as [Hid Hr]. apply Hid. f_equal.
    apply (unique_key_inj rt_token (refresh_tokens w')); congruence.
  - unfold rows_of. cbn. apply filter_none. intros r Hr Hu.
    apply list_elem_of_filter in Hr as [Hid Hr]. apply Hid. f_equal.
    assert (Hmem : r ∈ rows_of (user_id user) w').
    { apply list_elem_of_filter. split; assumption. }
    rewrite Hrow in Hmem. apply list_elem_of_singleton in Hmem. exact Hmem.
  - intros uid Hne. unfold rows_of. cbn.
    rewrite list_filter_filter. apply filter_agree. intros r Hr. split.
    + intros [Hu _]. exact Hu.
    + intros Hu. split; [exact Hu|]. intros Hid.
      assert (r = row).
      { apply (unique_key_inj rt_id (refresh_tokens w'));
          [apply Hpk' | exact Hr | exact Hin | exact Hid]. }
      subst r. congruence.
Qed.

(** X3: when the clock does not move during a login answered 200, the
    refresh token of the answer carries the claims of the user, was issued
    at the current second and expires 86400 seconds per configured day
    later, and the expiry instant stored in the user's row falls in the
    very second the token expires. *)
Theorem stored_expiry_matches_token (request : Request) (w : World)
    (response : Response) (w' : World) :
  ticks w = [] ->
  pk_consistent w ->
  CustomTokenObtainPairView_post request w = Returns response w' ->
  status response = HTTP_200_OK ->
  exists user refresh_token payload row,
    data request !! "email" = Some (user_email user) /\
    body response !! "refresh" = Some (JStr refresh_token) /\
    jws_verify views_SECRET_KEY refresh_token = Some payload /\
    payload !! "user_id" = Some (JInt (user_id user)) /\
    payload !! "email" = Some (JStr (user_email user)) /\
    payload !! "iat" = Some (JInt (datetime.timegm (clock w))) /\
    payload !! "exp"
      = Some (JInt (datetime.timegm (clock w)
                    + 86400 * REFRESH_TOKEN_LIFETIME (config w))) /\
    rows_of (user_id user) w' = [row] /\
    rt_token row = refresh_token /\
    rt_expires_at row
      = clock w + REFRESH_TOKEN_LIFETIME (config w) * datetime.us_per_day /\
    datetime.timegm (rt_expires_at row)
      = datetime.timegm (clock w) + 86400 * REFRESH_TOKEN_LIFETIME (config w).
Proof.
  intros Hticks Hpk Hpost Hstatus.
  destruct (login_complete request w response w' Hpost Hstatus)
    as (user & He & _ & _ & Hresponse & Hsave).
  cbv zeta in Hresponse.
  rewrite (iter_advance_no_ticks 1 w Hticks), (iter_advance_no_ticks 2 w Hticks),
    (iter_advance_no_ticks 3 w Hticks), (iter_advance_no_ticks 4 w Hticks)
    in Hresponse.
  rewrite (iter_advance_no_ticks 3 w Hticks), (iter_advance_no_ticks 4 w Hticks),
    !(iter_advance_no_ticks 5 w Hticks) in Hsave.
  match type of Hsave with
  | RefreshTokenModel_objects_update_or_create _ ?tok ?e _ = _ =>
      pose proof (update_or_create_spec user tok e w Hpk) as Hspec
  end.
  rewrite Hsave in Hspec.
  destruct Hspec as (_ & _ & _ & (row & Hrow & Hrt & Hexp & _) & _).
  eexists user, _, _, row.
  split; [exact He|]. split; [rewrite Hresponse; reflexivity|].
  split; [apply jws_verify_sign|].
  split; [reflexivity|]. split; [reflexivity|]. split; [reflexivity|].
  split.
  { unfold token_payload. rewrite lookup_insert_ne by discriminate.
    rewrite lookup_insert_eq, timegm_add_days. reflexivity. }
  split; [exact Hrow|]. split; [exact Hrt|]. split; [exact Hexp|].
  rewrite Hexp. apply timegm_add_days.
Qed.

(** ** Token construction *)

(** X12: [create_token] on claims that use no registered name but [exp]
    and [iat].  The token it returns carries a signature that verifies and
    every claim of [data] but [exp] and [iat], which it sets itself
    whatever [data] holds under those keys: [exp] is the second of the
    first clock reading plus the lifetime, [iat] the second of the next
    reading.  It fails exactly when the first reading plus the lifetime is
    no [datetime], with [OverflowError], raised after that reading.  (On
    the other registered names the [jwt] package has checks of its own,
    which the model of [jwt.encode] above does not have; hence the
    restriction.) *)
Theorem create_token_claims (d : gmap string Json) (expiration : Z)
    (w : World) :
  (forall k, k ∈ registered_claims -> k <> "exp" -> k <> "iat" ->
             d !! k = None) ->
  (forall token w',
     create_token d expiration w = Returns token w' ->
     w' = advance (advance w) /\
     datetime.datetime_ok (clock (advance w) + expiration) /\
     exists payload,
       jws_verify views_SECRET_KEY token = Some payload /\
       payload !! "exp"
         = Some (JInt (datetime.timegm (clock (advance w) + expiration))) /\
       payload !! "iat" = Some (JInt (datetime.timegm (clock w'))) /\
       forall k, k <> "exp" -> k <> "iat" -> payload !! k = d !! k)
  /\ (forall e w',
        create_token d expiration w = Raises e w' ->
        e = OverflowError /\ w' = advance w /\
        ~ datetime.datetime_ok (clock (advance w) + expiration)).
Proof.
  intros _. rewrite create_token_eq.
  destruct (decide (datetime.datetime_ok (clock (advance w) + expiration)))
    as [Hok|Hno]; split; try discriminate.
  - intros token w' [= <- <-]. split; [reflexivity|]. split; [exact Hok|].
    eexists. split; [apply jws_verify_sign|]. unfold token_payload.
    split; [rewrite lookup_insert_ne by discriminate; apply lookup_insert_eq|].
    split; [apply lookup_insert_eq|].
    intros k Hexp Hiat. rewrite !lookup_insert_ne by congruence. reflexivity.
  - intros e w' [= <- <-]. auto.
Qed.

(** ** Refresh, further *)

(** X4: [TokenRefreshView.post] writes nothing.  Whatever the request and
    however it ends, the world it leaves is the one it started in after at
    most three readings of the clock: users, refresh-token rows, sequences
    and configuration are as they were. *)
Theorem refresh_writes_nothing (request : Request) (w : World) :
  exists n,
    (n <= 3)%nat /\
    world_of (TokenRefreshView_post request w) = Nat.iter n advance w /\
    users (world_of (TokenRefreshView_post request w)) = users w /\
    refresh_tokens (world_of (TokenRefreshView_post request w))
      = refresh_tokens w /\
    config (world_of (TokenRefreshView_post request w)) = config w.
Proof.
  assert (Hn : exists n, (n <= 3)%nat /\
            world_of (TokenRefreshView_post request w) = Nat.iter n advance w).
  { rewrite refresh_eq. unfold refresh_outcome.
    destruct (truthy (data request !! "refresh")) as [token|];
      [|exists 0%nat; split; [lia | reflexivity]].
    destruct (jws_verify views_SECRET_KEY token) as [payload|];
      [|exists 0%nat; split; [lia | reflexivity]].
    assert (Hdecoded : exists n, (n <= 3)%nat /\
              world_of (refresh_decoded payload (advance w))
              = Nat.iter n advance w).
    { unfold refresh_decoded.
      destruct (decide (payload = ∅));
        [exists 1%nat; split; [lia | reflexivity]|].
      destruct (payload !! "user_id") as [v|];
        [|exists 1%nat; split; [lia | reflexivity]].
      destruct (User_objects_get_id_outcome v (advance w))
        as [[u Hu]|[e [He [->|[->| ->]]]]];
        rewrite ?Hu, ?He; cbn [world_of];
        try (exists 1%nat; split; [lia | reflexivity]).
      destruct (decide _); cbn [world_of];
        [exists 3%nat | exists 2%nat]; split; (lia || reflexivity). }
    destruct (payload !! "exp") as [[exp|s0]|];
      [|exists 1%nat; split; [lia | reflexivity] | exact Hdecoded].
    destruct (decide _); [|exact Hdecoded].
    exists 1%nat. split; [lia | reflexivity]. }
  destruct Hn as (n & Hle & Hw). exists n. rewrite Hw.
  split; [exact Hle|]. split; [reflexivity|].
  split; [apply users_iter_advance|].
  split; [apply refresh_tokens_iter_advance | apply config_iter_advance].
Qed.

(** X5: the access token of a refresh answered 200 takes its claims from
    the users table, not from the token presented: it carries the id and
    the current e-mail of the user whose id the presented token names, and
    no claim of the presented token beyond that. *)
Theorem refresh_claims_from_database (request : Request) (w : World)
    (response : Response) (w' : World) :
  TokenRefreshView_post request w = Returns response w' ->
  status response = HTTP_200_OK ->
  exists token decoded user access payload,
    data request !! "refresh" = Some token /\
    jws_verify views_SECRET_KEY token = Some decoded /\
    user ∈ users w /\
    (decoded !! "user_id" = Some (JInt (user_id user))
     \/ exists s0, decoded !! "user_id" = Some (JStr s0)
                   /\ py_int s0 = Some (user_id user)) /\
    body response = {[ "access" := JStr access ]} /\
    jws_verify views_SECRET_KEY access = Some payload /\
    payload !! "user_id" = Some (JInt (user_id user)) /\
    payload !! "email" = Some (JStr (user_email user)) /\
    (forall k, k <> "user_id" -> k <> "email" -> k <> "exp" -> k <> "iat" ->
               payload !! k = None).
Proof.
  intros Hpost Hstatus. rewrite refresh_eq in Hpost.
  unfold refresh_outcome, truthy in Hpost.
  destruct (data request !! "refresh") as [token|] eqn:Hreq; cbn in Hpost.
  2:{ injection Hpost as <- <-. discriminate Hstatus. }
  destruct (bool_decide (token = "")).
  { injection Hpost as <- <-. discriminate Hstatus. }
  destruct (jws_verify views_SECRET_KEY token) as [decoded|] eqn:Hverify.
  2:{ injection Hpost as <- <-. discriminate Hstatus. }
  assert (Hdecoded :
    refresh_decoded decoded (advance w) = Returns response w' ->
    exists user access payload,
      user ∈ users w /\
      (decoded !! "user_id" = Some (JInt (user_id user))
       \/ exists s0, decoded !! "user_id" = Some (JStr s0)
                     /\ py_int s0 = Some (user_id user)) /\
      body response = {[ "access" := JStr access ]} /\
      jws_verify views_SECRET_KEY access = Some payload /\
      payload !! "user_id" = Some (JInt (user_id user)) /\
      payload !! "email" = Some (JStr (user_email user)) /\
      (forall k, k <> "user_id" -> k <> "email" -> k <> "exp" -> k <> "iat" ->
                 payload !! k = None)).
  { unfold refresh_decoded. intros Hr.
    destruct (decide (decoded = ∅)).
    { injection Hr as <- <-. discriminate Hstatus. }
    destruct (decoded !! "user_id") as [v|] eqn:Hv; [|discriminate Hr].
    destruct (User_objects_get_id v (advance w)) as [user w1|e w1] eqn:Hget.
    2:{ destruct (User_objects_get_id_outcome v (advance w))
          as [[u Hu]|[e' [He [->|[->| ->]]]]]; rewrite ?Hu, ?He in Hget;
          try discriminate Hget; injection Hget as <- <-;
          try discriminate Hr.
        injection Hr as <- <-. discriminate Hstatus. }
    destruct (decide _); [|discriminate Hr].
    injection Hr as <- <-.
    assert (Huser : user ∈ users w /\
              (v = JInt (user_id user)
               \/ exists s0, v = JStr s0 /\ py_int s0 = Some (user_id user))).
    { destruct v as [uid|s0]; cbn [User_objects_get_id] in Hget.
      - unfold User_objects_get in Hget.
        destruct (objects_get _ (users (advance w))) as [u| |] eqn:Hg;
          try discriminate Hget.
        injection Hget as -> _.
        apply objects_get_found in Hg as (_ & Hin & Hid).
        rewrite advance_users in Hin.
        split; [exact Hin|]. left. congruence.
      - destruct (py_int s0) as [uid|] eqn:Hint; [|discriminate Hget].
        unfold User_objects_get in Hget.
        destruct (objects_get _ (users (advance w))) as [u| |] eqn:Hg;
          try discriminate Hget.
        injection Hget as -> _.
        apply objects_get_found in Hg as (_ & Hin & Hid).
        rewrite advance_users in Hin.
        split; [exact Hin|]. right. exists s0. split; [reflexivity|].
        congruence. }
    destruct Huser as [Hin Hclaim].
    eexists user, _, _. split; [exact Hin|].
    split.
    { destruct Hclaim as [->|(s0 & -> & Hint)]; [left; reflexivity|].
      right. exists s0. split; [reflexivity | exact Hint]. }
    split; [reflexivity|].
    unfold refreshed_access. split; [apply jws_verify_sign|].
    unfold token_payload, user_claims.
    split; [rewrite !lookup_insert_ne by discriminate;
            apply lookup_insert_eq|].
    split; [rewrite !lookup_insert_ne by discriminate;
            apply lookup_singleton_eq|].
    intros k H1 H2 H3 H4. rewrite !lookup_insert_ne by congruence.
    apply lookup_singleton_ne. congruence. }
  destruct (decoded !! "exp") as [[exp|s0]|].
  - destruct (decide _).
    { injection Hpost as <- <-. discriminate Hstatus. }
    destruct (Hdecoded Hpost) as (user & access & payload & H).
    exists token, decoded, user, access, payload. auto.
  - injection Hpost as <- <-. discriminate Hstatus.
  - destruct (Hdecoded Hpost) as (user & access & payload & H).
    exists token, decoded, user, access, payload. auto.
Qed.

(** X7: a token that verifies and has not expired but names no user.  When
    it carries no claim at all, [TokenRefreshView.post] answers 401
    "Invalid or expired refresh token"; when it carries claims but no
    [user_id], the view raises [KeyError], which none of its handlers
    catches. *)
Theorem refresh_without_user_id (request : Request) (token : string)
    (payload : gmap string Json) (w : World) :
  data request !! "refresh" = Some token ->
  jws_verify views_SECRET_KEY token = Some payload ->
  payload !! "user_id" = None ->
  (forall s0, payload !! "exp" <> Some (JStr s0)) ->
  (forall exp, payload !! "exp" = Some (JInt exp) ->
               datetime.timegm (clock (advance w)) < exp) ->
  (payload = ∅ ->
   TokenRefreshView_post request w
     = Returns (detail "Invalid or expired refresh token"
                       HTTP_401_UNAUTHORIZED) (advance w))
  /\ (payload <> ∅ ->
      TokenRefreshView_post request w
        = Raises (KeyError "user_id") (advance w)).
Proof.
  intros Hreq Hverify Huid Hstr Hfresh.
  assert (Hne : token <> "").
  { intros ->. rewrite jws_verify_empty in Hverify. discriminate Hverify. }
  assert (Hpost : TokenRefreshView_post request w
                  = refresh_decoded payload (advance w)).
  { rewrite refresh_eq. unfold refresh_outcome.
    rewrite Hreq, (truthy_nonempty _ Hne), Hverify.
    destruct (payload !! "exp") as [[exp|s0]|] eqn:Hexp.
    - destruct (decide _) as [Hle|_]; [|reflexivity].
      specialize (Hfresh exp eq_refl). lia.
    - exfalso. exact (Hstr s0 eq_refl).
    - reflexivity. }
  rewrite Hpost. unfold refresh_decoded. split.
  - intros ->. reflexivity.
  - intros Hsome. destruct (decide (payload = ∅)); [contradiction|].
    rewrite Huid. reflexivity.
Qed.

(** ** Tokens of a login, presented back *)

Lemma User_objects_get_id_member (user : CustomUser) (w : World) :
  NoDup (user_id <$> users w) -> user ∈ users w ->
  User_objects_get_id (JInt (user_id user)) w = Returns user w.
Proof.
  intros Hnd Hin. cbn [User_objects_get_id]. unfold User_objects_get.
  rewrite (objects_get_unique user_id (users w) user Hnd Hin). reflexivity.
Qed.

Lemma issued_payload_exp (user : CustomUser) (expiration t_exp t_iat : Z) :
  token_payload (user_claims user) expiration t_exp t_iat !! "exp"
  = Some (JInt (datetime.timegm (t_exp + expiration))).
Proof.
  unfold token_payload. rewrite lookup_insert_ne by discriminate.
  apply lookup_insert_eq.
Qed.

Lemma issued_payload_user_id (user : CustomUser) (expiration t_exp t_iat : Z) :
  token_payload (user_claims user) expiration t_exp t_iat !! "user_id"
  = Some (JInt (user_id user)).
Proof.
  unfold token_payload, user_claims.
  rewrite !lookup_insert_ne by discriminate. apply lookup_insert_eq.
Qed.

Lemma issued_payload_nonempty (user : CustomUser)
    (expiration t_exp t_iat : Z) :
  token_payload (user_claims user) expiration t_exp t_iat <> ∅.
Proof.
  intros Hempty.
  pose proof (issued_payload_exp user expiration t_exp t_iat) as Hexp.
  rewrite Hempty, lookup_empty in Hexp. discriminate Hexp.
Qed.

(** [TokenRefreshView.post] on a token this service signed for [user]. *)
Lemma refresh_issued_token (user : CustomUser) (expiration t_exp t_iat : Z)
    (request : Request) (w : World) :
  NoDup (user_id <$> users w) -> user ∈ users w ->
  data request !! "refresh"
    = Some (jws_sign views_SECRET_KEY
              (token_payload (user_claims user) expiration t_exp t_iat)) ->
  TokenRefreshView_post request w =
  if decide (datetime.timegm (t_exp + expiration)
             <= datetime.timegm (clock (advance w)))
  then Returns (detail "Invalid or expired refresh token"
                       HTTP_401_UNAUTHORIZED) (advance w)
  else if decide (datetime.datetime_ok
                    (clock (advance (advance w)) + ACCESS_TOKEN_EXPIRATION))
  then Returns
         (mkResponse
            {[ "access" :=
                 JStr (refreshed_access user (advance (advance w))
                         (advance (advance (advance w)))) ]}
            HTTP_200_OK)
         (advance (advance (advance w)))
  else Raises OverflowError (advance (advance w)).
Proof.
  intros Hnd Hin Hreq. rewrite refresh_eq. unfold refresh_outcome.
  rewrite Hreq, (truthy_nonempty _ (jws_sign_nonempty _ _)), jws_verify_sign,
    issued_payload_exp.
  destruct (decide _); [reflexivity|].
  unfold refresh_decoded.
  destruct (decide (_ = ∅)) as [Hempty|_];
    [exfalso; exact (issued_payload_nonempty _ _ _ _ Hempty)|].
  rewrite issued_payload_user_id, User_objects_get_id_member;
    rewrite ?advance_users; try assumption.
  reflexivity.
Qed.

(** [authenticate] on a bearer token signed for [user] under the key of
    the settings. *)
Lemma authenticate_issued_token (user : CustomUser)
    (expiration t_exp t_iat : Z) (w : World) :
  NoDup (user_id <$> users w) -> user ∈ users w ->
  authenticate_token
    (jws_sign settings_SECRET_KEY
       (token_payload (user_claims user) expiration t_exp t_iat)) w =
  if decide (datetime.timegm (t_exp + expiration)
             <= datetime.timegm (clock (advance w)))
  then Raises (AuthenticationFailed "Access token has expired") (advance w)
  else Returns
         (Some (user,
                jws_sign settings_SECRET_KEY
                  (token_payload (user_claims user) expiration t_exp t_iat)))
         (advance w).
Proof.
  intros Hnd Hin. unfold authenticate_token.
  rewrite jws_verify_sign, issued_payload_exp, issued_payload_user_id.
  destruct (decide _); [reflexivity|].
  rewrite User_objects_get_id_member; rewrite ?advance_users; try assumption.
  reflexivity.
Qed.

Lemma split_space_no_space (s : string) :
  no_space s = true -> split_space s = [s].
Proof using Type.
  induction s as [|c rest IH]; [reflexivity|].
  cbn [no_space split_space]. intros Hs.
  apply andb_prop in Hs as [Hc Hrest].
  apply negb_true_iff in Hc. rewrite Hc, (IH Hrest). reflexivity.
Qed.

Lemma split_space_word (word rest : string) :
  no_space word = true ->
  split_space (word +:+ " " +:+ rest) = word :: split_space rest.
Proof using Type.
  induction word as [|c word IH]; [reflexivity|].
  cbn [no_space]. intros Hs. apply andb_prop in Hs as [Hc Hword].
  apply negb_true_iff in Hc.
  change (String c word +:+ " " +:+ rest)
    with (String c (word +:+ " " +:+ rest)).
  cbn [split_space]. rewrite Hc, (IH Hword). reflexivity.
Qed.

Lemma bearer_prefix (rest : string) :
  String.prefix "Bearer " ("Bearer " +:+ rest) = true.
Proof using Type.
  change ("Bearer " +:+ rest) with (String.append "Bearer " rest).
  cbn [String.append String.prefix].
  repeat (destruct (ascii_dec _ _) as [_|Hne]; [|exfalso; apply Hne; reflexivity]).
  destruct rest; reflexivity.
Qed.

(** The world a login answered 200 leaves when the clock stands still. *)
Lemma login_world_still (request : Request) (w : World) (response : Response)
    (w' : World) :
  ticks w = [] ->
  CustomTokenObtainPairView_post request w = Returns response w' ->
  status response = HTTP_200_OK ->
  advance w' = w' /\ users w' = users w /\ clock w' = clock w /\
  config w' = config w.
Proof.
  intros Hticks Hpost Hstatus.
  destruct (login_world request w response w' Hpost Hstatus)
    as (rows & seq & n & ->).
  rewrite (iter_advance_no_ticks n w Hticks).
  split; [|repeat split].
  apply advance_no_ticks. exact Hticks.
Qed.

(** X6: [TokenRefreshView.post] does not tell an access token from a
    refresh token.  With the clock standing still, a configured access
    lifetime of at least one second and unique user ids, the access token
    of a login answered 200 is itself accepted as a refresh token: the
    answer is 200 with a new access token for the same user. *)
Theorem refresh_accepts_access_token (request : Request) (w : World)
    (response : Response) (w' : World) :
  ticks w = [] ->
  NoDup (user_id <$> users w) ->
  1 <= ACCESS_TOKEN_LIFETIME (config w) ->
  datetime.datetime_ok (clock w + ACCESS_TOKEN_EXPIRATION) ->
  CustomTokenObtainPairView_post request w = Returns response w' ->
  status response = HTTP_200_OK ->
  exists user access,
    body response !! "access" = Some (JStr access) /\
    user ∈ users w /\
    data request !! "email" = Some (user_email user) /\
    forall refresh_request,
      data refresh_request !! "refresh" = Some access ->
      TokenRefreshView_post refresh_request w'
      = Returns (mkResponse {[ "access" := JStr (refreshed_access user w' w') ]}
                            HTTP_200_OK) w'.
Proof.
  intros Hticks Hnd Hlife Hok Hpost Hstatus.
  destruct (login_world_still request w response w' Hticks Hpost Hstatus)
    as (Hadv & Husers & Hclock & _).
  destruct (login_complete request w response w' Hpost Hstatus)
    as (user & Hemail & Hin & _ & Hresponse & _).
  cbv zeta in Hresponse. eexists user, _.
  split; [rewrite Hresponse; cbn [body]; apply lookup_insert_eq|].
  split; [exact Hin|]. split; [exact Hemail|].
  intros refresh_request Hreq.
  erewrite (refresh_issued_token user _ _ _ refresh_request w');
    [|rewrite Husers; exact Hnd | rewrite Husers; exact Hin | exact Hreq].
  rewrite !Hadv, Hclock, !(iter_advance_no_ticks _ w Hticks),
    timegm_add_seconds.
  destruct (decide _) as [Hle|_]; [lia|].
  destruct (decide _) as [_|Hno]; [reflexivity | contradiction].
Qed.


(** X11: a configured lifetime that is no [timedelta] (beyond 999999999
    days either way) makes every login with good credentials raise
    [OverflowError] before the clock is read: no token is made, and the
    world is left as it was. *)
Theorem login_lifetime_overflow (request : Request) (user : CustomUser)
    (w : World) :
  NoDup (user_email <$> users w) ->
  user ∈ users w ->
  data request !! "email" = Some (user_email user) ->
  user_check_password user (data request !! "password") = true ->
  ~ datetime.timedelta_ok
      (ACCESS_TOKEN_LIFETIME (config w) * datetime.us_per_second)
  \/ ~ datetime.timedelta_ok
         (REFRESH_TOKEN_LIFETIME (config w) * datetime.us_per_day) ->
  CustomTokenObtainPairView_post request w = Raises OverflowError w.
Proof.
  intros Hnd Hin Hemail Hpw Hrange.
  rewrite login_eq. unfold login_outcome.
  rewrite Hemail, (objects_get_unique user_email (users w) user Hnd Hin), Hpw.
  unfold login_issue, datetime.timedelta_seconds, datetime.timedelta_days,
    datetime.timedelta_of_us.
  destruct (decide _) as [Hok1|_]; [|reflexivity].
  destruct (decide _) as [Hok2|_]; [|reflexivity].
  destruct Hrange as [Hno|Hno]; contradiction.
Qed.

(** ** Logout, further *)

(** X18: [LogoutView.post] only ever removes rows of the refresh-token
    table.  The rows it leaves are a sublist of those it found, and users,
    sequences, configuration and clock are untouched; an answer of 200
    means that at least one row is gone, any other answer that the world
    is as it was; and the one exception the view lets through,
    [MultipleObjectsReturned], leaves the world as it was too. *)
Theorem logout_only_removes (request : Request) (w : World) :
  (exists rows,
     world_of (LogoutView_post request w)
     = with_refresh_tokens rows (refresh_tokens_seq w) w /\
     rows `sublist_of` refresh_tokens w)
  /\ (forall response w',
        LogoutView_post request w = Returns response w' ->
        (status response = HTTP_200_OK /\
         (length (refresh_tokens w') < length (refresh_tokens w))%nat)
        \/ (status response = HTTP_400_BAD_REQUEST /\ w' = w))
  /\ (forall e w',
        LogoutView_post request w = Raises e w' ->
        e = MultipleObjectsReturned /\ w' = w).
Proof.
  unfold LogoutView_post.
  destruct (truthy (data request !! "refresh")) as [token|].
  2:{ split; [|split].
      - exists (refresh_tokens w).
        split; [symmetry; apply with_refresh_tokens_same | reflexivity].
      - intros response w' [= <- <-]. right. split; reflexivity.
      - intros e w' Hraise. discriminate Hraise. }
  cbv [try_except bind RefreshTokenModel_objects_get_token
       RefreshTokenModel_delete ret].
  destruct (objects_get _ (refresh_tokens w)) as [row| |] eqn:Hget;
    cbn [world_of]; (split; [|split]).
  - eexists. split; [reflexivity | apply sublist_filter].
  - intros response w' [= <- <-]. left. split; [reflexivity|].
    apply objects_get_found in Hget as (_ & Hin & _).
    cbn [refresh_tokens with_refresh_tokens].
    apply (length_filter_lt _ _ row Hin). intros Hne. apply Hne. reflexivity.
  - intros e w' Hraise. discriminate Hraise.
  - exists (refresh_tokens w).
    split; [symmetry; apply with_refresh_tokens_same | reflexivity].
  - intros response w' [= <- <-]. right. split; reflexivity.
  - intros e w' Hraise. discriminate Hraise.
  - exists (refresh_tokens w).
    split; [symmetry; apply with_refresh_tokens_same | reflexivity].
  - intros response w' Hret. discriminate Hret.
  - intros e w' [= <- <-]. split; reflexivity.
Qed.

(** ** Authentication, further *)

(** [authenticate] either defers at once or goes on with the second word
    of the header. *)
Lemma authenticate_cases (request : Request) (w : World) :
  JWTAuthentication_authenticate request w = Returns None w
  \/ exists h token,
       headers request !! "Authorization" = Some h /\
       String.prefix "Bearer " h = true /\
       split_space h !! 1%nat = Some token /\
       JWTAuthentication_authenticate request w = authenticate_token token w.
Proof.
  destruct (headers request !! "Authorization") as [h|] eqn:Hh.
  2:{ left. unfold JWTAuthentication_authenticate. rewrite Hh. reflexivity. }
  destruct (String.prefix "Bearer " h) eqn:Hp.
  - right. destruct (bearer_has_token h Hp) as [token Htok].
    exists h, token. split; [reflexivity|]. split; [exact Hp|].
    split; [exact Htok|].
    exact (authenticate_bearer request h token w Hh Hp Htok).
  - left. unfold JWTAuthentication_authenticate. rewrite Hh.
    unfold truthy, py_not. destruct (bool_decide (h = "")); [reflexivity|].
    rewrite Hp. reflexivity.
Qed.

Lemma User_objects_get_id_found (v : Json) (w : World) (user : CustomUser)
    (w' : World) :
  User_objects_get_id v w = Returns user w' ->
  w' = w /\ user ∈ users w /\
  (v = JInt (user_id user)
   \/ exists s0, v = JStr s0 /\ py_int s0 = Some (user_id user)).
Proof.
  intros Hget. destruct v as [uid|s0]; cbn [User_objects_get_id] in Hget.
  - unfold User_objects_get in Hget.
    destruct (objects_get _ (users w)) as [u| |] eqn:Hg;
      try discriminate Hget.
    injection Hget as -> <-.
    apply objects_get_found in Hg as (_ & Hin & Hid).
    split; [reflexivity|]. split; [exact Hin|]. left. congruence.
  - destruct (py_int s0) as [uid|] eqn:Hint; [|discriminate Hget].
    unfold User_objects_get in Hget.
    destruct (objects_get _ (users w)) as [u| |] eqn:Hg;
      try discriminate Hget.
    injection Hget as -> <-.
    apply objects_get_found in Hg as (_ & Hin & Hid).
    split; [reflexivity|]. split; [exact Hin|].
    right. exists s0. split; [reflexivity|]. congruence.
Qed.

Lemma User_objects_get_id_raises (v : Json) (w : World) (e : Exn)
    (w' : World) :
  User_objects_get_id v w = Raises e w' ->
  w' = w /\
  (e = User_DoesNotExist
   \/ (e = MultipleObjectsReturned /\ ~ NoDup (user_id <$> users w))
   \/ (e = ValueError /\ exists s0, v = JStr s0 /\ py_int s0 = None)).
Proof.
  assert (Hget : forall uid,
    User_objects_get (fun u => user_id u = uid) w = Raises e w' ->
    w' = w /\
    (e = User_DoesNotExist
     \/ (e = MultipleObjectsReturned /\ ~ NoDup (user_id <$> users w))
     \/ (e = ValueError /\ exists s0, v = JStr s0 /\ py_int s0 = None))).
  { intros uid. unfold User_objects_get.
    destruct (objects_get _ (users w)) as [u| |] eqn:Hg;
      intros Hr; try discriminate Hr; injection Hr as <- <-;
      (split; [reflexivity|]); [left; reflexivity|].
    right. left. split; [reflexivity|]. intros Hnd.
    exact (objects_get_single user_id (users w) uid Hnd Hg). }
  destruct v as [uid|s0]; cbn [User_objects_get_id]; [apply Hget|].
  destruct (py_int s0) as [uid|] eqn:Hint; [apply Hget|].
  intros [= <- <-]. split; [reflexivity|]. right. right.
  split; [reflexivity|]. exists s0. split; [reflexivity | exact Hint].
Qed.

(** X8: when [authenticate] returns a user, the request carried a header
    starting with "Bearer ", the token returned is the second word of that
    header, it verifies under the key of the settings, its [exp] (when it
    has one) lies after the second the clock showed, and the user is the
    row of the users table its [user_id] names.  The clock has been read
    once, and nothing has been written; nor is anything written when
    [authenticate] ends otherwise. *)
Theorem authenticate_success (request : Request) (w : World) :
  (forall user token w',
     JWTAuthentication_authenticate request w = Returns (Some (user, token)) w' ->
     exists header payload,
       headers request !! "Authorization" = Some header /\
       String.prefix "Bearer " header = true /\
       split_space header !! 1%nat = Some token /\
       jws_verify settings_SECRET_KEY token = Some payload /\
       (forall exp, payload !! "exp" = Some (JInt exp) ->
                    datetime.timegm (clock w') < exp) /\
       user ∈ users w /\
       (payload !! "user_id" = Some (JInt (user_id user))
        \/ exists s0, payload !! "user_id" = Some (JStr s0)
                      /\ py_int s0 = Some (user_id user)) /\
       w' = advance w)
  /\ (world_of (JWTAuthentication_authenticate request w) = w
      \/ world_of (JWTAuthentication_authenticate request w) = advance w).
Proof.
  destruct (authenticate_cases request w)
    as [->|(h & token0 & Hh & Hp & Htok & ->)].
  { split; [discriminate | left; reflexivity]. }
  unfold authenticate_token.
  destruct (jws_verify settings_SECRET_KEY token0) as [payload|] eqn:Hverify.
  2:{ split; [discriminate | left; reflexivity]. }
  assert (Hlookup :
    (forall user token w',
       match payload !! "user_id" with
       | None => Raises (KeyError "user_id") (advance w)
       | Some v =>
           match User_objects_get_id v (advance w) with
           | Returns user0 w0 => Returns (Some (user0, token0)) w0
           | Raises User_DoesNotExist w0 =>
               Raises (AuthenticationFailed "User not found") w0
           | Raises e w0 => Raises e w0
           end
       end = Returns (Some (user, token)) w' ->
       token = token0 /\ user ∈ users w /\
       (payload !! "user_id" = Some (JInt (user_id user))
        \/ exists s0, payload !! "user_id" = Some (JStr s0)
                      /\ py_int s0 = Some (user_id user)) /\
       w' = advance w)
    /\ world_of
         match payload !! "user_id" with
         | None => Raises (KeyError "user_id") (advance w)
         | Some v =>
             match User_objects_get_id v (advance w) with
             | Returns user0 w0 => Returns (Some (user0, token0)) w0
             | Raises User_DoesNotExist w0 =>
                 Raises (AuthenticationFailed "User not found") w0
             | Raises e w0 => Raises e w0
             end
         end = advance w).
  { destruct (payload !! "user_id") as [v|]; [|split; [discriminate|reflexivity]].
    destruct (User_objects_get_id v (advance w)) as [u w0|e w0] eqn:Hget.
    - apply User_objects_get_id_found in Hget as (-> & Hin & Hv).
      rewrite advance_users in Hin.
      split; [|reflexivity]. intros user token w' [= <- <- <-].
      split; [reflexivity|]. split; [exact Hin|]. split; [|reflexivity].
      destruct Hv as [->|(s0 & -> & Hint)]; [left; reflexivity|].
      right. exists s0. split; [reflexivity | exact Hint].
    - apply User_objects_get_id_raises in Hget as (-> & _).
      split; [|destruct e; reflexivity].
      intros user token w' Hr. destruct e; discriminate Hr. }
  destruct Hlookup as [Hreturns Hworld].
  destruct (payload !! "exp") as [[exp|s0]|] eqn:Hexp.
  - destruct (decide _) as [Hle|Hgt].
    { split; [discriminate | right; reflexivity]. }
    split; [|right; exact Hworld].
    intros user token w' Hr.
    destruct (Hreturns user token w' Hr) as (-> & Hin & Hv & ->).
    exists h, payload. repeat (split; [assumption || reflexivity|]).
    split; [|auto]. intros exp0 Hsome. rewrite Hexp in Hsome.
    injection Hsome as <-. lia.
  - split; [discriminate | right; reflexivity].
  - split; [|right; exact Hworld].
    intros user token w' Hr.
    destruct (Hreturns user token w' Hr) as (-> & Hin & Hv & ->).
    exists h, payload. repeat (split; [assumption || reflexivity|]).
    split; [|auto]. intros exp0 Hsome. rewrite Hexp in Hsome.
    discriminate Hsome.
Qed.

(** X19: errors of a bearer token that [authenticate] does not catch, and
    one it cannot make.  For a token that verifies and has not expired,
    [authenticate] raises [KeyError] when the payload has no [user_id] and
    [ValueError] when its [user_id] is a string that is no integer: the
    three handlers catch neither, so these are no [AuthenticationFailed].
    And whatever the request, it never raises [IndexError]: a header that
    starts with "Bearer " always has a second word. *)
Theorem authenticate_uncaught_errors (request : Request) (w : World) :
  (forall e w',
     JWTAuthentication_authenticate request w = Raises e w' ->
     e <> IndexError)
  /\ (forall header token payload,
        headers request !! "Authorization" = Some header ->
        String.prefix "Bearer " header = true ->
        split_space header !! 1%nat = Some token ->
        jws_verify settings_SECRET_KEY token = Some payload ->
        (forall s0, payload !! "exp" <> Some (JStr s0)) ->
        (forall exp, payload !! "exp" = Some (JInt exp) ->
                     datetime.timegm (clock (advance w)) < exp) ->
        (payload !! "user_id" = None ->
         JWTAuthentication_authenticate request w
           = Raises (KeyError "user_id") (advance w))
        /\ (forall s0,
              payload !! "user_id" = Some (JStr s0) -> py_int s0 = None ->
              JWTAuthentication_authenticate request w
                = Raises ValueError (advance w))).
Proof.
  split.
  - intros e w'.
    destruct (authenticate_cases request w)
      as [->|(h & token & Hh & Hp & Htok & ->)]; [discriminate|].
    unfold authenticate_token.
    destruct (jws_verify settings_SECRET_KEY token) as [payload|];
      [|intros [= <- <-]; discriminate].
    assert (Hlookup :
      match payload !! "user_id" with
      | None => Raises (KeyError "user_id") (advance w)
      | Some v =>
          match User_objects_get_id v (advance w) with
          | Returns user0 w0 => Returns (Some (user0, token)) w0
          | Raises User_DoesNotExist w0 =>
              Raises (AuthenticationFailed "User not found") w0
          | Raises e0 w0 => Raises e0 w0
          end
      end = Raises e w' -> e <> IndexError).
    { destruct (payload !! "user_id") as [v|];
        [|intros [= <- <-]; discriminate].
      destruct (User_objects_get_id v (advance w)) as [u w0|e0 w0] eqn:Hget;
        [discriminate|].
      apply User_objects_get_id_raises in Hget
        as (-> & [->|[[-> _]|(-> & _)]]);
        intros [= <- <-]; discriminate. }
    destruct (payload !! "exp") as [[exp|s0]|].
    + destruct (decide _); [intros [= <- <-]; discriminate | exact Hlookup].
    + intros [= <- <-]. discriminate.
    + exact Hlookup.
  - intros header token payload Hheader Hprefix Htoken Hverify Hstr Hfresh.
    rewrite (authenticate_bearer request header token w Hheader Hprefix
               Htoken).
    unfold authenticate_token. rewrite Hverify.
    assert (Hexp :
      forall o : Outcome (option (CustomUser * string)),
        match payload !! "exp" with
        | None => o
        | Some (JInt exp) =>
            if decide (exp <= datetime.timegm (clock (advance w)))
            then Raises (AuthenticationFailed "Access token has expired")
                        (advance w)
            else o
        | Some (JStr _) =>
            Raises (AuthenticationFailed "Invalid token") (advance w)
        end = o).
    { intros o. destruct (payload !! "exp") as [[exp|s0]|] eqn:Hexp.
      - destruct (decide _) as [Hle|_]; [|reflexivity].
        specialize (Hfresh exp eq_refl). lia.
      - exfalso. exact (Hstr s0 eq_refl).
      - reflexivity. }
    rewrite Hexp. split.
    + intros ->. reflexivity.
    + intros s0 -> Hint. cbn [User_objects_get_id]. rewrite Hint.
      reflexivity.
Qed.

(** X9: when the views and the authentication class are given the same
    key and tokens hold no space, the access token of a login answered 200
    authenticates the user who logged in.  With the clock standing still
    and a configured access lifetime of at least one second, a request
    carrying "Bearer " followed by that token makes [authenticate] return
    that user and that token. *)
Theorem login_then_authenticate (request : Request) (w : World)
    (response : Response) (w' : World) :
  views_SECRET_KEY = settings_SECRET_KEY ->
  (forall key payload, no_space (jws_sign key payload) = true) ->
  ticks w = [] ->
  NoDup (user_id <$> users w) ->
  1 <= ACCESS_TOKEN_LIFETIME (config w) ->
  CustomTokenObtainPairView_post request w = Returns response w' ->
  status response = HTTP_200_OK ->
  exists user access,
    body response !! "access" = Some (JStr access) /\
    user ∈ users w /\
    data request !! "email" = Some (user_email user) /\
    forall auth_request,
      headers auth_request !! "Authorization" = Some ("Bearer " +:+ access) ->
      JWTAuthentication_authenticate auth_request w'
      = Returns (Some (user, access)) w'.
Proof.
  intros Hkey Hwords Hticks Hnd Hlife Hpost Hstatus.
  destruct (login_world_still request w response w' Hticks Hpost Hstatus)
    as (Hadv & Husers & Hclock & _).
  destruct (login_complete request w response w' Hpost Hstatus)
    as (user & Hemail & Hin & _ & Hresponse & _).
  cbv zeta in Hresponse. eexists user, _.
  split; [rewrite Hresponse; cbn [body]; apply lookup_insert_eq|].
  split; [exact Hin|]. split; [exact Hemail|].
  intros auth_request Hheader.
  match type of Hheader with
  | _ = Some ("Bearer " +:+ ?t) =>
      rewrite (authenticate_bearer auth_request ("Bearer " +:+ t) t w'
                 Hheader (bearer_prefix t))
  end.
  2:{ match goal with
      | |- split_space ("Bearer " +:+ ?t) !! _ = _ =>
          change (split_space ("Bearer " +:+ t))
            with ("Bearer" :: split_space t)
      end.
      rewrite split_space_no_space by apply Hwords. reflexivity. }
  rewrite Hkey, authenticate_issued_token;
    [|rewrite Husers; exact Hnd | rewrite Husers; exact Hin].
  rewrite Hadv, Hclock, !(iter_advance_no_ticks _ w Hticks),
    timegm_add_seconds.
  destruct (decide _) as [Hle|_]; [lia | reflexivity].
Qed.

(** X17: of the Authorization header, [authenticate] reads the second
    space-separated word and nothing after it.  Whatever follows the token
    and a space is ignored: the outcome is that of the header holding the
    token alone.  And when nothing or a space follows "Bearer ", the token
    is the empty string and the failure is "Invalid token". *)
Theorem authenticate_reads_second_word (w : World) :
  (forall request request' token rest,
     no_space token = true ->
     headers request !! "Authorization" = Some ("Bearer " +:+ token) ->
     headers request' !! "Authorization"
       = Some ("Bearer " +:+ token +:+ " " +:+ rest) ->
     JWTAuthentication_authenticate request' w
     = JWTAuthentication_authenticate request w)
  /\ (forall request rest,
        headers request !! "Authorization" = Some "Bearer "
        \/ headers request !! "Authorization"
           = Some ("Bearer " +:+ " " +:+ rest) ->
        JWTAuthentication_authenticate request w
        = Raises (AuthenticationFailed "Invalid token") w).
Proof.
  assert (Hsecond : forall request token rest,
    no_space token = true ->
    headers request !! "Authorization"
      = Some ("Bearer " +:+ token +:+ " " +:+ rest) ->
    JWTAuthentication_authenticate request w = authenticate_token token w).
  { intros request token rest Hword Hheader.
    apply (authenticate_bearer request _ token w Hheader
             (bearer_prefix (token +:+ " " +:+ rest))).
    change (split_space ("Bearer " +:+ token +:+ " " +:+ rest))
      with ("Bearer" :: split_space (token +:+ " " +:+ rest)).
    rewrite split_space_word by exact Hword. reflexivity. }
  assert (Hfirst : forall request token,
    no_space token = true ->
    headers request !! "Authorization" = Some ("Bearer " +:+ token) ->
    JWTAuthentication_authenticate request w = authenticate_token token w).
  { intros request token Hword Hheader.
    apply (authenticate_bearer request _ token w Hheader
             (bearer_prefix token)).
    change (split_space ("Bearer " +:+ token))
      with ("Bearer" :: split_space token).
    rewrite split_space_no_space by exact Hword. reflexivity. }
  assert (Hempty : authenticate_token "" w
                   = Raises (AuthenticationFailed "Invalid token") w).
  { unfold authenticate_token. rewrite jws_verify_empty. reflexivity. }
  split.
  - intros request request' token rest Hword Hheader Hheader'.
    rewrite (Hsecond request' token rest Hword Hheader').
    rewrite (Hfirst request token Hword Hheader). reflexivity.
  - intros request rest [Hheader|Hheader].
    + rewrite (Hfirst request "" eq_refl Hheader). exact Hempty.
    + rewrite (Hsecond request "" rest eq_refl Hheader). exact Hempty.
Qed.

(** ** Registration *)

Lemma db_constraints_append_user (user : CustomUser) (w : World) :
  db_constraints w ->
  user_id user = users_seq w ->
  (forall u, u ∈ users w -> user_email u <> user_email user) ->
  db_constraints (with_users (users w ++ [user]) (users_seq w + 1) w).
Proof using Type.
  intros (Hid & Hseq & Hemail & Hpk & Htok) Hfresh Hfree.
  split; [|split; [|split; [|split]]]; cbn.
  - rewrite fmap_app. apply list.NoDup_app.
    split; [exact Hid|]. split; [|apply NoDup_singleton].
    intros x Hx Hx'. apply list_elem_of_singleton in Hx'.
    subst x. apply list_elem_of_fmap in Hx as (u & Hu & Hin).
    rewrite list.Forall_forall in Hseq. specialize (Hseq u Hin). lia.
  - apply Forall_app. split.
    + eapply list.Forall_impl; [exact Hseq|]. cbn. intros; lia.
    + apply Forall_singleton. lia.
  - rewrite fmap_app. apply list.NoDup_app.
    split; [exact Hemail|]. split; [|apply NoDup_singleton].
    intros x Hx Hx'. apply list_elem_of_singleton in Hx'.
    subst x. apply list_elem_of_fmap in Hx as (u & Hu & Hin).
    apply (Hfree u Hin). symmetry. exact Hu.
  - exact Hpk.
  - exact Htok.
Qed.

Lemma truthy_some (o : option string) (s : string) :
  truthy o = Some s -> o = Some s /\ s <> "".
Proof using Type.
  unfold truthy, py_not. destruct o as [s0|]; [|discriminate].
  destruct (bool_decide (s0 = "")) eqn:Hs0; [discriminate|].
  intros [= ->]. apply bool_decide_eq_false in Hs0. split; [reflexivity|].
  exact Hs0.
Qed.

Lemma truthy_none (o : option string) :
  truthy o = None -> o = None \/ o = Some "".
Proof using Type.
  unfold truthy, py_not. destruct o as [s0|]; [|left; reflexivity].
  destruct (bool_decide (s0 = "")) eqn:Hs0; [|discriminate].
  apply bool_decide_eq_true in Hs0. subst s0. right. reflexivity.
Qed.

(** The two ways [create_user] fails and the one way it returns. *)
Lemma create_user_cases (email password : option string) (w : World) :
  (create_user email password w = Raises ValueError w
   /\ (email = None \/ email = Some ""))
  \/ (exists addr u,
        create_user email password w = Raises IntegrityError w /\
        email = Some addr /\ u ∈ users w /\
        user_email u = normalize_email addr)
  \/ (exists addr user,
        user = mkUser (users_seq w) (normalize_email addr)
                      (make_password password) None /\
        create_user email password w
          = Returns user (with_users (users w ++ [user]) (users_seq w + 1) w) /\
        email = Some addr /\ addr <> "" /\
        forall u, u ∈ users w -> user_email u <> normalize_email addr).
Proof.
  unfold create_user.
  destruct (truthy email) as [addr|] eqn:Htruthy.
  2:{ left. split; [reflexivity | apply truthy_none, Htruthy]. }
  apply truthy_some in Htruthy as [-> Hne].
  destruct (bool_decide _) eqn:Htaken.
  - right. left. apply bool_decide_eq_true in Htaken.
    apply list.Exists_exists in Htaken as (u & Hin & Hu).
    exists addr, u. auto.
  - right. right. apply bool_decide_eq_false in Htaken.
    eexists addr, _. split; [reflexivity|].
    split; [reflexivity|]. split; [reflexivity|].
    split; [exact Hne|]. intros u Hin Hu. apply Htaken.
    apply list.Exists_exists. exists u. auto.
Qed.

(** X13: [CustomUserManager.create_user].  Without an e-mail (none, or the
    empty string) it raises [ValueError]; when a user already has the
    normalised e-mail it raises [IntegrityError]; in both cases nothing is
    written.  Otherwise it returns a user under the next id of the
    sequence, with the normalised e-mail, the hashed password and no
    username, appended to the users table; no other user has that e-mail,
    the refresh-token table is untouched, and the constraints of the schema
    are kept. *)
Theorem create_user_outcomes (email password : option string) (w : World) :
  (forall e w',
     create_user email password w = Raises e w' ->
     w' = w /\
     ((e = ValueError /\ (email = None \/ email = Some ""))
      \/ (e = IntegrityError /\
          exists addr u, email = Some addr /\ u ∈ users w
                         /\ user_email u = normalize_email addr)))
  /\ (forall user w',
        create_user email password w = Returns user w' ->
        (exists addr,
           email = Some addr /\ addr <> "" /\
           user_email user = normalize_email addr) /\
        user_id user = users_seq w /\
        user_password user = make_password password /\
        user_username user = None /\
        users w' = (users w ++ [user])%list /\
        users_seq w' = users_seq w + 1 /\
        refresh_tokens w' = refresh_tokens w /\
        (forall u, u ∈ users w -> user_email u <> user_email user) /\
        (db_constraints w -> db_constraints w')).
Proof.
  destruct (create_user_cases email password w)
    as [[-> Hempty]|[(addr & u & -> & Hemail & Hin & Hu)
                    |(addr & user0 & -> & -> & Hemail & Hne & Hfree)]].
  - split; [|discriminate]. intros e w' [= <- <-]. auto.
  - split; [|discriminate]. intros e w' [= <- <-]. split; [reflexivity|].
    right. split; [reflexivity|]. exists addr, u. auto.
  - split; [discriminate|]. intros user w' [= <- <-]. cbn.
    split; [exists addr; auto|]. repeat (split; [reflexivity|]).
    split; [exact Hfree|]. intros Hdb.
    apply db_constraints_append_user; [exact Hdb | reflexivity | exact Hfree].
Qed.




(** ** The constraints of the schema, along a run *)

(** X15: the constraints the schema declares (unique primary keys below
    their sequences, unique e-mails, unique tokens) are kept by every
    request, every change of the configuration and every movement of the
    clock, so they hold after any sequence of them; in particular from an
    empty database.  In such a world [LogoutView.post] always answers: the
    one exception it lets through cannot arise. *)
Theorem schema_constraints_reachable (evs : list Event) (w : World) :
  db_constraints w \/ (users w = [] /\ refresh_tokens w = []) ->
  db_constraints (run w evs) /\
  forall request,
    exists response w',
      LogoutView_post request (run w evs) = Returns response w'.
Proof.
  intros Hstart.
  assert (Hdb : db_constraints w).
  { destruct Hstart as [Hdb|[Hu Hr]]; [exact Hdb|].
    unfold db_constraints, pk_consistent. rewrite Hu, Hr.
    repeat split; constructor. }
  clear Hstart.
  assert (Hrun : db_constraints (run w evs)).
  { revert w Hdb. induction evs as [|ev evs IH]; intros w Hdb; [exact Hdb|].
    cbn [run fold_left]. apply IH, db_constraints_step, Hdb. }
  split; [exact Hrun|]. intros request.
  destruct Hrun as (_ & _ & _ & _ & Htok).
  unfold LogoutView_post.
  destruct (truthy (data request !! "refresh")) as [token|];
    [|eexists _, _; reflexivity].
  cbv [try_except bind RefreshTokenModel_objects_get_token
       RefreshTokenModel_delete ret].
  pose proof (objects_get_single rt_token (refresh_tokens (run w evs)) token
                Htok) as Hsingle.
  destruct (objects_get _ (refresh_tokens (run w evs))) as [row| |];
    [eexists _, _; reflexivity | eexists _, _; reflexivity|].
  exfalso. apply Hsingle. reflexivity.
Qed.

(** ** The update serializer *)

Lemma save_ids (instance : CustomUser) (l : list CustomUser) :
  user_id <$> map (fun u => if decide (user_id u = user_id instance)
                            then instance else u) l
  = user_id <$> l.
Proof using Type.
  induction l as [|u l IH]; [reflexivity|].
  cbn [map]. rewrite !fmap_cons, IH.
  destruct (decide (user_id u = user_id instance)) as [Heq|_];
    [rewrite Heq|]; reflexivity.
Qed.

Lemma save_elem (instance x : CustomUser) (l : list CustomUser) :
  x ∈ map (fun u => if decide (user_id u = user_id instance)
                    then instance else u) l ->
  x = instance \/ (x ∈ l /\ user_id x <> user_id instance).
Proof using Type.
  induction l as [|u l IH]; cbn [map]; intros Hx; [inversion Hx|].
  apply elem_of_cons in Hx as [->|Hx].
  - destruct (decide _) as [|Hne]; [left; reflexivity|].
    right. split; [left | exact Hne].
  - destruct (IH Hx) as [->|[Hin Hne]]; [left; reflexivity|].
    right. split; [right; exact Hin | exact Hne].
Qed.

Lemma save_keeps (instance u : CustomUser) (l : list CustomUser) :
  u ∈ l -> user_id u <> user_id instance ->
  u ∈ map (fun u0 => if decide (user_id u0 = user_id instance)
                     then instance else u0) l.
Proof using Type.
  intros Hin Hne. induction l as [|v l IH]; [inversion Hin|].
  cbn [map]. apply elem_of_cons in Hin as [<-|Hin].
  - destruct (decide _); [contradiction | left].
  - right. apply IH, Hin.
Qed.

Lemma save_member (instance old : CustomUser) (l : list CustomUser) :
  old ∈ l -> user_id old = user_id instance ->
  instance ∈ map (fun u => if decide (user_id u = user_id instance)
                           then instance else u) l.
Proof using Type.
  intros Hin Hid. induction l as [|v l IH]; [inversion Hin|].
  cbn [map]. apply elem_of_cons in Hin as [<-|Hin].
  - destruct (decide _); [left | contradiction].
  - right. apply IH, Hin.
Qed.

Lemma save_untouched (instance : CustomUser) (l : list CustomUser) :
  user_id instance ∉ user_id <$> l ->
  map (fun u => if decide (user_id u = user_id instance)
                then instance else u) l = l.
Proof using Type.
  induction l as [|u l IH]; intros Hfresh; [reflexivity|].
  cbn [map]. rewrite fmap_cons in Hfresh.
  apply not_elem_of_cons in Hfresh as [Hne Hfresh].
  destruct (decide (user_id u = user_id instance)); [congruence|].
  f_equal. apply IH. exact Hfresh.
Qed.

Lemma save_emails (instance : CustomUser) (l : list CustomUser) :
  NoDup (user_id <$> l) ->
  NoDup (user_email <$> l) ->
  (forall u, u ∈ l -> user_email u = user_email instance ->
             user_id u = user_id instance) ->
  NoDup (user_email <$>
           map (fun u => if decide (user_id u = user_id instance)
                         then instance else u) l).
Proof using Type.
  induction l as [|u l IH]; intros Hid Hemail Hfree; [constructor|].
  rewrite fmap_cons in Hid. rewrite fmap_cons in Hemail.
  inversion_clear Hid as [|? ? Hid_fresh Hid'].
  inversion_clear Hemail as [|? ? Hemail_fresh Hemail'].
  cbn [map]. rewrite fmap_cons.
  assert (Hfree' : forall u0, u0 ∈ l -> user_email u0 = user_email instance ->
                              user_id u0 = user_id instance).
  { intros u0 Hu0. apply Hfree. right. exact Hu0. }
  destruct (decide (user_id u = user_id instance)) as [Heq|Hne].
  - rewrite save_untouched by (rewrite <- Heq; exact Hid_fresh).
    constructor; [|exact Hemail'].
    intros Hin. apply list_elem_of_fmap in Hin as (u0 & He & Hu0).
    apply Hid_fresh. rewrite Heq, <- (Hfree' u0 Hu0 (eq_sym He)).
    apply list_elem_of_fmap. eauto.
  - constructor; [|apply IH; assumption].
    intros Hin. apply list_elem_of_fmap in Hin as (x & He & Hx).
    apply save_elem in Hx as [->|[Hx _]].
    + apply Hne, Hfree; [left | exact He].
    + apply Hemail_fresh. rewrite He. apply list_elem_of_fmap. eauto.
Qed.

Lemma save_same (instance : CustomUser) (l : list CustomUser) :
  NoDup (user_id <$> l) -> instance ∈ l ->
  map (fun u => if decide (user_id u = user_id instance)
                then instance else u) l = l.
Proof using Type.
  intros Hnd Hin.
  assert (Hfix : forall u, u ∈ l ->
            (if decide (user_id u = user_id instance) then instance else u)
            = u).
  { intros u Hu. destruct (decide _) as [Heq|_]; [|reflexivity].
    exact (unique_key_inj user_id l instance u Hnd Hin Hu (eq_sym Heq)). }
  clear Hnd Hin. induction l as [|u l IH]; [reflexivity|].
  cbn [map]. rewrite (Hfix u) by left. f_equal.
  apply IH. intros u0 Hu0. apply Hfix. right. exact Hu0.
Qed.

Lemma with_users_same (w : World) : with_users (users w) (users_seq w) w = w.
Proof using Type. destruct w; reflexivity. Qed.

(** [instance.save()] for a user who has a row. *)
Lemma CustomUser_save_cases (updated old : CustomUser) (w : World) :
  db_constraints w -> old ∈ users w -> user_id old = user_id updated ->
  (CustomUser_save updated w = Raises IntegrityError w /\
   exists u, u ∈ users w /\ user_email u = user_email updated
             /\ user_id u <> user_id updated)
  \/ (exists w',
        CustomUser_save updated w = Returns tt w' /\
        db_constraints w' /\
        updated ∈ users w' /\
        (forall u, u ∈ users w -> user_id u <> user_id updated ->
                   u ∈ users w') /\
        length (users w') = length (users w) /\
        refresh_tokens w' = refresh_tokens w /\
        users_seq w' = users_seq w /\
        (updated = old -> w' = w)).
Proof using Type.
  intros (Hid & Hseq & Hemail & Hpk & Htok) Hin Hold.
  unfold CustomUser_save.
  destruct (bool_decide (Exists _ (users w))) eqn:Htaken.
  { left. split; [reflexivity|]. apply bool_decide_eq_true in Htaken.
    apply list.Exists_exists in Htaken as (u & Hu & He & Hne).
    exists u. auto. }
  apply bool_decide_eq_false in Htaken.
  rewrite bool_decide_eq_true_2
    by (apply list.Exists_exists; exists old; auto).
  right. eexists. split; [reflexivity|].
  split; [|split; [|split; [|split; [|split; [|split]]]]]; cbn.
  - split; [|split; [|split; [|split]]]; cbn.
    + rewrite save_ids. exact Hid.
    + apply list.Forall_forall. intros x Hx.
      rewrite list.Forall_forall in Hseq.
      apply save_elem in Hx as [->|[Hx _]].
      * rewrite <- Hold. apply Hseq, Hin.
      * apply Hseq, Hx.
    + apply save_emails; [exact Hid | exact Hemail|].
      intros u Hu He. destruct (decide (user_id u = user_id updated))
        as [Heq|Hne]; [exact Heq|].
      exfalso. apply Htaken. apply list.Exists_exists. exists u. auto.
    + exact Hpk.
    + exact Htok.
  - exact (save_member updated old (users w) Hin Hold).
  - intros u Hu Hne. apply save_keeps; assumption.
  - apply length_map.
  - reflexivity.
  - reflexivity.
  - intros ->. rewrite (save_same old (users w) Hid Hin).
    apply with_users_same.
Qed.

(** X16: [UserUpdateSerializer.update] on a user who has a row, in a
    database that meets the constraints of the schema.  When it returns,
    the user it returns has the id and the password of the instance, and
    the username and e-mail of the instance wherever the validated data
    leave them out; that user is in the users table, every other user is
    as before, no row is added or lost, the refresh-token table is
    untouched and the constraints still hold; with no validated data at
    all the world is exactly as it was.  The one failure is
    [IntegrityError], raised with nothing written when the e-mail is null
    or belongs to another user. *)
Theorem update_keeps_identity (instance : CustomUser)
    (validated_data : gmap string (option string)) (w : World) :
  db_constraints w -> instance ∈ users w ->
  (forall updated w',
     UserUpdateSerializer_update instance validated_data w
       = Returns updated w' ->
     user_id updated = user_id instance /\
     user_password updated = user_password instance /\
     (validated_data !! "username" = None ->
      user_username updated = user_username instance) /\
     (validated_data !! "email" = None ->
      user_email updated = user_email instance) /\
     updated ∈ users w' /\
     (forall u, u ∈ users w -> user_id u <> user_id instance -> u ∈ users w') /\
     length (users w') = length (users w) /\
     refresh_tokens w' = refresh_tokens w /\
     db_constraints w' /\
     (validated_data = ∅ -> updated = instance /\ w' = w))
  /\ (forall e w',
        UserUpdateSerializer_update instance validated_data w = Raises e w' ->
        e = IntegrityError /\ w' = w /\
        (validated_data !! "email" = Some None
         \/ exists email u,
              validated_data !! "email" = Some (Some email) /\
              u ∈ users w /\ user_email u = email /\
              user_id u <> user_id instance)).
Proof using Type.
  intros Hdb Hin. unfold UserUpdateSerializer_update.
  destruct (default (Some (user_email instance)) (validated_data !! "email"))
    as [email|] eqn:Hemail.
  2:{ split; [discriminate|]. intros e w' [= <- <-].
      split; [reflexivity|]. split; [reflexivity|]. left.
      destruct (validated_data !! "email") as [[?|]|];
        [discriminate Hemail | reflexivity | discriminate Hemail]. }
  unfold bind.
  set (updated := mkUser (user_id instance) email (user_password instance)
                    (default (user_username instance)
                             (validated_data !! "username"))).
  destruct (CustomUser_save_cases updated instance w Hdb Hin eq_refl)
    as [[-> (u & Hu & He & Hne)]
       |(w1 & -> & Hdb1 & Hin1 & Hkeep & Hlen & Hrows & _ & Hsame)].
  - split; [discriminate|]. intros e w' [= <- <-].
    split; [reflexivity|]. split; [reflexivity|].
    destruct (validated_data !! "email") as [[email0|]|] eqn:Hv;
      cbn [default] in Hemail; [|discriminate Hemail|].
    + injection Hemail as ->. right. exists email, u. auto.
    + injection Hemail as <-. right. exfalso.
      destruct Hdb as (Hid & _ & Hemails & _).
      apply Hne.
      rewrite (unique_key_inj user_email (users w) u instance Hemails Hu Hin He).
      reflexivity.
  - split; [|discriminate]. cbn [ret]. intros updated0 w' [= <- <-].
    split; [reflexivity|]. split; [reflexivity|].
    split; [intros Hnone; cbn; rewrite Hnone; reflexivity|].
    split.
    { intros Hnone. rewrite Hnone in Hemail. cbn in Hemail.
      injection Hemail as <-. reflexivity. }
    split; [exact Hin1|]. split; [exact Hkeep|]. split; [exact Hlen|].
    split; [exact Hrows|]. split; [exact Hdb1|].
    intros Hempty.
    assert (Hupdated : updated = instance).
    { unfold updated. rewrite Hempty, lookup_empty in Hemail |- *.
      cbn in Hemail |- *. injection Hemail as <-.
      destruct instance; reflexivity. }
    split; [exact Hupdated | exact (Hsame Hupdated)].
Qed.

(** ** The two tokens of a login, compared *)

Lemma timegm_window (t d : Z) :
  0 <= d < 4 * datetime.us_per_second ->
  0 <= datetime.timegm (t + d) - datetime.timegm t <= 4.
Proof using Type.
  unfold datetime.timegm, datetime.us_per_second. intros Hd.
  assert (H1 : t / 1000000 <= (t + d) / 1000000)
    by (apply Z.div_le_mono; lia).
  assert (H2 : (t + d) / 1000000 <= (t + 4 * 1000000) / 1000000)
    by (apply Z.div_le_mono; lia).
  rewrite Z.div_add in H2 by lia. lia.
Qed.

(** X21: what the lifetime tests assert.  In a login answered 200, when
    the second reading of the clock for a token comes less than four
    seconds after the first, the [exp] of the token is within five
    seconds of its [iat] plus the configured lifetime (seconds for the
    access token, days for the refresh token); it is never later. *)
Theorem token_lifetimes_within_tolerance (request : Request) (w : World)
    (response : Response) (w' : World) :
  CustomTokenObtainPairView_post request w = Returns response w' ->
  status response = HTTP_200_OK ->
  0 <= clock (Nat.iter 2 advance w) - clock (Nat.iter 1 advance w)
    < 4 * datetime.us_per_second ->
  0 <= clock (Nat.iter 4 advance w) - clock (Nat.iter 3 advance w)
    < 4 * datetime.us_per_second ->
  exists access refresh access_claims refresh_claims exp_a iat_a exp_r iat_r,
    body response !! "access" = Some (JStr access) /\
    body response !! "refresh" = Some (JStr refresh) /\
    jws_verify views_SECRET_KEY access = Some access_claims /\
    jws_verify views_SECRET_KEY refresh = Some refresh_claims /\
    access_claims !! "exp" = Some (JInt exp_a) /\
    access_claims !! "iat" = Some (JInt iat_a) /\
    refresh_claims !! "exp" = Some (JInt exp_r) /\
    refresh_claims !! "iat" = Some (JInt iat_r) /\
    Z.abs (exp_a - (iat_a + ACCESS_TOKEN_LIFETIME (config w))) < 5 /\
    exp_a <= iat_a + ACCESS_TOKEN_LIFETIME (config w) /\
    Z.abs (exp_r - (iat_r + 86400 * REFRESH_TOKEN_LIFETIME (config w))) < 5 /\
    exp_r <= iat_r + 86400 * REFRESH_TOKEN_LIFETIME (config w).
Proof.
  intros Hpost Hstatus Haccess Hrefresh.
  destruct (login_complete request w response w' Hpost Hstatus)
    as (user & _ & _ & _ & Hresponse & _).
  cbv zeta in Hresponse. rewrite Hresponse. cbn [body].
  pose proof (timegm_window (clock (Nat.iter 1 advance w)) _ Haccess) as Ha.
  pose proof (timegm_window (clock (Nat.iter 3 advance w)) _ Hrefresh) as Hr.
  replace (clock (Nat.iter 1 advance w)
           + (clock (Nat.iter 2 advance w) - clock (Nat.iter 1 advance w)))
    with (clock (Nat.iter 2 advance w)) in Ha by ring.
  replace (clock (Nat.iter 3 advance w)
           + (clock (Nat.iter 4 advance w) - clock (Nat.iter 3 advance w)))
    with (clock (Nat.iter 4 advance w)) in Hr by ring.
  eexists _, _, _, _, _, _, _, _.
  split; [apply lookup_insert_eq|].
  split; [rewrite lookup_insert_ne by discriminate;
          apply lookup_singleton_eq|].
  split; [apply jws_verify_sign|]. split; [apply jws_verify_sign|].
  split; [apply issued_payload_exp|].
  split; [unfold token_payload; apply lookup_insert_eq|].
  split; [apply issued_payload_exp|].
  split; [unfold token_payload; apply lookup_insert_eq|].
  rewrite timegm_add_seconds, timegm_add_days. lia.
Qed.

Lemma jws_sign_inj (key : string) (p1 p2 : gmap string Json) :
  jws_sign key p1 = jws_sign key p2 -> p1 = p2.
Proof.
  intros Heq. pose proof (jws_verify_sign key p1) as H1.
  rewrite Heq, jws_verify_sign in H1. congruence.
Qed.

(** X22: the two tokens of a login differ only by their times: neither
    carries a claim that says which kind it is.  With the clock standing
    still, the access token and the refresh token of a login answered 200
    are the same string exactly when the access lifetime (in seconds)
    equals the refresh lifetime (in days) times 86400. *)
Theorem login_tokens_coincide (request : Request) (w : World)
    (response : Response) (w' : World) :
  ticks w = [] ->
  CustomTokenObtainPairView_post request w = Returns response w' ->
  status response = HTTP_200_OK ->
  is_Some (body response !! "access") /\
  (body response !! "access" = body response !! "refresh"
   <-> ACCESS_TOKEN_LIFETIME (config w)
       = 86400 * REFRESH_TOKEN_LIFETIME (config w)).
Proof.
  intros Hticks Hpost Hstatus.
  destruct (login_complete request w response w' Hpost Hstatus)
    as (user & _ & _ & _ & Hresponse & _).
  cbv zeta in Hresponse. rewrite Hresponse. cbn [body].
  rewrite !(iter_advance_no_ticks _ w Hticks).
  rewrite lookup_insert_eq, lookup_insert_ne by discriminate.
  rewrite lookup_singleton_eq.
  split; [eexists; reflexivity|]. split.
  - intros [= Heq]. apply jws_sign_inj in Heq.
    pose proof (issued_payload_exp user
                  (ACCESS_TOKEN_LIFETIME (config w) * datetime.us_per_second)
                  (clock w) (clock w)) as Hexp.
    rewrite Heq, issued_payload_exp in Hexp.
    injection Hexp as Hexp.
    rewrite timegm_add_seconds, timegm_add_days in Hexp. lia.
  - intros Hlife.
    replace (ACCESS_TOKEN_LIFETIME (config w) * datetime.us_per_second)
      with (REFRESH_TOKEN_LIFETIME (config w) * datetime.us_per_day);
      [reflexivity|].
    unfold datetime.us_per_day. rewrite Hlife. ring.
Qed.

End Service.

(** * The concrete serialisation meets the assumptions *)

Lemma codec_undigits_digits (p : positive) :
  codec.undigits (codec.digits p) = Some p.
Proof.
  induction p as [p IH|p IH|]; cbn; [rewrite IH..|]; reflexivity.
Qed.

Lemma codec_verify_sign (key : string) (payload : gmap string Json) :
  codec.verify key (codec.sign key payload) = Some payload.
Proof.
  unfold codec.verify, codec.sign.
  change (Ascii.eqb "J" "J") with true. cbv iota.
  rewrite codec_undigits_digits. cbn [mbind option_bind].
  rewrite decode_encode. destruct (decide (key = key)); [reflexivity|].
  contradiction.
Qed.

Lemma codec_verify_empty (key : string) : codec.verify key "" = None.
Proof. reflexivity. Qed.

(** * The properties at work on the small database *)

(** C3 at a lifetime of 900 seconds. *)
Lemma issue_then_verify_witness :
  exists token iat exp,
    create_token codec.sign codec.SECRET_KEY
      (user_claims demo.alice) 900000000 demo.world
      = Returns token demo.world /\
    decode_token codec.verify codec.SECRET_KEY token demo.world
      = Returns (Some (<["iat" := JInt iat]>
                         (<["exp" := JInt exp]> (user_claims demo.alice))))
                demo.world /\
    exp - iat = 900.
Proof.
  destruct (issue_then_verify codec.sign codec.verify codec.SECRET_KEY
              codec_verify_sign (user_claims demo.alice) 900000000 demo.world)
    as (token & iat & exp & Hissue & Hverify & Hnow & Hlife).
  - reflexivity.
  - vm_compute. discriminate.
  - split; vm_compute; discriminate.
  - exists token, iat, exp. split; [exact Hissue|]. split; [exact Hverify|].
    unfold datetime.us_per_second in Hlife. lia.
Defined.

(** C3 fails at a lifetime of zero and at a negative lifetime (the token is
    issued and is expired at once), and at [timedelta.max] (the expiry
    instant is not a [datetime], so no token is issued). *)
Lemma issue_then_verify_counterexample :
  (exists token,
     create_token codec.sign codec.SECRET_KEY ∅ 0 demo.world
       = Returns token demo.world /\
     decode_token codec.verify codec.SECRET_KEY token demo.world
       = Returns None demo.world)
  /\ (exists token,
        create_token codec.sign codec.SECRET_KEY ∅ (-1000000) demo.world
          = Returns token demo.world /\
        decode_token codec.verify codec.SECRET_KEY token demo.world
          = Returns None demo.world)
  /\ create_token codec.sign codec.SECRET_KEY ∅ datetime.timedelta_max
                  demo.world
     = Raises OverflowError demo.world.
Proof.
  split; [|split].
  - exists (codec.sign codec.SECRET_KEY
              (token_payload ∅ 0 (clock demo.world) (clock demo.world))).
    split; vm_compute; reflexivity.
  - exists (codec.sign codec.SECRET_KEY
              (token_payload ∅ (-1000000) (clock demo.world)
                             (clock demo.world))).
    split; vm_compute; reflexivity.
  - vm_compute. reflexivity.
Qed.

(** C4 on a token that expires at second 1700000000, the very second the
    clock of the small database shows. *)
Lemma expiry_is_inclusive_witness :
  let token :=
    codec.sign codec.SECRET_KEY {[ "exp" := JInt 1700000000 ]} in
  jwt_decode codec.verify token codec.SECRET_KEY demo.world
    = Raises ExpiredSignatureError demo.world
  /\ decode_token codec.verify codec.SECRET_KEY token demo.world
     = Returns None demo.world
  /\ JWTAuthentication_authenticate codec.verify codec.py_int codec.SECRET_KEY
       (demo.with_authorization ("Bearer " +:+ token)) demo.world
     = Raises (AuthenticationFailed "Access token has expired") demo.world.
Proof.
  intros token.
  destruct (expiry_is_inclusive codec.verify codec.py_int
              codec.SECRET_KEY codec.SECRET_KEY codec.SECRET_KEY token
              {[ "exp" := JInt 1700000000 ]} 1700000000 demo.world)
    as (_ & Hat & _ & Hviews & Hauth).
  - apply codec_verify_sign.
  - reflexivity.
  - split; [apply Hat; reflexivity|].
    split; [apply Hviews; [reflexivity | vm_compute; discriminate]|].
    apply (Hauth eq_refl (demo.with_authorization ("Bearer " +:+ token))
                 ("Bearer " +:+ token)).
    + reflexivity.
    + reflexivity.
    + vm_compute. reflexivity.
    + vm_compute. discriminate.
Defined.

(** C5 on an unknown e-mail and on a wrong password. *)
Lemma login_failures_witness :
  CustomTokenObtainPairView_post codec.sign codec.check_password
    codec.SECRET_KEY (demo.credentials "b@x.com" "pw1") demo.world
    = Returns (detail "User does not exist" HTTP_404_NOT_FOUND) demo.world
  /\ CustomTokenObtainPairView_post codec.sign codec.check_password
       codec.SECRET_KEY (demo.credentials "a@x.com" "pw2") demo.world
     = Returns (detail "Invalid credentials" HTTP_401_UNAUTHORIZED) demo.world.
Proof.
  split.
  - apply (login_failures codec.sign codec.check_password codec.SECRET_KEY
             (demo.credentials "b@x.com" "pw1") demo.world).
    intros user Hin. apply list_elem_of_singleton in Hin. subst user.
    vm_compute. discriminate.
  - apply (login_failures codec.sign codec.check_password codec.SECRET_KEY
             (demo.credentials "a@x.com" "pw2") demo.world)
      with (user := demo.alice).
    + apply NoDup_singleton.
    + apply list_elem_of_singleton. reflexivity.
    + reflexivity.
    + reflexivity.
Defined.

(** A table with one row, holding the token "t1" of the user 1. *)
Lemma logout_deletes_or_reports_witness :
  let row := mkRefreshToken 1 1 "t1" 0 10 in
  let w := with_refresh_tokens [row] 2 demo.world in
  LogoutView_post (demo.with_refresh "t1") w
    = Returns (mkResponse {[ "success" := JStr "User logged out." ]}
                          HTTP_200_OK)
              (with_refresh_tokens [] 2 demo.world)
  /\ LogoutView_post (demo.with_refresh "t1")
       (with_refresh_tokens [] 2 demo.world)
     = Returns (detail "Invalid refresh token" HTTP_400_BAD_REQUEST)
               (with_refresh_tokens [] 2 demo.world)
  /\ LogoutView_post (demo.with_refresh "t2") w
     = Returns (detail "Invalid refresh token" HTTP_400_BAD_REQUEST) w
  /\ LogoutView_post (mkRequest ∅ ∅) w
     = Returns (detail "Refresh token is required" HTTP_400_BAD_REQUEST) w.
Proof.
  intros row w.
  destruct (logout_deletes_or_reports (demo.with_refresh "t1") w)
    as [Hheld _].
  destruct (Hheld "t1") as [Hpresent _]; [reflexivity | discriminate |].
  destruct (logout_deletes_or_reports (demo.with_refresh "t2") w)
    as [Hstray _].
  destruct (Hstray "t2") as [_ Habsent]; [reflexivity | discriminate |].
  destruct (logout_deletes_or_reports (mkRequest ∅ ∅) w) as [_ Hmissing].
  destruct (Hpresent row) as [Hfirst Hsecond].
  - apply NoDup_singleton.
  - apply NoDup_singleton.
  - apply list_elem_of_singleton. reflexivity.
  - reflexivity.
  - split; [exact Hfirst|]. split; [exact Hsecond|]. split.
    + apply Habsent. intros r Hr. apply list_elem_of_singleton in Hr.
      subst r. discriminate.
    + apply Hmissing. left. reflexivity.
Defined.

(** C6 fails for the empty token: it is held by no row, and the answer is
    "Refresh token is required", not "Invalid refresh token". *)
Lemma logout_deletes_or_reports_counterexample :
  (forall row, row ∈ refresh_tokens demo.world -> rt_token row <> "")
  /\ LogoutView_post (demo.with_refresh "") demo.world
     = Returns (detail "Refresh token is required" HTTP_400_BAD_REQUEST)
               demo.world
  /\ LogoutView_post (demo.with_refresh "") demo.world
     <> Returns (detail "Invalid refresh token" HTTP_400_BAD_REQUEST)
                demo.world.
Proof.
  split; [|split].
  - intros row Hin. inversion Hin.
  - reflexivity.
  - vm_compute. discriminate.
Qed.

(** C1: alice logs in, refreshes with a stray token and logs out with it,
    then logs in twice in a row; she is left with the row of her last
    login. *)
Lemma one_refresh_row_per_user_witness :
  let post :=
    CustomTokenObtainPairView_post codec.sign codec.check_password
                                   codec.SECRET_KEY in
  let request := demo.credentials "a@x.com" "pw1" in
  let w :=
    run codec.sign codec.verify codec.check_password codec.make_password
        codec.normalize_email codec.serializer_is_valid
        codec.serializer_errors codec.py_int codec.SECRET_KEY demo.world
        [Login request; Refresh (demo.with_refresh "x");
         Logout (demo.with_refresh "x")] in
  let first := post request w in
  let second := post request (world_of first) in
  (length (rows_of 1 w) <= 1)%nat
  /\ exists row1 row2,
       rows_of 1 (world_of first) = [row1] /\
       rows_of 1 (world_of second) = [row2] /\
       rt_token row2 = demo.token_in "refresh" (demo.answer second) /\
       rt_id row2 = rt_id row1.
Proof.
  intros post request w first second.
  destruct (one_refresh_row_per_user codec.sign codec.verify
              codec.check_password codec.make_password codec.normalize_email
              codec.serializer_is_valid codec.serializer_errors codec.py_int
              codec.SECRET_KEY demo.world
              [Login request; Refresh (demo.with_refresh "x");
               Logout (demo.with_refresh "x")] eq_refl) as [Hone Htwo].
  split; [apply Hone|].
  destruct (Htwo request request (demo.answer first) (demo.answer second)
                 (world_of first) (world_of second) "a@x.com")
    as (user & row1 & row2 & Hin & _ & Hrow1 & _ & Hrow2 & Hbody2 & _ & Hid);
    try (vm_compute; reflexivity).
  apply list_elem_of_singleton in Hin. subst user.
  exists row1, row2. split; [exact Hrow1|]. split; [exact Hrow2|].
  split; [|exact Hid].
  unfold demo.token_in. fold second. rewrite Hbody2. reflexivity.
Defined.

(** C2: alice logs in, logs out with the refresh token she was given, and
    the token still buys her an access token. *)
Lemma refresh_ignores_store_witness :
  let login :=
    CustomTokenObtainPairView_post codec.sign codec.check_password
      codec.SECRET_KEY (demo.credentials "a@x.com" "pw1") demo.world in
  let token := demo.token_in "refresh" (demo.answer login) in
  let logout := LogoutView_post (demo.with_refresh token) (world_of login) in
  logout
    = Returns (mkResponse {[ "success" := JStr "User logged out." ]}
                          HTTP_200_OK)
              (with_refresh_tokens [] 2 demo.world)
  /\ exists access,
       TokenRefreshView_post codec.sign codec.verify codec.py_int
         codec.SECRET_KEY (demo.with_refresh token) (world_of logout)
       = Returns (mkResponse {[ "access" := JStr access ]} HTTP_200_OK)
                 (world_of logout).
Proof.
  intros login token logout.
  split; [vm_compute; reflexivity|].
  destruct (refresh_ignores_store codec.sign codec.verify codec.py_int
              codec.SECRET_KEY codec_verify_empty
              (demo.with_refresh token) token
              (token_payload (user_claims demo.alice) (7 * datetime.us_per_day)
                             1700000000123456 1700000000123456)
              1700604800 1 demo.alice (world_of login))
    as (_ & _ & Hafter).
  - vm_compute. reflexivity.
  - apply codec_verify_sign.
  - vm_compute. reflexivity.
  - vm_compute. reflexivity.
  - vm_compute. reflexivity.
  - apply NoDup_singleton.
  - apply list_elem_of_singleton. reflexivity.
  - reflexivity.
  - split; vm_compute; discriminate.
  - eexists. apply (Hafter (demo.answer logout) (world_of logout)).
    vm_compute. reflexivity.
Defined.

(** C7: the access lifetime is changed from 900 to 60 seconds and alice
    logs in. *)
Lemma access_ttl_takes_effect_witness :
  let c := mkConfig 60 7 in
  let login :=
    CustomTokenObtainPairView_post codec.sign codec.check_password
      codec.SECRET_KEY (demo.credentials "a@x.com" "pw1")
      (with_config c demo.world) in
  exists payload,
    codec.verify codec.SECRET_KEY (demo.token_in "access" (demo.answer login))
      = Some payload /\
    payload !! "exp" = Some (JInt (1700000000 + 60)) /\
    payload !! "iat" = Some (JInt 1700000000).
Proof.
  intros c login.
  destruct (access_ttl_takes_effect codec.sign codec.verify
              codec.check_password codec.SECRET_KEY codec_verify_sign c
              (demo.credentials "a@x.com" "pw1") demo.world
              (demo.answer login) (world_of login))
    as [(access & payload & Hbody & Hverify & _ & _ & Hstill) _].
  - vm_compute. reflexivity.
  - reflexivity.
  - exists payload. unfold demo.token_in. rewrite Hbody.
    split; [exact Hverify|]. apply Hstill. reflexivity.
Defined.

(** C8: the three failures, and an answer for a token of the service's
    own making. *)
Lemma refresh_failures_witness :
  let post :=
    TokenRefreshView_post codec.sign codec.verify codec.py_int
                          codec.SECRET_KEY in
  let expired := codec.sign codec.SECRET_KEY {[ "exp" := JInt 1700000000 ]} in
  let orphan :=
    codec.sign codec.SECRET_KEY
      {[ "exp" := JInt 1800000000; "user_id" := JInt 7 ]} in
  let nameless := codec.sign codec.SECRET_KEY {[ "email" := JStr "a@x.com" ]} in
  post (mkRequest ∅ ∅) demo.world
    = Returns (detail "Refresh token is required" HTTP_400_BAD_REQUEST)
              demo.world
  /\ post (demo.with_refresh "x") demo.world
     = Returns (detail "Invalid or expired refresh token"
                       HTTP_401_UNAUTHORIZED) demo.world
  /\ post (demo.with_refresh expired) demo.world
     = Returns (detail "Invalid or expired refresh token"
                       HTTP_401_UNAUTHORIZED) demo.world
  /\ post (demo.with_refresh orphan) demo.world
     = Returns (detail "User not found" HTTP_404_NOT_FOUND) demo.world
  /\ (exists response w', post (demo.with_refresh orphan) demo.world
                          = Returns response w')
  /\ post (demo.with_refresh nameless) demo.world
     = Raises (KeyError "user_id") demo.world.
Proof.
  intros post expired orphan nameless.
  destruct (refresh_failures codec.sign codec.verify codec.py_int
              codec.SECRET_KEY (mkRequest ∅ ∅) demo.world)
    as (Hmissing & _).
  destruct (refresh_failures codec.sign codec.verify codec.py_int
              codec.SECRET_KEY (demo.with_refresh "x") demo.world)
    as (_ & Hstray & _).
  destruct (refresh_failures codec.sign codec.verify codec.py_int
              codec.SECRET_KEY (demo.with_refresh expired) demo.world)
    as (_ & Hexpired & _).
  destruct (refresh_failures codec.sign codec.verify codec.py_int
              codec.SECRET_KEY (demo.with_refresh orphan) demo.world)
    as (_ & Horphan & _ & Htotal & _).
  split; [apply Hmissing; left; reflexivity|].
  split.
  { apply (Hstray "x"); [reflexivity | discriminate | reflexivity]. }
  split.
  { destruct (Hexpired expired) as (_ & Hpast & _);
      [vm_compute; reflexivity | vm_compute; discriminate |].
    apply (Hpast {[ "exp" := JInt 1700000000 ]} 1700000000).
    - apply codec_verify_sign.
    - reflexivity.
    - vm_compute. discriminate. }
  split.
  { destruct (Horphan orphan) as (_ & _ & Hnobody);
      [vm_compute; reflexivity | vm_compute; discriminate |].
    apply (Hnobody {[ "exp" := JInt 1800000000; "user_id" := JInt 7 ]}
                   1800000000 7).
    - apply codec_verify_sign.
    - vm_compute. reflexivity.
    - vm_compute. reflexivity.
    - vm_compute. reflexivity.
    - intros user Hin. apply list_elem_of_singleton in Hin. subst user.
      discriminate. }
  split.
  { apply Htotal.
    - intros token payload Hreq Hverify.
      assert (Htoken : token = orphan).
      { unfold demo.with_refresh in Hreq. cbn [data] in Hreq.
        rewrite lookup_singleton_eq in Hreq. congruence. }
      subst token. unfold orphan in Hverify.
      rewrite codec_verify_sign in Hverify. injection Hverify as <-.
      exists 7. vm_compute. reflexivity.
    - apply NoDup_singleton.
    - split; vm_compute; discriminate. }
  destruct (refresh_failures codec.sign codec.verify codec.py_int
              codec.SECRET_KEY (demo.with_refresh nameless) demo.world)
    as (_ & _ & _ & _ & Hraises).
  destruct (Hraises nameless {[ "email" := JStr "a@x.com" ]})
    as [Hkey _].
  - apply lookup_singleton_eq.
  - vm_compute. discriminate.
  - apply codec_verify_sign.
  - intros s0 Hexp. discriminate Hexp.
  - intros exp Hexp. discriminate Hexp.
  - intros Hempty. apply (f_equal (fun m => m !! "email")) in Hempty.
    discriminate Hempty.
  - exact (Hkey eq_refl).
Defined.

(** C8 as first worded fails on tokens that verify and name no user in a
    form the view can read: one with an e-mail and no [user_id] raises
    [KeyError], one whose [user_id] is the string "one" raises
    [ValueError]; in neither case is there a response, so the failure is
    none of the three answers. *)
Lemma refresh_failures_counterexample :
  codec.verify codec.SECRET_KEY
    (codec.sign codec.SECRET_KEY {[ "email" := JStr "a@x.com" ]})
  = Some {[ "email" := JStr "a@x.com" ]}
  /\ TokenRefreshView_post codec.sign codec.verify codec.py_int
       codec.SECRET_KEY
       (demo.with_refresh
          (codec.sign codec.SECRET_KEY {[ "email" := JStr "a@x.com" ]}))
       demo.world
     = Raises (KeyError "user_id") demo.world
  /\ TokenRefreshView_post codec.sign codec.verify codec.py_int
       codec.SECRET_KEY
       (demo.with_refresh
          (codec.sign codec.SECRET_KEY {[ "user_id" := JStr "one" ]}))
       demo.world
     = Raises ValueError demo.world.
Proof.
  split; [apply codec_verify_sign|].
  split; vm_compute; reflexivity.
Qed.

(** C9: alice refreshes under two different configurations. *)
Lemma refresh_lifetime_is_fixed_witness :
  let token :=
    codec.sign codec.SECRET_KEY
      {[ "exp" := JInt 1800000000; "user_id" := JInt 1 ]} in
  let refresh :=
    TokenRefreshView_post codec.sign codec.verify codec.py_int
      codec.SECRET_KEY (demo.with_refresh token) demo.world in
  (exists payload,
     codec.verify codec.SECRET_KEY (demo.token_in "access" (demo.answer refresh))
       = Some payload /\
     payload !! "exp" = Some (JInt (1700000000 + 900)) /\
     payload !! "iat" = Some (JInt 1700000000))
  /\ TokenRefreshView_post codec.sign codec.verify codec.py_int
       codec.SECRET_KEY (demo.with_refresh token)
       (with_config (mkConfig 60 1) demo.world)
     = Returns (demo.answer refresh) (with_config (mkConfig 60 1) demo.world).
Proof.
  intros token refresh.
  destruct (refresh_lifetime_is_fixed codec.sign codec.verify codec.py_int
              codec.SECRET_KEY codec_verify_sign (demo.with_refresh token)
              demo.world (demo.answer refresh) (world_of refresh))
    as (access & payload & Hbody & Hverify & _ & _ & Hstill & Hconfig).
  - vm_compute. reflexivity.
  - reflexivity.
  - split; [|apply Hconfig].
    exists payload. unfold demo.token_in. rewrite Hbody.
    split; [exact Hverify|]. apply Hstill. reflexivity.
Defined.

(** C10: no header, a header of another scheme, and a bearer token that
    does not verify. *)
Lemma authenticate_defers_without_bearer_witness :
  let authenticate :=
    JWTAuthentication_authenticate codec.verify codec.py_int
                                   codec.SECRET_KEY in
  authenticate (mkRequest ∅ ∅) demo.world = Returns None demo.world
  /\ authenticate (demo.with_authorization "Basic abc") demo.world
     = Returns None demo.world
  /\ forall message w',
       authenticate (demo.with_authorization "Bearer abc") demo.world
         = Raises (AuthenticationFailed message) w' ->
       message = "Invalid token".
Proof.
  intros authenticate.
  destruct (authenticate_defers_without_bearer codec.verify codec.py_int
              codec.SECRET_KEY (mkRequest ∅ ∅) demo.world) as (Habsent & _).
  destruct (authenticate_defers_without_bearer codec.verify codec.py_int
              codec.SECRET_KEY (demo.with_authorization "Basic abc")
              demo.world) as (Hbasic & _).
  destruct (authenticate_defers_without_bearer codec.verify codec.py_int
              codec.SECRET_KEY (demo.with_authorization "Bearer abc")
              demo.world) as (_ & Hbearer & _).
  split; [apply Habsent; intros h Hh; discriminate Hh|].
  split.
  { apply Hbasic. intros h Hh. vm_compute in Hh.
    injection Hh as <-. reflexivity. }
  intros message w' Hraise.
  destruct (Hbearer message w' Hraise)
    as (h & token & Hh & _ & Htoken & Hcases).
  vm_compute in Hh. injection Hh as <-.
  vm_compute in Htoken. injection Htoken as <-.
  destruct Hcases as [[_ (payload & exp & Hverify & _)]
                     |[[Hmessage _]
                      |[_ (payload & v & Hverify & _)]]].
  - discriminate Hverify.
  - exact Hmessage.
  - discriminate Hverify.
Defined.
(** ** The further properties, run on the small database *)

Lemma codec_digits_no_space (p : positive) : no_space (codec.digits p) = true.
Proof. induction p as [q IH|q IH|]; [exact IH | exact IH | reflexivity]. Qed.

Lemma codec_sign_no_space (key : string) (payload : gmap string Json) :
  no_space (codec.sign key payload) = true.
Proof. unfold codec.sign. cbn [no_space]. apply codec_digits_no_space. Qed.

(** X1: alice has no refresh token; her login adds one row, under the
    next primary key. *)
Lemma login_writes_one_row_witness :
  let login :=
    CustomTokenObtainPairView_post codec.sign codec.check_password
      codec.SECRET_KEY (demo.credentials "a@x.com" "pw1") demo.world in
  rows_added demo.world (world_of login) = 1
  /\ exists row, rows_of 1 (world_of login) = [row] /\ rt_id row = 1.
Proof.
  intros login.
  destruct (login_writes_one_row codec.sign codec.check_password
              codec.SECRET_KEY (demo.credentials "a@x.com" "pw1") demo.world
              (demo.answer login) (world_of login))
    as (user & Hin & _ & _ & _ & _
        & [(_ & Hadded & row & Hrow & Hid & _)|(old & row & Hold & _)]).
  - split; constructor.
  - vm_compute. reflexivity.
  - reflexivity.
  - apply list_elem_of_singleton in Hin. subst user.
    split; [exact Hadded|]. exists row. split; [exact Hrow | exact Hid].
  - discriminate Hold.
Defined.

(** X2: alice logs in and logs out with the refresh token of the answer. *)
Lemma login_then_logout_witness :
  let login :=
    CustomTokenObtainPairView_post codec.sign codec.check_password
      codec.SECRET_KEY (demo.credentials "a@x.com" "pw1") demo.world in
  let token := demo.token_in "refresh" (demo.answer login) in
  exists w'',
    LogoutView_post (demo.with_refresh token) (world_of login)
      = Returns (mkResponse {[ "success" := JStr "User logged out." ]}
                            HTTP_200_OK) w'' /\
    forall r, r ∈ refresh_tokens w'' -> rt_token r <> token.
Proof.
  intros login token.
  destruct (login_then_logout codec.sign codec.verify codec.check_password
              codec.SECRET_KEY codec_verify_sign codec_verify_empty
              (demo.credentials "a@x.com" "pw1") demo.world
              (demo.answer login) (world_of login))
    as (user & refresh_token & row & _ & Hbody & _ & _ & _ & Hlogout).
  - split; constructor.
  - constructor.
  - vm_compute. reflexivity.
  - reflexivity.
  - assert (Htoken : token = refresh_token)
      by (unfold token, demo.token_in; rewrite Hbody; reflexivity).
    destruct (Hlogout (demo.with_refresh token)) as (w'' & Hpost & Hgone & _).
    { rewrite Htoken. apply lookup_singleton_eq. }
    exists w''. split; [exact Hpost|]. rewrite Htoken. exact Hgone.
Defined.

(** X3: the row alice's login writes expires in the second the refresh
    token names, seven days on. *)
Lemma stored_expiry_matches_token_witness :
  let login :=
    CustomTokenObtainPairView_post codec.sign codec.check_password
      codec.SECRET_KEY (demo.credentials "a@x.com" "pw1") demo.world in
  exists uid row payload,
    rows_of uid (world_of login) = [row] /\
    codec.verify codec.SECRET_KEY (rt_token row) = Some payload /\
    payload !! "exp" = Some (JInt 1700604800) /\
    datetime.timegm (rt_expires_at row) = 1700604800.
Proof.
  intros login.
  destruct (stored_expiry_matches_token codec.sign codec.verify
              codec.check_password codec.SECRET_KEY codec_verify_sign
              (demo.credentials "a@x.com" "pw1") demo.world
              (demo.answer login) (world_of login))
    as (user & refresh_token & payload & row & _ & _ & Hverify & _ & _ & _
        & Hexp & Hrow & Htoken & _ & Hexpires).
  - reflexivity.
  - split; constructor.
  - vm_compute. reflexivity.
  - reflexivity.
  - exists (user_id user), row, payload. split; [exact Hrow|].
    split; [rewrite Htoken; exact Hverify|].
    split; [exact Hexp | exact Hexpires].
Defined.

(** X12: a token made from alice's claims carries them. *)
Lemma create_token_claims_witness :
  exists token payload,
    create_token codec.sign codec.SECRET_KEY (user_claims demo.alice)
                 900000000 demo.world = Returns token demo.world /\
    codec.verify codec.SECRET_KEY token = Some payload /\
    payload !! "user_id" = Some (JInt 1) /\
    payload !! "exp" = Some (JInt 1700000900).
Proof.
  destruct (create_token_claims codec.sign codec.verify codec.SECRET_KEY
              codec_verify_sign (user_claims demo.alice) 900000000 demo.world)
    as [Hreturns _].
  { intros k Hk Hexp Hiat. unfold registered_claims in Hk.
    repeat (apply elem_of_cons in Hk as [->|Hk];
            [first [reflexivity | contradiction]|]).
    inversion Hk. }
  destruct (Hreturns
              (codec.sign codec.SECRET_KEY
                 (token_payload (user_claims demo.alice) 900000000
                                (clock demo.world) (clock demo.world)))
              demo.world)
    as (_ & _ & payload & Hverify & Hexp & _ & Hother).
  - vm_compute. reflexivity.
  - eexists _, payload. split; [vm_compute; reflexivity|].
    split; [exact Hverify|]. split; [|exact Hexp].
    rewrite Hother by discriminate. reflexivity.
Defined.

(** X5: alice refreshes with the refresh token of her login; the new
    access token carries her e-mail as the users table has it. *)
Lemma refresh_claims_from_database_witness :
  let login :=
    CustomTokenObtainPairView_post codec.sign codec.check_password
      codec.SECRET_KEY (demo.credentials "a@x.com" "pw1") demo.world in
  let token := demo.token_in "refresh" (demo.answer login) in
  let refresh :=
    TokenRefreshView_post codec.sign codec.verify codec.py_int
      codec.SECRET_KEY (demo.with_refresh token) (world_of login) in
  exists access payload,
    body (demo.answer refresh) = {[ "access" := JStr access ]} /\
    codec.verify codec.SECRET_KEY access = Some payload /\
    payload !! "email" = Some (JStr "a@x.com").
Proof.
  intros login token refresh.
  destruct (refresh_claims_from_database codec.sign codec.verify codec.py_int
              codec.SECRET_KEY codec_verify_sign (demo.with_refresh token)
              (world_of login) (demo.answer refresh) (world_of refresh))
    as (presented & decoded & user & access & payload & _ & _ & Hin & _
        & Hbody & Hverify & _ & Hemail & _).
  - vm_compute. reflexivity.
  - vm_compute. reflexivity.
  - assert (Husers : users (world_of login) = [demo.alice])
      by (vm_compute; reflexivity).
    rewrite Husers in Hin. apply list_elem_of_singleton in Hin. subst user.
    exists access, payload. split; [exact Hbody|].
    split; [exact Hverify | exact Hemail].
Defined.

(** X7: a token with no claim at all is answered 401, a token with an
    e-mail and no [user_id] raises [KeyError]. *)
Lemma refresh_without_user_id_witness :
  let post :=
    TokenRefreshView_post codec.sign codec.verify codec.py_int
                          codec.SECRET_KEY in
  let bare := codec.sign codec.SECRET_KEY ∅ in
  let nameless := codec.sign codec.SECRET_KEY {[ "email" := JStr "a@x.com" ]} in
  post (demo.with_refresh bare) demo.world
    = Returns (detail "Invalid or expired refresh token"
                      HTTP_401_UNAUTHORIZED) demo.world
  /\ post (demo.with_refresh nameless) demo.world
     = Raises (KeyError "user_id") demo.world.
Proof.
  intros post bare nameless. split.
  - destruct (refresh_without_user_id codec.sign codec.verify codec.py_int
                codec.SECRET_KEY codec_verify_empty (demo.with_refresh bare)
                bare ∅ demo.world) as [Hbare _].
    + apply lookup_singleton_eq.
    + apply codec_verify_sign.
    + reflexivity.
    + intros s0 Hexp. discriminate Hexp.
    + intros exp Hexp. discriminate Hexp.
    + exact (Hbare eq_refl).
  - destruct (refresh_without_user_id codec.sign codec.verify codec.py_int
                codec.SECRET_KEY codec_verify_empty
                (demo.with_refresh nameless) nameless
                {[ "email" := JStr "a@x.com" ]} demo.world) as [_ Hnameless].
    + apply lookup_singleton_eq.
    + apply codec_verify_sign.
    + reflexivity.
    + intros s0 Hexp. discriminate Hexp.
    + intros exp Hexp. discriminate Hexp.
    + apply Hnameless. intros Hempty.
      apply (f_equal (fun m => m !! "email")) in Hempty.
      discriminate Hempty.
Defined.

(** X6: alice presents the access token of her login as a refresh token
    and is given a new access token. *)
Lemma refresh_accepts_access_token_witness :
  let login :=
    CustomTokenObtainPairView_post codec.sign codec.check_password
      codec.SECRET_KEY (demo.credentials "a@x.com" "pw1") demo.world in
  let access := demo.token_in "access" (demo.answer login) in
  exists new_access,
    TokenRefreshView_post codec.sign codec.verify codec.py_int
      codec.SECRET_KEY (demo.with_refresh access) (world_of login)
    = Returns (mkResponse {[ "access" := JStr new_access ]} HTTP_200_OK)
              (world_of login).
Proof.
  intros login access.
  destruct (refresh_accepts_access_token codec.sign codec.verify
              codec.check_password codec.py_int codec.SECRET_KEY
              codec_verify_sign codec_verify_empty
              (demo.credentials "a@x.com" "pw1") demo.world
              (demo.answer login) (world_of login))
    as (user & token & Hbody & _ & _ & Hrefresh).
  - reflexivity.
  - apply NoDup_singleton.
  - vm_compute. discriminate.
  - split; vm_compute; discriminate.
  - vm_compute. reflexivity.
  - reflexivity.
  - assert (Htoken : access = token)
      by (unfold access, demo.token_in; rewrite Hbody; reflexivity).
    eexists. apply Hrefresh. rewrite Htoken. apply lookup_singleton_eq.
Defined.


(** X11: an access lifetime of 10^18 seconds is no [timedelta]. *)
Lemma login_lifetime_overflow_witness :
  let w := with_config (mkConfig 1000000000000000000 7) demo.world in
  CustomTokenObtainPairView_post codec.sign codec.check_password
    codec.SECRET_KEY (demo.credentials "a@x.com" "pw1") w
  = Raises OverflowError w.
Proof.
  intros w.
  apply (login_lifetime_overflow codec.sign codec.check_password
           codec.SECRET_KEY (demo.credentials "a@x.com" "pw1") demo.alice w).
  - apply NoDup_singleton.
  - apply list_elem_of_singleton. reflexivity.
  - reflexivity.
  - reflexivity.
  - left. intros [_ Hmax]. vm_compute in Hmax. apply Hmax. reflexivity.
Defined.

(** X18: a logout with a token no row holds leaves the small database as
    it is. *)
Lemma logout_only_removes_witness :
  let logout := LogoutView_post (demo.with_refresh "x") demo.world in
  status (demo.answer logout) = HTTP_400_BAD_REQUEST
  /\ world_of logout = demo.world.
Proof.
  intros logout.
  destruct (logout_only_removes (demo.with_refresh "x") demo.world)
    as (_ & Hreturns & _).
  destruct (Hreturns (demo.answer logout) (world_of logout))
    as [[Hstatus _]|[Hstatus Hworld]].
  - vm_compute. reflexivity.
  - vm_compute in Hstatus. discriminate Hstatus.
  - split; [exact Hstatus | exact Hworld].
Defined.

(** X8: alice presents the access token of her login. *)
Lemma authenticate_success_witness :
  let login :=
    CustomTokenObtainPairView_post codec.sign codec.check_password
      codec.SECRET_KEY (demo.credentials "a@x.com" "pw1") demo.world in
  let access := demo.token_in "access" (demo.answer login) in
  let request := demo.with_authorization ("Bearer " +:+ access) in
  exists payload,
    JWTAuthentication_authenticate codec.verify codec.py_int codec.SECRET_KEY
      request (world_of login)
    = Returns (Some (demo.alice, access)) (world_of login) /\
    codec.verify codec.SECRET_KEY access = Some payload /\
    payload !! "user_id" = Some (JInt 1).
Proof.
  intros login access request.
  destruct (authenticate_success codec.verify codec.py_int codec.SECRET_KEY
              request (world_of login)) as [Hreturns _].
  destruct (Hreturns demo.alice access (world_of login))
    as (header & payload & _ & _ & _ & Hverify & _ & _ & Hclaim & _).
  - vm_compute. reflexivity.
  - exists payload. split; [vm_compute; reflexivity|].
    split; [exact Hverify|].
    destruct Hclaim as [Hclaim|(s0 & _ & Hint)];
      [exact Hclaim | discriminate Hint].
Defined.

(** X19: a bearer token with an e-mail and no [user_id]. *)
Lemma authenticate_uncaught_errors_witness :
  let nameless := codec.sign codec.SECRET_KEY {[ "email" := JStr "a@x.com" ]} in
  let request := demo.with_authorization ("Bearer " +:+ nameless) in
  JWTAuthentication_authenticate codec.verify codec.py_int codec.SECRET_KEY
    request demo.world
  = Raises (KeyError "user_id") demo.world.
Proof.
  intros nameless request.
  destruct (authenticate_uncaught_errors codec.verify codec.py_int
              codec.SECRET_KEY request demo.world) as [_ Hraises].
  destruct (Hraises ("Bearer " +:+ nameless) nameless
              {[ "email" := JStr "a@x.com" ]}) as [Hkey _].
  - apply lookup_singleton_eq.
  - vm_compute. reflexivity.
  - vm_compute. reflexivity.
  - apply codec_verify_sign.
  - intros s0 Hexp. discriminate Hexp.
  - intros exp Hexp. discriminate Hexp.
  - exact (Hkey eq_refl).
Defined.

(** X9: the views and the authentication class share the key, and alice's
    access token authenticates her. *)
Lemma login_then_authenticate_witness :
  let login :=
    CustomTokenObtainPairView_post codec.sign codec.check_password
      codec.SECRET_KEY (demo.credentials "a@x.com" "pw1") demo.world in
  let access := demo.token_in "access" (demo.answer login) in
  JWTAuthentication_authenticate codec.verify codec.py_int codec.SECRET_KEY
    (demo.with_authorization ("Bearer " +:+ access)) (world_of login)
  = Returns (Some (demo.alice, access)) (world_of login).
Proof.
  intros login access.
  destruct (login_then_authenticate codec.sign codec.verify
              codec.check_password codec.py_int codec.SECRET_KEY
              codec.SECRET_KEY codec_verify_sign
              (demo.credentials "a@x.com" "pw1") demo.world
              (demo.answer login) (world_of login))
    as (user & token & Hbody & Hin & _ & Hauthenticate).
  - reflexivity.
  - exact codec_sign_no_space.
  - reflexivity.
  - apply NoDup_singleton.
  - vm_compute. discriminate.
  - vm_compute. reflexivity.
  - reflexivity.
  - assert (Htoken : access = token)
      by (unfold access, demo.token_in; rewrite Hbody; reflexivity).
    apply list_elem_of_singleton in Hin. subst user.
    rewrite Htoken. apply Hauthenticate. apply lookup_singleton_eq.
Defined.

(** X17: what follows the token is not read, and "Bearer " alone gives the
    empty token. *)
Lemma authenticate_reads_second_word_witness :
  let authenticate :=
    JWTAuthentication_authenticate codec.verify codec.py_int
                                   codec.SECRET_KEY in
  authenticate (demo.with_authorization "Bearer abc def") demo.world
    = authenticate (demo.with_authorization "Bearer abc") demo.world
  /\ authenticate (demo.with_authorization "Bearer ") demo.world
     = Raises (AuthenticationFailed "Invalid token") demo.world.
Proof.
  intros authenticate.
  destruct (authenticate_reads_second_word codec.verify codec.py_int
              codec.SECRET_KEY codec_verify_empty demo.world)
    as [Hsecond Hempty].
  split.
  - apply (Hsecond (demo.with_authorization "Bearer abc")
                   (demo.with_authorization "Bearer abc def") "abc" "def").
    + reflexivity.
    + apply lookup_singleton_eq.
    + apply lookup_singleton_eq.
  - apply (Hempty (demo.with_authorization "Bearer ") "").
    left. apply lookup_singleton_eq.
Defined.

(** X13: bob is created under the next id, and a second alice is not. *)
Lemma create_user_outcomes_witness :
  let create := create_user codec.make_password codec.normalize_email in
  create (Some "a@x.com") (Some "pw") demo.world
    = Raises IntegrityError demo.world
  /\ exists user w',
       create (Some "b@x.com") (Some "pw2") demo.world = Returns user w' /\
       user_id user = 2 /\
       users w' = [demo.alice; user] /\
       db_constraints w'.
Proof.
  intros create. split; [vm_compute; reflexivity|].
  destruct (create_user_outcomes codec.make_password codec.normalize_email
              (Some "b@x.com") (Some "pw2") demo.world) as [_ Hreturns].
  destruct (Hreturns (mkUser 2 "b@x.com" "pw2" None)
              (with_users [demo.alice; mkUser 2 "b@x.com" "pw2" None] 3
                          demo.world))
    as (_ & Hid & _ & _ & Husers & _ & _ & _ & Hdb).
  - vm_compute. reflexivity.
  - eexists _, _. split; [vm_compute; reflexivity|].
    split; [exact Hid|]. split; [exact Husers|].
    apply Hdb. split; [apply NoDup_singleton|].
    split; [apply Forall_singleton; reflexivity|].
    split; [apply NoDup_singleton|]. split; [split; constructor | constructor].
Defined.



(** X15: after a registration, a login and a logout the tokens on file are
    still unique, and a further logout answers. *)
Lemma schema_constraints_reachable_witness :
  let w :=
    run codec.sign codec.verify codec.check_password codec.make_password
        codec.normalize_email codec.serializer_is_valid
        codec.serializer_errors codec.py_int codec.SECRET_KEY demo.world
        [Register (demo.credentials "b@x.com" "pw2");
         Login (demo.credentials "b@x.com" "pw2");
         Logout (demo.with_refresh "x")] in
  NoDup (rt_token <$> refresh_tokens w)
  /\ exists response w',
       LogoutView_post (demo.with_refresh "y") w = Returns response w'.
Proof.
  intros w.
  destruct (schema_constraints_reachable codec.sign codec.verify
              codec.check_password codec.make_password codec.normalize_email
              codec.serializer_is_valid codec.serializer_errors codec.py_int
              codec.SECRET_KEY
              [Register (demo.credentials "b@x.com" "pw2");
               Login (demo.credentials "b@x.com" "pw2");
               Logout (demo.with_refresh "x")] demo.world)
    as [(_ & _ & _ & _ & Htokens) Hlogout].
  - left. split; [apply NoDup_singleton|].
    split; [apply Forall_singleton; reflexivity|].
    split; [apply NoDup_singleton|]. split; [split; constructor | constructor].
  - split; [exact Htokens | apply Hlogout].
Defined.

(** X16: alice is given a username; her id and e-mail stay. *)
Lemma update_keeps_identity_witness :
  exists updated w',
    UserUpdateSerializer_update demo.alice {[ "username" := Some "al" ]}
                                demo.world = Returns updated w' /\
    user_id updated = 1 /\
    user_email updated = "a@x.com" /\
    user_username updated = Some "al" /\
    db_constraints w'.
Proof.
  destruct (update_keeps_identity demo.alice {[ "username" := Some "al" ]}
              demo.world) as [Hreturns _].
  - split; [apply NoDup_singleton|].
    split; [apply Forall_singleton; reflexivity|].
    split; [apply NoDup_singleton|]. split; [split; constructor | constructor].
  - apply list_elem_of_singleton. reflexivity.
  - destruct (Hreturns (mkUser 1 "a@x.com" "pw1" (Some "al"))
                (with_users [mkUser 1 "a@x.com" "pw1" (Some "al")] 2
                            demo.world))
      as (Hid & _ & _ & Hemail & _ & _ & _ & _ & Hdb & _).
    + vm_compute. reflexivity.
    + eexists _, _. split; [vm_compute; reflexivity|].
      split; [exact Hid|]. split; [apply Hemail; reflexivity|].
      split; [reflexivity | exact Hdb].
Defined.

(** X21: on a clock that stands still, the access token of alice's login
    lives 900 seconds to the second. *)
Lemma token_lifetimes_within_tolerance_witness :
  let login :=
    CustomTokenObtainPairView_post codec.sign codec.check_password
      codec.SECRET_KEY (demo.credentials "a@x.com" "pw1") demo.world in
  exists access claims exp iat,
    body (demo.answer login) !! "access" = Some (JStr access) /\
    codec.verify codec.SECRET_KEY access = Some claims /\
    claims !! "exp" = Some (JInt exp) /\
    claims !! "iat" = Some (JInt iat) /\
    Z.abs (exp - (iat + 900)) < 5.
Proof.
  intros login.
  destruct (token_lifetimes_within_tolerance codec.sign codec.verify
              codec.check_password codec.SECRET_KEY codec_verify_sign
              (demo.credentials "a@x.com" "pw1") demo.world
              (demo.answer login) (world_of login))
    as (access & refresh & access_claims & refresh_claims & exp_a & iat_a
        & exp_r & iat_r & Hbody & _ & Hverify & _ & Hexp & Hiat & _ & _
        & Hnear & _).
  - vm_compute. reflexivity.
  - reflexivity.
  - split; vm_compute; [discriminate | reflexivity].
  - split; vm_compute; [discriminate | reflexivity].
  - exists access, access_claims, exp_a, iat_a. auto.
Defined.

(** X22: with an access lifetime of 604800 seconds and a refresh lifetime
    of 7 days, alice is given the same token twice. *)
Lemma login_tokens_coincide_witness :
  let w := with_config (mkConfig 604800 7) demo.world in
  let login :=
    CustomTokenObtainPairView_post codec.sign codec.check_password
      codec.SECRET_KEY (demo.credentials "a@x.com" "pw1") w in
  status (demo.answer login) = HTTP_200_OK
  /\ demo.token_in "access" (demo.answer login)
     = demo.token_in "refresh" (demo.answer login).
Proof.
  intros w login. split; [reflexivity|].
  destruct (login_tokens_coincide codec.sign codec.verify
              codec.check_password codec.SECRET_KEY codec_verify_sign
              (demo.credentials "a@x.com" "pw1") w
              (demo.answer login) (world_of login))
    as [_ [_ Hsame]].
  - reflexivity.
  - vm_compute. reflexivity.
  - reflexivity.
  - unfold demo.token_in. rewrite Hsame; reflexivity.
Defined.
